(** * tools/make_src_dist.py: the source-distribution packager of devilutionX

    A shallow embedding of the script and the properties of it that its
    specification states.  Python [str] and [bytes] values are byte strings
    ([string], a list of 8-bit [ascii]): a [str] is its UTF-8 encoding, and
    decoding checks that the bytes are one.  The locale's encoding, with
    which [VERSION] is read and paths are passed to the system, is taken to
    be UTF-8.  The first part of the file holds the embedding, the second
    the lemmas and theorems about it.

    What the embedding leaves to its parameters: the behaviour of the
    external programs (cmake, git), what [argparse] makes of the command
    line, the quoting of [subprocess.list2cmdline] in log lines, and the
    bytes of the compressed archive.  What it leaves out: file metadata,
    what the system refuses for want of permission or space or because of
    the length or the bytes of a name, messages logged below the level
    [INFO] of the logger, and
    the resolution of symbolic links and of [..] (a link in the middle of a
    path is not followed: nothing is seen below it; where the script would
    read or write through a link at the end of a path the model raises
    [Unmodelled]; a [..] component is a name like another: [_ROOT_DIR] is
    resolved and git lists no path that holds one). *)

From Stdlib Require Import String Ascii List Bool Arith ZArith Lia.
From stdpp Require Import base option gmap sets list strings sorting.
Import ListNotations.

(** ** Exceptions and results *)

Inductive exn : Type :=
| FileNotFoundError
| FileExistsError
| NotADirectoryError
| IsADirectoryError
| SameFileError
| RmtreeOnSymlink
| UnicodeDecodeError
| SystemExit (code : Z)
| Unmodelled.

Inductive result (A : Type) : Type :=
| Ok (a : A)
| Raise (e : exn).
Arguments Ok {A} a.
Arguments Raise {A} e.

#[global] Instance result_ret : MRet result := fun A a => Ok a.
#[global] Instance result_bind : MBind result := fun A B f m =>
  match m with
  | Ok a => f a
  | Raise e => Raise e
  end.

(** ** Python string operations used by the script *)

Module PyStr.

(** [s.startswith(p)] *)
Fixpoint startswith (s p : string) {struct p} : bool :=
  match p with
  | EmptyString => true
  | String a p' =>
      match s with
      | EmptyString => false
      | String b s' => if Ascii.eqb a b then startswith s' p' else false
      end
  end.

(** [needle in hay] on strings: the substring test. *)
Fixpoint str_in (needle hay : string) : bool :=
  startswith hay needle ||
  match hay with
  | EmptyString => false
  | String _ hay' => str_in needle hay'
  end.

(** [s.endswith(suf)] *)
Fixpoint endswith (s suf : string) : bool :=
  String.eqb s suf ||
  match s with
  | EmptyString => false
  | String _ s' => endswith s' suf
  end.

(** [c.upper()] on an ASCII character: a..z go to A..Z. *)
Definition upper_ascii (c : ascii) : ascii :=
  let n := nat_of_ascii c in
  if (97 <=? n) && (n <=? 122) then ascii_of_nat (n - 32) else c.

(** [s.upper()] *)
Fixpoint upper (s : string) : string :=
  match s with
  | EmptyString => EmptyString
  | String c s' => String (upper_ascii c) (upper s')
  end.

Definition is_empty (s : string) : bool :=
  match s with EmptyString => true | String _ _ => false end.

(** [s.rstrip(chars)]: the longest suffix made of [chars] is removed. *)
Fixpoint rstrip_chars (strip : ascii -> bool) (s : string) : string :=
  match s with
  | EmptyString => EmptyString
  | String c s' =>
      let r := rstrip_chars strip s' in
      if is_empty r && strip c then EmptyString else String c r
  end.

(** ASCII whitespace as [bytes.rstrip()] strips it: space, [\t], [\n],
    [\r], [\x0b], [\x0c]. *)
Definition is_space_bytes (c : ascii) : bool :=
  let n := nat_of_ascii c in
  (n =? 32) || ((9 <=? n) && (n <=? 13)).

(** Whitespace below 128 as [str.rstrip()] strips it: the above and the
    separators [\x1c] to [\x1f]. *)
Definition is_space_str (c : ascii) : bool :=
  let n := nat_of_ascii c in
  is_space_bytes c || ((28 <=? n) && (n <=? 31)).

Definition is_nul (c : ascii) : bool := nat_of_ascii c =? 0.

(** *** Text

    The characters of a text are the byte strings that encode them in
    UTF-8, one to four bytes each. *)

Definition byte_in (lo hi : nat) (c : ascii) : bool :=
  let n := nat_of_ascii c in (lo <=? n) && (n <=? hi).

Definition continuation (c : ascii) : bool := byte_in 128 191 c.

(** The second byte after the first byte [a] of a three-byte character: no
    overlong form (after [E0]) and no surrogate (after [ED]). *)
Definition second_of_three (a b : ascii) : bool :=
  let x := nat_of_ascii a in
  if x =? 224 then byte_in 160 191 b
  else if x =? 237 then byte_in 128 159 b
  else continuation b.

(** The second byte after the first byte [a] of a four-byte character: no
    overlong form (after [F0]) and nothing above U+10FFFF (after [F4]). *)
Definition second_of_four (a b : ascii) : bool :=
  let x := nat_of_ascii a in
  if x =? 240 then byte_in 144 191 b
  else if x =? 244 then byte_in 128 143 b
  else continuation b.

(** The characters that the bytes [s] encode, as the strict UTF-8 decoder
    reads them; [None] when [s] is not well formed. *)
Fixpoint utf8_chars (s : string) : option (list string) :=
  match s with
  | EmptyString => Some []
  | String a r1 =>
      if byte_in 0 127 a then cons (String a "") <$> utf8_chars r1
      else
        match r1 with
        | EmptyString => None
        | String b r2 =>
            if byte_in 194 223 a then
              if continuation b
              then cons (String a (String b "")) <$> utf8_chars r2
              else None
            else
              match r2 with
              | EmptyString => None
              | String c r3 =>
                  if byte_in 224 239 a then
                    if second_of_three a b && continuation c
                    then cons (String a (String b (String c "")))
                           <$> utf8_chars r3
                    else None
                  else
                    match r3 with
                    | EmptyString => None
                    | String d r4 =>
                        if byte_in 240 244 a && second_of_four a b &&
                           continuation c && continuation d
                        then cons (String a (String b (String c (String d ""))))
                               <$> utf8_chars r4
                        else None
                    end
              end
        end
  end.

(** The bytes decoded into characters; the errors are [strict]. *)
Definition decode_chars (b : string) : result (list string) :=
  match utf8_chars b with
  | Some chars => Ok chars
  | None => Raise UnicodeDecodeError
  end.

(** [b.decode()]: the text, which is the same bytes, when they are
    well-formed UTF-8. *)
Definition decode (b : string) : result string :=
  match utf8_chars b with
  | Some _ => Ok b
  | None => Raise UnicodeDecodeError
  end.

(** [s.encode()], of a text read from literals or decoded strictly: it
    holds no lone surrogate, on which encoding would fail. *)
Definition encode (s : string) : string := s.

(** The text made of the given characters. *)
Definition join_chars (chars : list string) : string := String.concat "" chars.

Definition cr : string := String (ascii_of_nat 13) "".
Definition lf : string := String (ascii_of_nat 10) "".

(** What reading in text mode with universal newlines makes of the line
    ends: [\r\n] and [\r] become [\n]. *)
Fixpoint universal_newlines (chars : list string) : list string :=
  match chars with
  | [] => []
  | c :: rest =>
      if String.eqb c cr then
        lf :: match rest with
              | d :: rest' =>
                  if String.eqb d lf then universal_newlines rest'
                  else universal_newlines rest
              | [] => []
              end
      else c :: universal_newlines rest
  end.

(** The encoding of the character U+0080..U+07FF and U+0800..U+FFFF with
    the given bytes. *)
Definition char2 (a b : nat) : string :=
  String (ascii_of_nat a) (String (ascii_of_nat b) "").
Definition char3 (a b c : nat) : string :=
  String (ascii_of_nat a) (String (ascii_of_nat b) (String (ascii_of_nat c) "")).

(** The white space above U+007F: U+0085, U+00A0, U+1680, U+2000 to
    U+200A, U+2028, U+2029, U+202F, U+205F and U+3000. *)
Definition wide_spaces : list string :=
  [char2 194 133; char2 194 160; char3 225 154 128;
   char3 226 128 128; char3 226 128 129; char3 226 128 130;
   char3 226 128 131; char3 226 128 132; char3 226 128 133;
   char3 226 128 134; char3 226 128 135; char3 226 128 136;
   char3 226 128 137; char3 226 128 138;
   char3 226 128 168; char3 226 128 169; char3 226 128 175;
   char3 226 129 159; char3 227 128 128].

(** [c.isspace()] of a character. *)
Definition is_space (c : string) : bool :=
  match c with
  | String a EmptyString => is_space_str a
  | _ => existsb (String.eqb c) wide_spaces
  end.

Definition is_nil {A : Type} (l : list A) : bool :=
  match l with [] => true | _ :: _ => false end.

(** [s.rstrip()] on the characters of a text. *)
Fixpoint rstrip (strip : string -> bool) (chars : list string) : list string :=
  match chars with
  | [] => []
  | c :: rest =>
      let r := rstrip strip rest in
      if is_nil r && strip c then [] else c :: r
  end.

End PyStr.

(** ** The fragment of Python's [re] the script's patterns use

    Literals, concatenation, alternation, [?], and the anchors [^] and [$]
    without [re.MULTILINE]: [^] matches at the start of the string only, [$]
    at its end or just before a newline that ends it. *)

Module Re.

Inductive re : Type :=
| Eps
| Chr (c : ascii)
| Cat (r1 r2 : re)
| Alt (r1 r2 : re)
| Opt (r : re)
| Bol
| Eol.

(** A literal word. *)
Fixpoint lit (s : string) : re :=
  match s with
  | EmptyString => Eps
  | String c s' => Cat (Chr c) (lit s')
  end.

(** [r|r1|r2|...] *)
Fixpoint alts (r : re) (rs : list re) : re :=
  match rs with
  | [] => r
  | r' :: rs' => Alt r (alts r' rs')
  end.

Definition at_eol (s : string) : bool :=
  String.eqb s "" || String.eqb s (String "010"%char "").

(** Backtracking matcher in continuation-passing style: [matches r b s k]
    tries [r] at the front of [s], [b] telling whether that position is the
    start of the subject string, and hands the rest to [k]. *)
Fixpoint matches (r : re) (b : bool) (s : string)
    (k : bool -> string -> bool) : bool :=
  match r with
  | Eps => k b s
  | Chr c =>
      match s with
      | String c' s' => if Ascii.eqb c c' then k false s' else false
      | EmptyString => false
      end
  | Cat r1 r2 => matches r1 b s (fun b' s' => matches r2 b' s' k)
  | Alt r1 r2 => matches r1 b s k || matches r2 b s k
  | Opt r1 => matches r1 b s k || k b s
  | Bol => if b then k b s else false
  | Eol => if at_eol s then k b s else false
  end.

Fixpoint search_from (r : re) (b : bool) (s : string) : bool :=
  matches r b s (fun _ _ => true) ||
  match s with
  | EmptyString => false
  | String _ s' => search_from r false s'
  end.

(** [re.search(r, s) is not None] *)
Definition search (r : re) (s : string) : bool := search_from r true s.

(** Declarative reading: [Match r b w rest] says that [r] matches the word
    [w] when [rest] follows it and [b] tells whether [w] starts at the start
    of the subject. *)
Inductive Match : re -> bool -> string -> string -> Prop :=
| MEps b rest : Match Eps b "" rest
| MChr c b rest : Match (Chr c) b (String c "") rest
| MCat r1 r2 b w1 w2 rest :
    Match r1 b w1 (w2 +:+ rest) ->
    Match r2 (b && PyStr.is_empty w1) w2 rest ->
    Match (Cat r1 r2) b (w1 +:+ w2) rest
| MAltL r1 r2 b w rest : Match r1 b w rest -> Match (Alt r1 r2) b w rest
| MAltR r1 r2 b w rest : Match r2 b w rest -> Match (Alt r1 r2) b w rest
| MOptS r b w rest : Match r b w rest -> Match (Opt r) b w rest
| MOptN r b rest : Match (Opt r) b "" rest
| MBol rest : Match Bol true "" rest
| MEol b rest : at_eol rest = true -> Match Eol b "" rest.

End Re.

(** ** Module-level constants of the script *)

Definition _DEPS : list string :=
  ["asio"; "libmpq"; "libsmackerdec";
   "libzt"; "sdl_audiolib"; "simpleini"; "unordered_dense"].
Definition _ALWAYS_VENDORED_DEPS : list string :=
  ["asio"; "libmpq"; "libsmackerdec"; "libzt"].
Definition _DEPS_NOT_VENDORED_BY_DEFAULT : list string :=
  ["googletest"; "benchmark"; "sdl2"; "sdl_image";
   "libpng"; "libfmt"; "bzip2"; "libsodium"].

(** ** class Version *)

Record Version : Type := mkVersion {
  prefix : string;
  commit_sha : string;
  str : string
}.

(** [Version.__init__] *)
Definition Version_init (prefix commit_sha : string) : Version :=
  {| prefix := prefix;
     commit_sha := commit_sha;
     str := if PyStr.str_in "-" prefix
            then prefix +:+ "-" +:+ commit_sha
            else prefix |}.

(** [Version.__str__] *)
Definition Version_str (v : Version) : string := str v.

(** ** Dependency selection in [main] *)

(** [f'-DDEVILUTIONX_SYSTEM_{dep.upper()}=OFF'] *)
Definition system_off_flag (dep : string) : string :=
  "-DDEVILUTIONX_SYSTEM_" +:+ PyStr.upper dep +:+ "=OFF".

(** [sorted(xs)] on strings: Python compares [str] by code point. *)
Definition sorted (xs : list string) : list string :=
  merge_sort String.le xs.

(** [sorted(set(_DEPS) - set(_ALWAYS_VENDORED_DEPS))], the dependencies the
    first loop of [main] runs over. *)
Definition default_off_deps : list string :=
  sorted (elements
    ((list_to_set _DEPS : gset string) ∖ list_to_set _ALWAYS_VENDORED_DEPS)).

(** The dependencies for which [main] appends a [..._SYSTEM_...=OFF] flag,
    in the order of the two loops. *)
Definition system_off_deps (fully_vendored : bool) : list string :=
  default_off_deps ++
  (if fully_vendored then _DEPS_NOT_VENDORED_BY_DEFAULT else []).

(** [configure_args] as [main] builds it; [root] and [build] stand for
    [str(_ROOT_DIR)] and [str(_BUILD_DIR)]. *)
Definition configure_args (root build : string) (fully_vendored : bool)
    : list string :=
  let args := ["-S" +:+ root; "-B" +:+ build; "-DBUILD_ASSETS_MPQ=ON"] in
  let args := args ++ map system_off_flag default_off_deps in
  if fully_vendored then
    (args ++ map system_off_flag _DEPS_NOT_VENDORED_BY_DEFAULT)
      ++ ["-DDISCORD_INTEGRATION=ON"]
  else args.

(** The [..._SYSTEM_...=OFF] entries of an argument list. *)
Definition is_system_off_flag (arg : string) : bool :=
  PyStr.startswith arg "-DDEVILUTIONX_SYSTEM_" && PyStr.endswith arg "=OFF".

(** The list the copy loop of [main] runs over:
    [_DEPS + (_DEPS_NOT_VENDORED_BY_DEFAULT if args.fully_vendored else [])]. *)
Definition copied_deps (fully_vendored : bool) : list string :=
  _DEPS ++ (if fully_vendored then _DEPS_NOT_VENDORED_BY_DEFAULT else []).

(** ** pathlib

    Every path of the script is built from [_ROOT_DIR], which is absolute:
    a path is the list of its components below the root directory.
    A leading double slash, which pathlib keeps apart, is read as the root. *)

Module PyPath.

Definition path : Type := list string.

(** [s.split(sep)] for a one-character separator. *)
Fixpoint split (sep : ascii) (s : string) : list string :=
  match s with
  | EmptyString => [EmptyString]
  | String c s' =>
      if Ascii.eqb c sep then EmptyString :: split sep s'
      else match split sep s' with
           | [] => [String c EmptyString]
           | w :: ws => String c w :: ws
           end
  end.

(** The components of a path string: empty and [.] components are dropped. *)
Definition parse_parts (s : string) : path :=
  List.filter (fun c => negb (String.eqb c "") && negb (String.eqb c "."))
         (split "/" s).

(** [p.joinpath(s)]: an absolute [s] replaces [p]. *)
Definition joinpath (p : path) (s : string) : path :=
  if PyStr.startswith s "/" then parse_parts s else p ++ parse_parts s.

(** [p.parent] *)
Definition parent (p : path) : path := removelast p.

(** [p.name], [os.path.basename] *)
Definition name (p : path) : string := List.last p "".

(** [str(p)], [os.fspath(p)] *)
Definition fspath (p : path) : string :=
  match p with
  | [] => "/"
  | _ => String.concat "" (map (fun c => "/" +:+ c) p)
  end.

(** [os.path.normpath], and [os.path.abspath] of an absolute path: empty
    and [.] components go, and [..] takes the component before it with it,
    or goes alone at the root. *)
Definition normpath (p : path) : path :=
  fold_left (fun seen c =>
               if String.eqb c "" || String.eqb c "." then seen
               else if String.eqb c ".." then removelast seen
               else seen ++ [c])
            p [].

(** [p] is [q] or an ancestor of [q]. *)
Fixpoint is_prefix (p q : path) : bool :=
  match p, q with
  | [], _ => true
  | c :: p', d :: q' => String.eqb c d && is_prefix p' q'
  | _ :: _, [] => false
  end.

End PyPath.

(** ** The patterns of the script *)

(** [(/|^)] *)
Definition sep_or_bol : Re.re := Re.Alt (Re.Chr "/") Re.Bol.

(** [(/|$)] *)
Definition sep_or_eol : Re.re := Re.Alt (Re.Chr "/") Re.Eol.

(** The directory names of [_IGNORE_DEP_DIR_RE]:
    [tests?|other|vcx?proj|examples?|doxygen|docs?|asio-src/asio/src] *)
Definition ignored_dir_names : Re.re :=
  Re.alts (Re.Cat (Re.lit "test") (Re.Opt (Re.Chr "s")))
    [Re.lit "other";
     Re.Cat (Re.lit "vc") (Re.Cat (Re.Opt (Re.Chr "x")) (Re.lit "proj"));
     Re.Cat (Re.lit "example") (Re.Opt (Re.Chr "s"));
     Re.lit "doxygen";
     Re.Cat (Re.lit "doc") (Re.Opt (Re.Chr "s"));
     Re.lit "asio-src/asio/src"].

(** [(/|^)\.|(/|^)(tests?|...|asio-src/asio/src)(/|$)] *)
Definition _IGNORE_DEP_DIR_RE : Re.re :=
  Re.Alt (Re.Cat sep_or_bol (Re.Chr "."))
         (Re.Cat sep_or_bol (Re.Cat ignored_dir_names sep_or_eol)).

(** [(^\.|Makefile|vcx?proj|example|doxygen|docs?|\.(doxy|cmd|png|html|ico|icns)$)] *)
Definition _IGNORE_DEP_FILE_RE : Re.re :=
  Re.alts (Re.Cat Re.Bol (Re.Chr "."))
    [Re.lit "Makefile";
     Re.Cat (Re.lit "vc") (Re.Cat (Re.Opt (Re.Chr "x")) (Re.lit "proj"));
     Re.lit "example";
     Re.lit "doxygen";
     Re.Cat (Re.lit "doc") (Re.Opt (Re.Chr "s"));
     Re.Cat (Re.Chr ".")
       (Re.Cat (Re.alts (Re.lit "doxy")
                  [Re.lit "cmd"; Re.lit "png"; Re.lit "html"; Re.lit "ico";
                   Re.lit "icns"])
               Re.Eol)].

(** [(^|/)\.gitkeep$], the pattern of the copy loop of [main]. *)
Definition gitkeep_re : Re.re :=
  Re.Cat (Re.Alt Re.Bol (Re.Chr "/")) (Re.Cat (Re.lit ".gitkeep") Re.Eol).

(** ** ignore_dep_src *)

(** What an [ignore] callback hands to [shutil.copytree]: a list, or a
    [filter] object, which is an iterator that a membership test consumes. *)
Inductive ignored : Type :=
| IgnList (names : list string)
| IgnIter (pending : list string).

(** The inner [ignore_name] of [ignore_dep_src]. *)
Definition ignore_name (name : string) : bool :=
  Re.search _IGNORE_DEP_FILE_RE name || Re.search _IGNORE_DEP_DIR_RE name.

Definition ignore_dep_src (src : string) (names : list string) : ignored :=
  if PyStr.str_in "sdl_audiolib" src then
    IgnList (List.filter
      (fun _ => PyStr.endswith src "/sdl_audiolib-src/3rdparty/fmt") names)
  else if Re.search _IGNORE_DEP_DIR_RE src then IgnList names
  else IgnIter (List.filter ignore_name names).

(** The two general rules alone, as the code after the first [if] of
    [ignore_dep_src] applies them. *)
Definition general_rules (src : string) (names : list string) : ignored :=
  if Re.search _IGNORE_DEP_DIR_RE src then IgnList names
  else IgnIter (List.filter ignore_name names).

(** ** The file system

    A tree of directories, regular files and symbolic links.  A directory
    lists its entries in the order [os.scandir] yields them.  Symbolic links
    are leaves: an operation that would have to follow one raises
    [Unmodelled]. *)

Module Fs.

#[warnings="-register-all"]
Inductive node : Type :=
| File (data : string)
| Symlink (target : string)
| Dir (entries : list (string * node)).

Fixpoint lookup_entry (name : string) (es : list (string * node))
    : option node :=
  match es with
  | [] => None
  | (k, v) :: es' => if String.eqb k name then Some v else lookup_entry name es'
  end.

Fixpoint set_entry (name : string) (n : node) (es : list (string * node))
    : list (string * node) :=
  match es with
  | [] => [(name, n)]
  | (k, v) :: es' =>
      if String.eqb k name then (k, n) :: es' else (k, v) :: set_entry name n es'
  end.

Fixpoint remove_entry (name : string) (es : list (string * node))
    : list (string * node) :=
  match es with
  | [] => []
  | (k, v) :: es' =>
      if String.eqb k name then es' else (k, v) :: remove_entry name es'
  end.

Fixpoint lookup (n : node) (p : PyPath.path) : option node :=
  match p with
  | [] => Some n
  | c :: p' =>
      match n with
      | Dir es =>
          match lookup_entry c es with
          | Some child => lookup child p'
          | None => None
          end
      | _ => None
      end
  end.

(** [os.path.isdir(p)] *)
Definition is_dir (n : node) (p : PyPath.path) : bool :=
  match lookup n p with Some (Dir _) => true | _ => false end.

(** [p.exists()], which follows a link *)
Definition exists_ (n : node) (p : PyPath.path) : result bool :=
  match lookup n p with
  | Some (Symlink _) => Raise Unmodelled
  | Some _ => Ok true
  | None => Ok false
  end.

Definition is_link (n : node) (p : PyPath.path) : bool :=
  match lookup n p with Some (Symlink _) => true | _ => false end.

Fixpoint fresh_dirs (p : PyPath.path) : node :=
  match p with
  | [] => Dir []
  | c :: p' => Dir [(c, fresh_dirs p')]
  end.

(** [p.mkdir(parents=True, exist_ok=exist_ok)], [os.makedirs(p, exist_ok)] *)
Fixpoint makedirs (exist_ok : bool) (n : node) (p : PyPath.path)
    : result node :=
  match n with
  | Dir es =>
      match p with
      | [] => if exist_ok then Ok n else Raise FileExistsError
      | c :: p' =>
          match lookup_entry c es with
          | Some child =>
              child' ← makedirs exist_ok child p';
              Ok (Dir (set_entry c child' es))
          | None => Ok (Dir (set_entry c (fresh_dirs p') es))
          end
      end
  | File _ =>
      match p with [] => Raise FileExistsError | _ => Raise NotADirectoryError end
  | Symlink _ => Raise Unmodelled
  end.

(** Nothing stands in the way of [makedirs] with [exist_ok]: what there is
    on the way to [p] and at [p] is directories. *)
Fixpoint unobstructed (n : node) (p : PyPath.path) : bool :=
  match n with
  | Dir es =>
      match p with
      | [] => true
      | c :: p' =>
          match lookup_entry c es with
          | Some child => unobstructed child p'
          | None => true
          end
      end
  | _ => false
  end.

(** Replaces what is at [p], whose parent directory must exist, by what [f]
    makes of it. *)
Fixpoint update (f : option node -> result node) (n : node) (p : PyPath.path)
    : result node :=
  match p with
  | [] => f (Some n)
  | c :: p' =>
      match n with
      | Dir es =>
          match lookup_entry c es with
          | Some child =>
              child' ← update f child p';
              Ok (Dir (set_entry c child' es))
          | None =>
              match p' with
              | [] => x ← f None; Ok (Dir (set_entry c x es))
              | _ => Raise FileNotFoundError
              end
          end
      | File _ => Raise NotADirectoryError
      | Symlink _ => Raise Unmodelled
      end
  end.

(** [open(p, 'wb')], [data] written, closed. *)
Definition write_file (data : string) : node -> PyPath.path -> result node :=
  update (fun o =>
    match o with
    | None | Some (File _) => Ok (File data)
    | Some (Dir _) => Raise IsADirectoryError
    | Some (Symlink _) => Raise Unmodelled
    end).

(** [os.symlink(target, p)] *)
Definition symlink (target : string) : node -> PyPath.path -> result node :=
  update (fun o =>
    match o with
    | None => Ok (Symlink target)
    | Some _ => Raise FileExistsError
    end).

(** The bytes of the file at [p], as [open(p, mode).read()] gets them. *)
Definition read_file (n : node) (p : PyPath.path) : result string :=
  match lookup n p with
  | Some (File data) => Ok data
  | Some (Dir _) => Raise IsADirectoryError
  | Some (Symlink _) => Raise Unmodelled
  | None => Raise FileNotFoundError
  end.

(** [open(p, 'r').read()]: the characters of the file, decoded strictly
    and with the line ends translated. *)
Definition read_text (n : node) (p : PyPath.path) : result (list string) :=
  data ← read_file n p;
  chars ← PyStr.decode_chars data;
  Ok (PyStr.universal_newlines chars).

Fixpoint remove (n : node) (p : PyPath.path) : node :=
  match p, n with
  | [], _ => n
  | [c], Dir es => Dir (remove_entry c es)
  | c :: p', Dir es =>
      match lookup_entry c es with
      | Some child => Dir (set_entry c (remove child p') es)
      | None => n
      end
  | _ :: _, _ => n
  end.

(** [shutil.rmtree(p)] *)
Definition rmtree (n : node) (p : PyPath.path) : result node :=
  match lookup n p with
  | Some (Dir _) => Ok (remove n p)
  | Some (File _) => Raise NotADirectoryError
  | Some (Symlink _) => Raise RmtreeOnSymlink
  | None => Raise FileNotFoundError
  end.

Definition path_eqb (p q : PyPath.path) : bool :=
  bool_decide (p = q).

(** The destination of [shutil.copy] and [shutil.copy2]: inside [dst] when
    that is a directory.  Whether a link at [dst] leads to a directory is
    outside the model. *)
Definition copy_target (n : node) (src dst : PyPath.path) : PyPath.path :=
  if is_dir n dst then dst ++ [PyPath.name src] else dst.

(** [shutil.copy2(src, dst, follow_symlinks=False)]; file metadata is not
    part of the model. *)
Definition copy2_nofollow (n : node) (src dst : PyPath.path) : result node :=
  if is_link n dst then Raise Unmodelled else
  let dst := copy_target n src dst in
  match lookup n src with
  | None => Raise FileNotFoundError
  | Some x =>
      if path_eqb src dst then Raise SameFileError
      else match x with
           | Symlink target => symlink target n dst
           | File data => write_file data n dst
           | Dir _ => Raise IsADirectoryError
           end
  end.

(** [shutil.copy(src, dst)] *)
Definition copy (n : node) (src dst : PyPath.path) : result node :=
  if is_link n dst then Raise Unmodelled else
  let dst := copy_target n src dst in
  match lookup n src with
  | None => Raise FileNotFoundError
  | Some x =>
      if path_eqb src dst then Raise SameFileError
      else match x with
           | Symlink _ => Raise Unmodelled
           | File data => write_file data n dst
           | Dir _ => Raise IsADirectoryError
           end
  end.

(** [name in ignored_names] as [_copytree] tests it: on a list a plain
    membership test, on an iterator a scan that uses up what it reads. *)
Fixpoint consume (name : string) (pending : list string)
    : bool * list string :=
  match pending with
  | [] => (false, [])
  | x :: pending' =>
      if String.eqb x name then (true, pending') else consume name pending'
  end.

Definition contains (ig : ignored) (name : string) : bool * ignored :=
  match ig with
  | IgnList l => (existsb (String.eqb name) l, ig)
  | IgnIter l => let (found, l') := consume name l in (found, IgnIter l')
  end.

(** What [shutil.copytree(src, dst, ignore=ignore)] puts at [dst] for the
    directory [n] at [src], and whether every entry it had to copy is inside
    the model (a symbolic link, which it would follow, is not). *)
Fixpoint copytree_dir (ignore : string -> list string -> ignored)
    (src : string) (n : node) {struct n} : list (string * node) * bool :=
  match n with
  | Dir es =>
      (fix loop (ig : ignored) (es : list (string * node)) {struct es}
          : list (string * node) * bool :=
         match es with
         | [] => ([], true)
         | (name, child) :: es' =>
             let (found, ig') := contains ig name in
             if found then loop ig' es'
             else
               let (copied, ok) :=
                 match child with
                 | Dir _ =>
                     let (ces, ok) :=
                       copytree_dir ignore (src +:+ "/" +:+ name) child in
                     ([(name, Dir ces)], ok)
                 | File data => ([(name, File data)], true)
                 | Symlink _ => ([], false)
                 end in
               let (rest, ok') := loop ig' es' in
               (copied ++ rest, ok && ok')
         end) (ignore src (map fst es)) es
  | _ => ([], true)
  end.

(** [shutil.copytree(src, dst, ignore=ignore)] with [src] and [dst] in
    disjoint parts of the tree. *)
Definition copytree (ignore : string -> list string -> ignored)
    (n : node) (src dst : PyPath.path) : result node :=
  match lookup n src with
  | None => Raise FileNotFoundError
  | Some (File _) => Raise NotADirectoryError
  | Some (Symlink _) => Raise Unmodelled
  | Some (Dir es) =>
      let (ces, ok) := copytree_dir ignore (PyPath.fspath src) (Dir es) in
      n' ← makedirs false n dst;
      n'' ← update (fun _ => Ok (Dir ces)) n' dst;
      if ok then Ok n'' else Raise Unmodelled
  end.

End Fs.

(** ** The world the script runs in *)

(** What a run does that can be observed besides the file system:
    - [Launched argv completed]: [subprocess.run(argv)], [completed] being
      [None] when the program could not be started and otherwise its exit
      status and its standard output;
    - [Logged msg]: a line logged at level INFO through [_LOGGER], by the
      script or by [shutil.make_archive], which is handed the logger; it
      goes to stderr;
    - [Printed line]: [print(line)], a line on stdout;
    - [Help_printed text]: the help that [argparse] writes on stdout;
    - [Error_printed message]: the usage and the error that [argparse]
      writes on stderr. *)
Inductive event : Type :=
| Launched (argv : list string) (completed : option (Z * string))
| Logged (msg : string)
| Printed (line : string)
| Help_printed (text : string)
| Error_printed (message : string).

Record World : Type := mkWorld {
  fs : Fs.node;
  trace : list event
}.

Definition with_fs (n : Fs.node) (w : World) : World :=
  {| fs := n; trace := trace w |}.

(** A computation changes the world and returns or raises. *)
Definition M (A : Type) : Type := World -> World * result A.

#[global] Instance M_ret : MRet M := fun A a w => (w, Ok a).
#[global] Instance M_bind : MBind M := fun A B f m w =>
  match m w with
  | (w', Ok a) => f a w'
  | (w', Raise e) => (w', Raise e)
  end.

Definition lift_fs (op : Fs.node -> result Fs.node) : M unit := fun w =>
  match op (fs w) with
  | Ok n => (with_fs n w, Ok tt)
  | Raise e => (w, Raise e)
  end.

Definition read_fs {A : Type} (op : Fs.node -> result A) : M A := fun w =>
  (w, op (fs w)).

(** A step that touches nothing and returns or raises. *)
Definition lift {A : Type} (r : result A) : M A := fun w => (w, r).

Definition raise {A : Type} (e : exn) : M A := lift (Raise e).

Definition emit (e : event) : M unit := fun w =>
  ({| fs := fs w; trace := trace w ++ [e] |}, Ok tt).

(** [_LOGGER.info(msg)] *)
Definition info (msg : string) : M unit := emit (Logged msg).

(** [print(line)] *)
Definition print (line : string) : M unit := emit (Printed line).

(** [for x in xs: body(x)] *)
Fixpoint for_each {A : Type} (xs : list A) (body : A -> M unit) : M unit :=
  match xs with
  | [] => mret tt
  | x :: xs' => body x ;; for_each xs' body
  end.

(** What [argparse] makes of the command line, for a parser with the one
    option [--fully_vendored]: the namespace; or, for [-h] and [--help], the
    help on stdout and [SystemExit(0)]; or, for a command line it rejects,
    the usage and the error on stderr and [SystemExit(2)]. *)
Inductive parsed : Type :=
| Namespace (fully_vendored : bool)
| Help (text : string)
| Rejected (message : string).

(** What an external program does: [None] when the executable cannot be
    started, otherwise its exit status, its standard output and the file
    system it leaves. *)
Definition behaviour : Type :=
  list string -> World -> option (Z * string * Fs.node).

(** ** The script *)

(** The double quote and the newline, and a line of output. *)
Definition dq : string := String (ascii_of_nat 34) "".
Definition nl : string := String (ascii_of_nat 10) "".
Definition line (s : string) : string := s +:+ nl.

(** The statement that pins a dependency's source directory:
    [set(FETCHCONTENT_SOURCE_DIR_%s ... CACHE STRING ...)], a line. *)
Definition source_dir_stmt (upper_name name : string) : string :=
  line ("set(FETCHCONTENT_SOURCE_DIR_" +:+ upper_name +:+ " " +:+ dq +:+
        "${CMAKE_CURRENT_SOURCE_DIR}/" +:+ name +:+ "-src" +:+ dq +:+
        " CACHE STRING " +:+ dq +:+ dq +:+ ")").

(** The conditional statement written for a dependency that is not vendored
    by default: three lines. *)
Definition system_off_stmt (upper_name : string) : string :=
  line ("if(NOT DEFINED DEVILUTIONX_SYSTEM_" +:+ upper_name +:+ ")") +:+
  line ("  set(DEVILUTIONX_SYSTEM_" +:+ upper_name +:+ " OFF CACHE BOOL " +:+
        dq +:+ dq +:+ ")") +:+
  line "endif()".

(** The fixed block that [write_dist_cmakelists] writes after the header. *)
Definition mpq_block : string :=
  line "" +:+
  line "# Pre-generated `devilutionx.mpq` is provided so that distributions do not have to depend on smpq." +:+
  line ("set(DEVILUTIONX_MPQ " +:+ dq +:+
        "${CMAKE_CURRENT_SOURCE_DIR}/devilutionx.mpq" +:+ dq +:+
        " PARENT_SCOPE)") +:+
  line "" +:+
  line "# This would ensure that CMake does not attempt to connect to network." +:+
  line "# We do not set this to allow for builds for Windows and Android, which do fetch some" +:+
  line "# dependencies even with this source distribution." +:+
  line "# set(FETCHCONTENT_FULLY_DISCONNECTED ON PARENT_SCOPE)" +:+
  line "" +:+
  line "# Set the path to each dependency that must be vendored:".

(** The arguments of the [f.write] calls of [write_dist_cmakelists], in
    order. *)
Definition cmakelists_chunks (version : Version) (fully_vendored : bool)
    : list string :=
  [line "# Generated by tools/make_src_dist.py"] ++
  (if PyStr.is_empty (commit_sha version) then []
   else [line ("set(GIT_COMMIT_HASH " +:+ dq +:+
               PyStr.encode (commit_sha version) +:+ dq +:+
               " PARENT_SCOPE)")]) ++
  [mpq_block] ++
  map (fun dep =>
         source_dir_stmt (PyStr.encode (PyStr.upper dep)) (PyStr.encode dep))
      _DEPS ++
  (if fully_vendored then
     [nl +:+ line "# These dependencies are not usually vendored but this distribution includes them";
      source_dir_stmt "DISCORDSRC" "discordsrc"] ++
     flat_map (fun dep =>
                 [source_dir_stmt (PyStr.encode (PyStr.upper dep))
                                  (PyStr.encode dep);
                  system_off_stmt (PyStr.encode (PyStr.upper dep))])
              _DEPS_NOT_VENDORED_BY_DEFAULT
   else []).

(** The archive [shutil.make_archive] writes for a base name: the base name
    with [.tar.xz] added to its last component. *)
Definition archive_path (base_name : PyPath.path) : PyPath.path :=
  PyPath.parent base_name ++ [PyPath.name base_name +:+ ".tar.xz"].

Section Script.

(** The directory above [tools/], absolute. *)
Variable _ROOT_DIR : PyPath.path.
(** The working directory the script is started in. *)
Variable cwd : PyPath.path.
(** The external programs. *)
Variable exec : behaviour.
(** [subprocess.list2cmdline], used in log lines only. *)
Variable list2cmdline : list string -> string.
(** The bytes of the xz-compressed tar archive with the given members, each
    a tree under its name in the archive. *)
Variable xztar : list (string * Fs.node) -> string.

Definition _BUILD_DIR : PyPath.path := PyPath.joinpath _ROOT_DIR "build-src-dist".
Definition _ARCHIVE_DIR : PyPath.path := PyPath.joinpath _BUILD_DIR "archive".

Record Paths : Type := mkPaths {
  archive_top_level_dir_name : string;
  archive_top_level_dir : PyPath.path;
  dist_dir : PyPath.path
}.

(** [Paths.__init__] *)
Definition Paths_init (version : Version) (fully_vendored : bool) : Paths :=
  let name := "devilutionx-src" in
  let name := if fully_vendored then name +:+ "-full" else name in
  let name := name +:+ ("-" +:+ Version_str version) in
  let top := PyPath.joinpath _ARCHIVE_DIR name in
  {| archive_top_level_dir_name := name;
     archive_top_level_dir := top;
     dist_dir := PyPath.joinpath top "dist" |}.

(** [subprocess.run(argv, cwd=_ROOT_DIR, ...)] without [check=True]: raises
    only when the program cannot be started. *)
Definition subprocess_run (argv : list string) : M (Z * string) := fun w =>
  match exec argv w with
  | None =>
      ({| fs := fs w; trace := trace w ++ [Launched argv None] |},
       Raise FileNotFoundError)
  | Some (returncode, out, n) =>
      ({| fs := n;
          trace := trace w ++ [Launched argv (Some (returncode, out))] |},
       Ok (returncode, out))
  end.

Definition cmake (cmd_args : list string) : M unit :=
  info ("+ cmake " +:+ list2cmdline cmd_args) ;;
  subprocess_run ("cmake" :: cmd_args) ;;
  mret tt.

(** [git] logs at level DEBUG, which the logger drops. *)
Definition git (cmd_args : list string) : M string :=
  completed ← subprocess_run ("git" :: cmd_args);
  mret (snd completed).

Definition get_version : M Version :=
  text ← read_fs (fun n => Fs.read_text n (PyPath.joinpath cwd "VERSION"));
  let version_prefix := PyStr.join_chars (PyStr.rstrip PyStr.is_space text) in
  out ← git ["rev-parse"; "--short"; "HEAD"];
  git_commit_sha ←
    lift (PyStr.decode (PyStr.rstrip_chars PyStr.is_space_bytes out));
  mret (Version_init version_prefix git_commit_sha).

Definition write_dist_cmakelists (paths : Paths) (version : Version)
    (fully_vendored : bool) : M unit :=
  lift_fs (fun n =>
    Fs.write_file (String.concat "" (cmakelists_chunks version fully_vendored))
                  n (PyPath.joinpath (dist_dir paths) "CMakeLists.txt")).

(** [shutil.make_archive(format='xztar', logger=_LOGGER, base_name,
    root_dir, base_dir)], that is [shutil._make_tarball]: the directory of
    the archive is made when it is not there, which is logged; the archive
    file is opened for writing; [base_dir], taken below [root_dir], is added
    to it; the file is closed whether that worked or not; and the absolute,
    normalized name of the archive is returned.  An archive that would lie
    inside the tree it holds is outside the model. *)
Definition shutil_make_archive (base_name root_dir : PyPath.path)
    (base_dir : string) : M string :=
  let archive := archive_path base_name in
  let archive_dir := PyPath.parent archive in
  let member := PyPath.joinpath root_dir base_dir in
  there ← read_fs (fun n => Fs.exists_ n archive_dir);
  (if there : bool then mret tt
   else info ("creating " +:+ PyPath.fspath archive_dir) ;;
        lift_fs (fun n => Fs.makedirs false n archive_dir)) ;;
  info "Creating tar archive" ;;
  lift_fs (fun n => Fs.write_file (xztar []) n archive) ;;
  tree ← read_fs (fun n =>
    match Fs.lookup n member with
    | None => Raise FileNotFoundError
    | Some tree =>
        if PyPath.is_prefix member archive then Raise Unmodelled else Ok tree
    end);
  lift_fs (fun n => Fs.write_file (xztar [(base_dir, tree)]) n archive) ;;
  mret (PyPath.fspath (PyPath.normpath archive)).

Definition make_archive (paths : Paths) (fully_vendored : bool) : M string :=
  info ("Compressing " +:+ PyPath.fspath _ARCHIVE_DIR) ;;
  shutil_make_archive
    (PyPath.joinpath _BUILD_DIR (archive_top_level_dir_name paths))
    _ARCHIVE_DIR
    (archive_top_level_dir_name paths).

(** The body of the loop of [main] over the tracked paths. *)
Definition collect_one (paths : Paths) (src_bytes : string) : M unit :=
  src ← lift (PyStr.decode src_bytes);
  let dst_path := PyPath.joinpath (archive_top_level_dir paths) src in
  lift_fs (fun n => Fs.makedirs true n (PyPath.parent dst_path)) ;;
  if Re.search gitkeep_re src then mret tt
  else lift_fs (fun n =>
         Fs.copy2_nofollow n (PyPath.joinpath _ROOT_DIR src) dst_path).

(** The body of the loop of [main] over the dependencies to copy. *)
Definition copy_dep (paths : Paths) (dep : string) : M unit :=
  info ("Copying " +:+ dep +:+ "...") ;;
  lift_fs (fun n =>
    Fs.copytree ignore_dep_src n
      (PyPath.joinpath (PyPath.joinpath _BUILD_DIR "_deps") (dep +:+ "-src"))
      (PyPath.joinpath (dist_dir paths) (dep +:+ "-src"))).

(** [parser.parse_args()] *)
Definition parse_args (command_line : parsed) : M bool :=
  match command_line with
  | Namespace fully_vendored => mret fully_vendored
  | Help text => emit (Help_printed text) ;; raise (SystemExit 0)
  | Rejected message => emit (Error_printed message) ;; raise (SystemExit 2)
  end.

Definition main (command_line : parsed) : M unit :=
  fully_vendored ← parse_args command_line;
  cmake (configure_args (PyPath.fspath _ROOT_DIR) (PyPath.fspath _BUILD_DIR)
                        fully_vendored) ;;
  cmake ["--build"; PyPath.fspath _BUILD_DIR; "--target"; "devilutionx_mpq"] ;;
  archive_exists ← read_fs (fun n => Fs.exists_ n _ARCHIVE_DIR);
  (if archive_exists : bool then lift_fs (fun n => Fs.rmtree n _ARCHIVE_DIR)
   else mret tt) ;;
  version ← get_version;
  let paths := Paths_init version fully_vendored in
  info "Copying repo files..." ;;
  listing ← git ["ls-files"; "-z"];
  for_each (PyPath.split (ascii_of_nat 0)
              (PyStr.rstrip_chars PyStr.is_nul listing))
           (collect_one paths) ;;
  info "Copying devilutionx.mpq..." ;;
  lift_fs (fun n => Fs.makedirs false n (dist_dir paths)) ;;
  lift_fs (fun n =>
    Fs.copy n (PyPath.joinpath _BUILD_DIR "devilutionx.mpq") (dist_dir paths)) ;;
  for_each (copied_deps fully_vendored) (copy_dep paths) ;;
  write_dist_cmakelists paths version fully_vendored ;;
  archive ← make_archive paths fully_vendored;
  print archive.

End Script.

(** ** Vocabulary of the statements *)

(** A version prefix holds a separator character. *)
Definition has_separator (prefix : string) : Prop :=
  ∃ a b, prefix = a +:+ "-" +:+ b.

(** A source directory belongs to the tree of the fragile dependency, as
    [ignore_dep_src] tells: its path holds the dependency's name. *)
Definition in_fragile_dep (src : string) : Prop :=
  ∃ a b, src = a +:+ "sdl_audiolib" +:+ b.

(** A source directory is the copy of fmt bundled with the fragile
    dependency. *)
Definition is_bundled_fmt_dir (src : string) : Prop :=
  ∃ a, src = a +:+ "/sdl_audiolib-src/3rdparty/fmt".

(** Where a tracked path goes in the staging tree. *)
Definition staged (paths : Paths) (src : string) : PyPath.path :=
  PyPath.joinpath (archive_top_level_dir paths) src.

(** The generated configuration file of a layout. *)
Definition cmakelists_path (paths : Paths) : PyPath.path :=
  PyPath.joinpath (dist_dir paths) "CMakeLists.txt".

(** The bytes [write_dist_cmakelists] writes for a revision identifier and a
    mode. *)
Definition cmakelists_of (sha : string) (fully_vendored : bool) : string :=
  String.concat "" (cmakelists_chunks (mkVersion "" sha "") fully_vendored).

(** The revision lookup. *)
Definition rev_parse : list string := ["git"; "rev-parse"; "--short"; "HEAD"].

(** An update that never puts something in the place of a directory. *)
Definition spares_dirs (f : option Fs.node -> result Fs.node) : Prop :=
  ∀ es x, f (Some (Fs.Dir es)) ≠ Ok x.

(** Two paths that part ways below a common prefix. *)
Definition diverge (p q : PyPath.path) : Prop :=
  ∃ l a b p' q', p = l ++ a :: p' ∧ q = l ++ b :: q' ∧ a ≠ b.

(** A program that could not be started. *)
Definition launch_failed (e : event) : bool :=
  match e with
  | Launched _ None => true
  | _ => false
  end.

Definition all_started (tr : list event) : Prop :=
  Forall (λ e, launch_failed e = false) tr.

(** What a computation may add to the trace: events none of which is a
    failed launch, or such events and then one failed launch, with which it
    raises [FileNotFoundError]. *)
Definition fail_fast_outcome {A : Type} (new : list event) (r : result A)
    : Prop :=
  all_started new ∨
  ∃ tr argv, new = tr ++ [Launched argv None] ∧ all_started tr ∧
             r = Raise FileNotFoundError.

Definition fail_fast {A : Type} (m : M A) : Prop :=
  ∀ w w' r, m w = (w', r) →
    ∃ new, trace w' = trace w ++ new ∧ fail_fast_outcome new r.

(** The events of a run of [main] that returns, given what the four external
    programs answered, the place of the archive and whether its directory
    had to be made. *)
Definition success_trace (list2cmdline : list string -> string)
    (root : PyPath.path) (fully_vendored : bool)
    (configure build revision listing : Z * string) (archive : PyPath.path)
    (archive_dir_made : bool)
    : list event :=
  let configure_args :=
    configure_args (PyPath.fspath root) (PyPath.fspath (_BUILD_DIR root))
                   fully_vendored in
  let build_args :=
    ["--build"; PyPath.fspath (_BUILD_DIR root); "--target"; "devilutionx_mpq"] in
  [Logged ("+ cmake " +:+ list2cmdline configure_args);
   Launched ("cmake" :: configure_args) (Some configure);
   Logged ("+ cmake " +:+ list2cmdline build_args);
   Launched ("cmake" :: build_args) (Some build);
   Launched rev_parse (Some revision);
   Logged "Copying repo files...";
   Launched ["git"; "ls-files"; "-z"] (Some listing);
   Logged "Copying devilutionx.mpq..."] ++
  map (λ dep, Logged ("Copying " +:+ dep +:+ "...")) (copied_deps fully_vendored) ++
  [Logged ("Compressing " +:+ PyPath.fspath (_ARCHIVE_DIR root))] ++
  (if archive_dir_made
   then [Logged ("creating " +:+ PyPath.fspath (PyPath.parent archive))]
   else []) ++
  [Logged "Creating tar archive";
   Printed (PyPath.fspath (PyPath.normpath archive))].

(** ** A small checkout to run the script on *)

Module Demo.

Definition nul : string := String (ascii_of_nat 0) "".

Definition root : PyPath.path := ["devilutionX"].

(** A fetched dependency: one build file. *)
Definition fetched (dep : string) : string * Fs.node :=
  (dep +:+ "-src", Fs.Dir [("CMakeLists.txt", Fs.File dep)]).

(** A checkout that has been built before: the build directory holds the
    data archive and the fetched dependencies. *)
Definition checkout : Fs.node :=
  Fs.Dir
    [("devilutionX",
      Fs.Dir
        [("VERSION", Fs.File (line "1.2.3"));
         ("README.md", Fs.File "DevilutionX");
         ("assets", Fs.Dir [(".gitkeep", Fs.File "")]);
         ("build-src-dist",
          Fs.Dir
            [("devilutionx.mpq", Fs.File "MPQ");
             ("_deps", Fs.Dir (map fetched (copied_deps true)))])])].

Definition world : World := {| fs := checkout; trace := [] |}.

Definition tracked : string :=
  "README.md" +:+ nul +:+ "VERSION" +:+ nul +:+ "assets/.gitkeep" +:+ nul.

(** cmake changes nothing and exits with [cmake_status]; git answers and
    exits with [git_status]. *)
Definition exec (cmake_status git_status : Z) : behaviour := fun argv w =>
  match argv with
  | "cmake" :: _ => Some (cmake_status, "", fs w)
  | ["git"; "rev-parse"; "--short"; "HEAD"] =>
      Some (git_status, line "abc1234", fs w)
  | ["git"; "ls-files"; "-z"] => Some (git_status, tracked, fs w)
  | _ => None
  end.

(** git is run outside a repository: it prints nothing on stdout and exits
    with status 128. *)
Definition exec_no_repository : behaviour := fun argv w =>
  match argv with
  | "cmake" :: _ => Some (0%Z, "", fs w)
  | "git" :: _ => Some (128%Z, "", fs w)
  | _ => None
  end.

(** cmake is not installed. *)
Definition exec_no_cmake : behaviour := fun argv w =>
  match argv with
  | "git" :: _ => exec 0 0 argv w
  | _ => None
  end.

Definition list2cmdline (args : list string) : string :=
  String.concat " " args.

Definition xztar (members : list (string * Fs.node)) : string :=
  "xz of " +:+ String.concat " " (map fst members).

Definition run (behave : behaviour) (fully_vendored : bool)
    : World * result unit :=
  main root root behave list2cmdline xztar (Namespace fully_vendored) world.

Definition paths : Paths :=
  Paths_init root (Version_init "1.2.3" "abc1234") false.

(** Another checkout at the same revision: a pre-release version, staged
    under another root, of which only the distribution directory exists. *)
Definition version_rc : Version := Version_init "2.0-rc" "abc1234".

Definition paths_rc : Paths := Paths_init ["srv"] version_rc false.

Definition world_rc : World :=
  {| fs := Fs.fresh_dirs (dist_dir paths_rc); trace := [] |}.

(** The tree of the fragile dependency in miniature. *)
Definition fragile_tree : Fs.node :=
  Fs.Dir [("3rdparty", Fs.Dir [("fmt", Fs.Dir [("format.h", Fs.File "f")])]);
          ("doc", Fs.Dir [("index.html", Fs.File "d")]);
          ("Makefile", Fs.File "m")].

End Demo.

(** ** Vocabulary of the further statements *)

(** The loop of [Fs.copytree_dir] over the entries of one directory, with
    the copy of a subdirectory left to [rec]. *)
Fixpoint copy_loop (rec : string -> Fs.node -> list (string * Fs.node) * bool)
    (src : string) (ig : ignored) (es : list (string * Fs.node))
    : list (string * Fs.node) * bool :=
  match es with
  | [] => ([], true)
  | (name, child) :: es' =>
      let (found, ig') := Fs.contains ig name in
      if found then copy_loop rec src ig' es'
      else
        let (copied, ok) :=
          match child with
          | Fs.Dir _ =>
              let (ces, ok) := rec (src +:+ "/" +:+ name) child in
              ([(name, Fs.Dir ces)], ok)
          | Fs.File data => ([(name, Fs.File data)], true)
          | Fs.Symlink _ => ([], false)
          end in
        let (rest, ok') := copy_loop rec src ig' es' in
        (copied ++ rest, ok && ok')
  end.

(** [l] without the elements of [P] it starts with. *)
Fixpoint drop_leading {A : Type} (P : A -> bool) (l : list A) : list A :=
  match l with
  | [] => []
  | x :: l' => if P x then drop_leading P l' else l
  end.

Definition is_symlink (n : Fs.node) : bool :=
  match n with Fs.Symlink _ => true | _ => false end.

(** The words and the extensions of [_IGNORE_DEP_FILE_RE], and the names of
    [_IGNORE_DEP_DIR_RE], with the optional letters written out. *)
Definition ignored_file_words : list string :=
  ["Makefile"; "vcproj"; "vcxproj"; "example"; "doxygen"; "doc"].

Definition ignored_file_extensions : list string :=
  ["doxy"; "cmd"; "png"; "html"; "ico"; "icns"].

(** [s] ends with [suf], or with [suf] and a final newline. *)
Definition ends_line (s suf : string) : bool :=
  PyStr.endswith s suf || PyStr.endswith s (suf +:+ nl).

(** The file pattern as string tests. *)
Definition file_rule (name : string) : bool :=
  PyStr.startswith name "." ||
  existsb (fun w => PyStr.str_in w name) ignored_file_words ||
  existsb (fun e => ends_line name ("." +:+ e)) ignored_file_extensions.

Definition ignored_dir_words : list string :=
  ["test"; "tests"; "other"; "vcproj"; "vcxproj"; "example"; "examples";
   "doxygen"; "doc"; "docs"; "asio-src/asio/src"].

(** [name] stands in [s] as whole path components: it starts [s] or follows
    a slash, and it ends [s], possibly before a final newline, or a slash
    follows it. *)
Definition component_rule (s name : string) : bool :=
  String.eqb s name || String.eqb s (name +:+ nl) ||
  PyStr.startswith s (name +:+ "/") ||
  PyStr.endswith s ("/" +:+ name) || PyStr.endswith s ("/" +:+ name +:+ nl) ||
  PyStr.str_in ("/" +:+ name +:+ "/") s.

(** The directory pattern as string tests. *)
Definition dir_rule (s : string) : bool :=
  PyStr.startswith s "." || PyStr.str_in "/." s ||
  existsb (component_rule s) ignored_dir_words.






(** Every byte of [s] is one of [P]. *)
Fixpoint all_chars (P : ascii -> bool) (s : string) : bool :=
  match s with
  | EmptyString => true
  | String c s' => P c && all_chars P s'
  end.

(** [s] does not end with a byte of [P]. *)
Definition no_trailing (P : ascii -> bool) (s : string) : Prop :=
  ∀ a c, s = a +:+ String c "" → P c = false.

(** What [git ls-files -z] prints for a list of paths. *)
Definition nul_terminated (paths : list string) : string :=
  String.concat "" (map (fun p => p +:+ String (ascii_of_nat 0) "") paths).

(** A regular file or a symbolic link. *)
Definition is_leaf (n : Fs.node) : bool :=
  match n with Fs.Dir _ => false | _ => true end.

Definition nul_free (s : string) : bool :=
  all_chars (fun c => negb (PyStr.is_nul c)) s.

(** The value of a result that is known to be one. *)
Definition value_or {A : Type} (default : A) (r : result A) : A :=
  match r with Ok a => a | Raise _ => default end.

(** * Properties

    From here on: lemmas about the embedding, and the statements of the
    specification that it settles, each under the identifier the
    specification's claim list gives it. *)

#[local] Arguments String.append !_ _ / : simpl nomatch.

(** ** Strings *)

Section StringFacts.

Lemma append_assoc (a b c : string) : (a +:+ b) +:+ c = a +:+ (b +:+ c).
Proof. induction a as [|x a IH]; simpl; [reflexivity | now rewrite IH]. Qed.

Lemma append_nil_r (a : string) : a +:+ "" = a.
Proof. induction a as [|x a IH]; simpl; [reflexivity | now rewrite IH]. Qed.

Lemma is_empty_true (s : string) : PyStr.is_empty s = true <-> s = "".
Proof. destruct s; simpl; split; congruence. Qed.

Lemma is_empty_app (a b : string) :
  PyStr.is_empty (a +:+ b) = PyStr.is_empty a && PyStr.is_empty b.
Proof. destruct a; reflexivity. Qed.

Lemma startswith_spec (s p : string) :
  PyStr.startswith s p = true <-> exists t, s = p +:+ t.
Proof.
  revert s. induction p as [|a p IH]; intros s.
  - split; [intros _; now exists s | destruct s; reflexivity].
  - destruct s as [|b s]; simpl.
    + split; [discriminate | intros [t Ht]; discriminate].
    + destruct (Ascii.eqb_spec a b) as [->|Hne].
      * rewrite IH. split; intros [t Ht]; exists t; congruence.
      * split; [discriminate | intros [t Ht]; congruence].
Qed.

Lemma str_in_spec (needle hay : string) :
  PyStr.str_in needle hay = true <-> exists a b, hay = a +:+ needle +:+ b.
Proof.
  induction hay as [|c hay IH]; cbn [PyStr.str_in].
  - rewrite orb_false_r, startswith_spec. split.
    + intros [t Ht]. exists "", t. exact Ht.
    + intros (a & b & H). destruct a; [eauto | discriminate].
  - rewrite orb_true_iff, startswith_spec, IH. split.
    + intros [[t Ht] | (a & b & H)].
      * exists "", t. exact Ht.
      * exists (String c a), b. simpl. now rewrite H.
    + intros (a & b & H). destruct a as [|x a]; simpl in H.
      * left. eauto.
      * right. exists a, b. congruence.
Qed.

Lemma endswith_spec (s suf : string) :
  PyStr.endswith s suf = true <-> exists a, s = a +:+ suf.
Proof.
  induction s as [|c s IH]; cbn [PyStr.endswith].
  - rewrite orb_false_r, String.eqb_eq. split.
    + intros <-. now exists "".
    + intros [a H]. destruct a; [exact H | discriminate].
  - rewrite orb_true_iff, String.eqb_eq, IH. split.
    + intros [<- | [a ->]]; [now exists "" | now exists (String c a)].
    + intros [a H]. destruct a as [|x a]; simpl in H.
      * now left.
      * right. exists a. congruence.
Qed.

End StringFacts.

(** ** The matcher agrees with the declarative reading of a pattern *)

Section ReFacts.
Import Re.

Lemma matches_spec r : forall b s k,
  matches r b s k = true <->
  exists w rest, s = w +:+ rest /\ Match r b w rest /\
                 k (b && PyStr.is_empty w) rest = true.
Proof.
  induction r as [|c|r1 IH1 r2 IH2|r1 IH1 r2 IH2|r IH| |]; intros b s k; simpl.
  - split.
    + intros H. exists "", s. rewrite andb_true_r. repeat split; [constructor | exact H].
    + intros (w & rest & -> & Hm & Hk). inversion Hm; subst.
      now rewrite andb_true_r in Hk.
  - split.
    + destruct s as [|c' s]; [discriminate|].
      destruct (Ascii.eqb_spec c c') as [->|]; [|discriminate].
      intros H. exists (String c' ""), s. rewrite andb_false_r.
      repeat split; [constructor | exact H].
    + intros (w & rest & -> & Hm & Hk). inversion Hm; subst. simpl.
      rewrite Ascii.eqb_refl. now rewrite andb_false_r in Hk.
  - rewrite IH1. split.
    + intros (w1 & rest1 & -> & Hm1 & Hk). apply IH2 in Hk.
      destruct Hk as (w2 & rest & -> & Hm2 & Hk).
      exists (w1 +:+ w2), rest. rewrite append_assoc, is_empty_app, andb_assoc.
      repeat split; [now constructor | exact Hk].
    + intros (w & rest & -> & Hm & Hk). inversion Hm; subst.
      exists w1, (w2 +:+ rest). rewrite append_assoc. repeat split; [assumption|].
      apply IH2. exists w2, rest. repeat split; [assumption|].
      now rewrite is_empty_app, andb_assoc in Hk.
  - rewrite orb_true_iff, IH1, IH2. split.
    + intros [(w & rest & -> & Hm & Hk) | (w & rest & -> & Hm & Hk)];
        exists w, rest; repeat split; auto using MAltL, MAltR.
    + intros (w & rest & -> & Hm & Hk). inversion Hm; subst; [left | right];
        exists w, rest; auto.
  - rewrite orb_true_iff, IH. split.
    + intros [(w & rest & -> & Hm & Hk) | Hk].
      * exists w, rest. repeat split; auto using MOptS.
      * exists "", s. rewrite andb_true_r. repeat split; [apply MOptN | exact Hk].
    + intros (w & rest & -> & Hm & Hk). inversion Hm; subst.
      * left. exists w, rest. auto.
      * right. now rewrite andb_true_r in Hk.
  - split.
    + destruct b; [|discriminate]. intros H. exists "", s.
      repeat split; [constructor | exact H].
    + intros (w & rest & -> & Hm & Hk). inversion Hm; subst. exact Hk.
  - split.
    + destruct (at_eol s) eqn:E; [|discriminate]. intros H. exists "", s.
      rewrite andb_true_r. repeat split; [now constructor | exact H].
    + intros (w & rest & -> & Hm & Hk). inversion Hm; subst. simpl.
      rewrite andb_true_r in Hk. now rewrite H.
Qed.

Lemma search_from_spec r s : forall b,
  search_from r b s = true <->
  exists l w rest, s = l +:+ w +:+ rest /\ Match r (b && PyStr.is_empty l) w rest.
Proof.
  induction s as [|c s IH]; intros b; simpl.
  - rewrite orb_false_r, matches_spec. split.
    + intros (w & rest & H & Hm & _). exists "", w, rest.
      rewrite andb_true_r. auto.
    + intros (l & w & rest & H & Hm). destruct l; [|discriminate].
      rewrite andb_true_r in Hm. exists w, rest. auto.
  - rewrite orb_true_iff, matches_spec, IH. split.
    + intros [(w & rest & H & Hm & _) | (l & w & rest & H & Hm)].
      * exists "", w, rest. rewrite andb_true_r. auto.
      * exists (String c l), w, rest. simpl. rewrite andb_false_r. split; [now rewrite H | exact Hm].
    + intros (l & w & rest & H & Hm). destruct l as [|x l]; simpl in H.
      * left. rewrite andb_true_r in Hm. exists w, rest. auto.
      * right. injection H as -> ->. rewrite andb_false_r in Hm.
        exists l, w, rest. auto.
Qed.

Lemma search_spec r s :
  search r s = true <->
  exists l w rest, s = l +:+ w +:+ rest /\ Match r (PyStr.is_empty l) w rest.
Proof. unfold search. now rewrite search_from_spec. Qed.

End ReFacts.

(** ** Dependency selection *)

Section Selection.

Lemma elem_of_copied_deps d fv :
  d ∈ copied_deps fv ↔
  d ∈ _DEPS ∨ (fv = true ∧ d ∈ _DEPS_NOT_VENDORED_BY_DEFAULT).
Proof.
  unfold copied_deps. rewrite elem_of_app. destruct fv.
  - intuition.
  - rewrite elem_of_nil. intuition discriminate.
Qed.

Lemma always_vendored_in_deps : Forall (λ d, d ∈ _DEPS) _ALWAYS_VENDORED_DEPS.
Proof. compute_done. Qed.

Lemma not_vendored_not_in_deps :
  Forall (λ d, d ∉ _DEPS) _DEPS_NOT_VENDORED_BY_DEFAULT.
Proof. compute_done. Qed.

(** C1: every always-vendored dependency is in the list of dependencies
    copied into the distribution in both modes, and a dependency that is not
    vendored by default is in that list exactly in fully-vendored mode. *)
Theorem copy_list_by_mode :
  (∀ d, d ∈ _ALWAYS_VENDORED_DEPS → ∀ fv, d ∈ copied_deps fv) ∧
  (∀ d, d ∈ _DEPS_NOT_VENDORED_BY_DEFAULT →
        ∀ fv, d ∈ copied_deps fv ↔ fv = true).
Proof.
  split.
  - intros d Hd fv. apply elem_of_copied_deps. left.
    pose proof always_vendored_in_deps as Hsub.
    rewrite Forall_forall in Hsub. now apply Hsub.
  - intros d Hd fv. rewrite elem_of_copied_deps. split.
    + intros [Hin | [Hfv _]]; [|exact Hfv].
      pose proof not_vendored_not_in_deps as Hdis.
      rewrite Forall_forall in Hdis. now apply Hdis in Hd.
    + intros ->. now right.
Qed.

Lemma copy_list_by_mode_witness :
  "libzt" ∈ copied_deps false ∧ "libzt" ∈ copied_deps true ∧
  ("sdl_image" ∈ copied_deps true ↔ true = true) ∧
  ("sdl_image" ∈ copied_deps false ↔ false = true).
Proof.
  destruct copy_list_by_mode as [Halways Hfull].
  assert (Ha : "libzt" ∈ _ALWAYS_VENDORED_DEPS)
    by compute_done.
  assert (Hn : "sdl_image" ∈ _DEPS_NOT_VENDORED_BY_DEFAULT)
    by compute_done.
  repeat split; try apply Halways; try apply (Hfull _ Hn); auto.
Defined.

Lemma default_off_deps_eq :
  default_off_deps = ["sdl_audiolib"; "simpleini"; "unordered_dense"].
Proof. vm_compute. reflexivity. Qed.

Lemma elem_of_default_off_deps d :
  d ∈ default_off_deps ↔ d ∈ _DEPS ∧ d ∉ _ALWAYS_VENDORED_DEPS.
Proof.
  unfold default_off_deps, sorted. rewrite merge_sort_Permutation.
  rewrite elem_of_elements, elem_of_difference, !elem_of_list_to_set.
  reflexivity.
Qed.

Lemma default_off_deps_sorted : StronglySorted String.le default_off_deps.
Proof. unfold default_off_deps, sorted. apply StronglySorted_merge_sort; apply _. Qed.

Lemma default_off_deps_NoDup : NoDup default_off_deps.
Proof.
  unfold default_off_deps, sorted. rewrite merge_sort_Permutation.
  apply NoDup_elements.
Qed.

Lemma startswith_app (p t : string) : PyStr.startswith (p +:+ t) p = true.
Proof. apply startswith_spec. now exists t. Qed.

Lemma is_system_off_flag_flag dep : is_system_off_flag (system_off_flag dep) = true.
Proof.
  unfold is_system_off_flag, system_off_flag. rewrite startswith_app. cbn [andb].
  apply endswith_spec. exists ("-DDEVILUTIONX_SYSTEM_" +:+ PyStr.upper dep).
  symmetry. apply append_assoc.
Qed.

Lemma filter_system_off_flags deps :
  List.filter is_system_off_flag (map system_off_flag deps) =
  map system_off_flag deps.
Proof.
  induction deps as [|d deps IH]; [reflexivity|]. cbn [map List.filter].
  now rewrite is_system_off_flag_flag, IH.
Qed.

Lemma not_system_off_S root : is_system_off_flag ("-S" +:+ root) = false.
Proof. reflexivity. Qed.

Lemma not_system_off_B build : is_system_off_flag ("-B" +:+ build) = false.
Proof. reflexivity. Qed.

Lemma configure_args_system_off root build fv :
  List.filter is_system_off_flag (configure_args root build fv) =
  map system_off_flag (system_off_deps fv).
Proof.
  unfold configure_args, system_off_deps.
  destruct fv; rewrite ?List.filter_app, ?filter_system_off_flags, ?map_app;
    cbn [List.filter]; rewrite not_system_off_S, not_system_off_B;
    cbn; rewrite ?app_nil_r; reflexivity.
Qed.

Lemma elem_of_system_off_deps d fv :
  d ∈ system_off_deps fv ↔
  (d ∈ _DEPS ∧ d ∉ _ALWAYS_VENDORED_DEPS) ∨
  (fv = true ∧ d ∈ _DEPS_NOT_VENDORED_BY_DEFAULT).
Proof.
  unfold system_off_deps. rewrite elem_of_app, elem_of_default_off_deps.
  destruct fv.
  - intuition.
  - rewrite elem_of_nil. intuition discriminate.
Qed.

Lemma system_off_deps_NoDup fv : NoDup (system_off_deps fv).
Proof.
  unfold system_off_deps. destruct fv.
  - apply NoDup_app. split; [apply default_off_deps_NoDup|]. split.
    + intros d Hd Hn. apply elem_of_default_off_deps in Hd as [Hd _].
      pose proof not_vendored_not_in_deps as Hdis.
      rewrite Forall_forall in Hdis. now apply Hdis in Hn.
    + compute_done.
  - rewrite app_nil_r. apply default_off_deps_NoDup.
Qed.

Lemma system_off_flags_NoDup fv : NoDup (map system_off_flag (system_off_deps fv)).
Proof. destruct fv; compute_done. Qed.

(** C2, as the code has it: the flags that disable system copies are the
    flags of [system_off_deps], in that order.  In default mode these are the
    catalog's dependencies outside the always-vendored set, sorted by name.
    In fully-vendored mode the same sorted list is followed by the
    dependencies not vendored by default in the order the script declares
    them, so the whole list is not sorted.  In both modes a dependency has a
    flag exactly when its system copy must be disabled, and neither the
    dependencies nor the flags repeat. *)
Theorem system_off_flags_by_mode (root build : string) :
  (∀ fv, List.filter is_system_off_flag (configure_args root build fv) =
         map system_off_flag (system_off_deps fv)) ∧
  StronglySorted String.le (system_off_deps false) ∧
  (∃ sorted_part, StronglySorted String.le sorted_part ∧
     system_off_deps false = sorted_part ∧
     system_off_deps true = sorted_part ++ _DEPS_NOT_VENDORED_BY_DEFAULT) ∧
  (∀ fv d, d ∈ system_off_deps fv ↔
           (d ∈ _DEPS ∧ d ∉ _ALWAYS_VENDORED_DEPS) ∨
           (fv = true ∧ d ∈ _DEPS_NOT_VENDORED_BY_DEFAULT)) ∧
  (∀ fv, NoDup (system_off_deps fv) ∧
         NoDup (map system_off_flag (system_off_deps fv))).
Proof.
  split; [intros fv; apply configure_args_system_off|].
  assert (Hs : StronglySorted String.le (system_off_deps false)).
  { unfold system_off_deps. rewrite app_nil_r. apply default_off_deps_sorted. }
  split; [exact Hs|]. split.
  - exists default_off_deps. split; [apply default_off_deps_sorted|].
    unfold system_off_deps. rewrite app_nil_r. split; reflexivity.
  - split; [intros fv d; apply elem_of_system_off_deps|].
    intros fv. split; [apply system_off_deps_NoDup | apply system_off_flags_NoDup].
Qed.

End Selection.

(** ** Version and archive naming *)

Section Naming.

(** C3: the archive's top-level directory name is
    [devilutionx-src], then [-full] exactly in fully-vendored mode, then [-]
    and the version's display string; it depends on nothing else, and for the
    display string 1.2.3 it is [devilutionx-src-1.2.3] in default mode and
    [devilutionx-src-full-1.2.3] in fully-vendored mode. *)
Theorem archive_top_level_dir_name_spec :
  (∀ root version fv,
     archive_top_level_dir_name (Paths_init root version fv) =
     "devilutionx-src" +:+ (if fv then "-full" else "") +:+ "-" +:+
     Version_str version) ∧
  (∀ root root' version version' fv,
     Version_str version = Version_str version' →
     archive_top_level_dir_name (Paths_init root version fv) =
     archive_top_level_dir_name (Paths_init root' version' fv)) ∧
  (∀ root prefix sha,
     archive_top_level_dir_name
       (Paths_init root (mkVersion prefix sha "1.2.3") false) =
     "devilutionx-src-1.2.3" ∧
     archive_top_level_dir_name
       (Paths_init root (mkVersion prefix sha "1.2.3") true) =
     "devilutionx-src-full-1.2.3").
Proof.
  assert (H : ∀ root version fv,
     archive_top_level_dir_name (Paths_init root version fv) =
     "devilutionx-src" +:+ (if fv then "-full" else "") +:+ "-" +:+
     Version_str version).
  { intros root version [|]; reflexivity. }
  split; [exact H|]. split.
  - intros root root' version version' fv Heq. now rewrite !H, Heq.
  - intros root prefix sha. rewrite !H. split; reflexivity.
Qed.

Lemma archive_top_level_dir_name_witness :
  archive_top_level_dir_name
    (Paths_init ["devilutionX"] (Version_init "1.2.3" "abc1234") false) =
  archive_top_level_dir_name
    (Paths_init ["srv"; "checkout"] (Version_init "1.2.3" "fffffff") false).
Proof.
  apply (proj1 (proj2 archive_top_level_dir_name_spec)). reflexivity.
Defined.

(** C4: for a non-empty revision identifier, the display string is the
    prefix when the prefix holds no separator, and the prefix, a separator
    and the revision identifier when it does. *)
Theorem version_display (prefix sha : string) :
  sha ≠ "" →
  (¬ has_separator prefix → str (Version_init prefix sha) = prefix) ∧
  (has_separator prefix →
   str (Version_init prefix sha) = prefix +:+ "-" +:+ sha).
Proof.
  intros _. unfold Version_init, has_separator. cbn [str].
  destruct (PyStr.str_in "-" prefix) eqn:E.
  - split; [|reflexivity]. intros Hn. exfalso. apply Hn.
    now apply str_in_spec.
  - split; [reflexivity|]. intros Hs. apply str_in_spec in Hs. congruence.
Qed.

Lemma version_display_witness :
  "abc1234" ≠ "" ∧
  str (Version_init "1.2.3-beta" "abc1234") = "1.2.3-beta-abc1234" ∧
  str (Version_init "1.2.3" "abc1234") = "1.2.3".
Proof.
  assert (Hne : "abc1234" ≠ "") by discriminate.
  split; [exact Hne|]. split.
  - apply (proj2 (version_display "1.2.3-beta" "abc1234" Hne)).
    exists "1.2.3", "beta". reflexivity.
  - apply (proj1 (version_display "1.2.3" "abc1234" Hne)).
    intros Hs. apply str_in_spec in Hs. discriminate.
Defined.

(** C5, what the code does: with the empty revision identifier and a prefix
    that holds a separator, the display string is the prefix followed by a
    dangling separator, which is not the prefix. *)
Theorem version_display_without_revision :
  (∀ prefix, has_separator prefix →
     str (Version_init prefix "") = prefix +:+ "-" ∧
     str (Version_init prefix "") ≠ prefix) ∧
  str (Version_init "1.2.3-beta" "") = "1.2.3-beta-".
Proof.
  split; [|reflexivity]. intros prefix Hs. apply str_in_spec in Hs.
  unfold Version_init. cbn [str]. rewrite Hs. split; [reflexivity|].
  intros Heq. rewrite <- (append_nil_r prefix) in Heq at 2.
  apply String.app_inj in Heq. discriminate.
Qed.

End Naming.

(** ** The ignore patterns *)

Section Patterns.

Lemma search_from_here r b s :
  Re.matches r b s (λ _ _, true) = true → Re.search_from r b s = true.
Proof. destruct s; cbn [Re.search_from]; intros ->; reflexivity. Qed.

Lemma search_from_intro r w rest :
  (∀ b, Re.matches r b (w +:+ rest) (λ _ _, true) = true) →
  ∀ l b, Re.search_from r b (l +:+ w +:+ rest) = true.
Proof.
  intros Hm l. induction l as [|c l IH]; intros b.
  - change ("" +:+ w +:+ rest) with (w +:+ rest).
    apply search_from_here, Hm.
  - change (String c l +:+ w +:+ rest) with (String c (l +:+ w +:+ rest)).
    cbn [Re.search_from]. rewrite IH. apply orb_true_r.
Qed.

Lemma dir_re_tests l rest :
  Re.search _IGNORE_DEP_DIR_RE (l +:+ "/tests/" +:+ rest) = true.
Proof. apply search_from_intro. intros [|]; reflexivity. Qed.

Lemma dir_re_doc l rest :
  Re.search _IGNORE_DEP_DIR_RE (l +:+ "/doc/" +:+ rest) = true.
Proof. apply search_from_intro. intros [|]; reflexivity. Qed.

Lemma dir_re_git_inner l rest :
  Re.search _IGNORE_DEP_DIR_RE (l +:+ "/.git/" +:+ rest) = true.
Proof. apply search_from_intro. intros [|]; reflexivity. Qed.

Lemma dir_re_git_first rest :
  Re.search _IGNORE_DEP_DIR_RE (".git/" +:+ rest) = true.
Proof. reflexivity. Qed.

(** C8: the directory pattern is found in every path that holds [/tests/],
    in every path that holds [/doc/], in every path that holds [.git/] at
    its start or after a slash, and is not found in [src/foo.c]. *)
Theorem ignore_dep_dir_re_examples :
  (∀ l rest, Re.search _IGNORE_DEP_DIR_RE (l +:+ "/tests/" +:+ rest) = true) ∧
  (∀ l rest, Re.search _IGNORE_DEP_DIR_RE (l +:+ "/doc/" +:+ rest) = true) ∧
  (∀ rest, Re.search _IGNORE_DEP_DIR_RE (".git/" +:+ rest) = true) ∧
  (∀ l rest, Re.search _IGNORE_DEP_DIR_RE (l +:+ "/.git/" +:+ rest) = true) ∧
  Re.search _IGNORE_DEP_DIR_RE "src/foo.c" = false.
Proof.
  split; [exact dir_re_tests|]. split; [exact dir_re_doc|].
  split; [exact dir_re_git_first|]. split; [exact dir_re_git_inner|].
  reflexivity.
Qed.



End Patterns.

(** ** ignore_dep_src and the fragile dependency *)

Section IgnoreDepSrc.

Lemma filter_const {A} (b : bool) (l : list A) :
  List.filter (λ _, b) l = if b then l else [].
Proof. induction l as [|x l IH]; destruct b; simpl in *; congruence. Qed.

(** C7, as the code has it: for a directory of the fragile dependency the
    general rules are not consulted; every entry of the bundled fmt
    directory is ignored, and in every other directory of that dependency
    nothing is ignored. *)
Theorem ignore_dep_src_sdl_audiolib (src : string) (names : list string) :
  in_fragile_dep src →
  (is_bundled_fmt_dir src → ignore_dep_src src names = IgnList names) ∧
  (¬ is_bundled_fmt_dir src → ignore_dep_src src names = IgnList []).
Proof.
  intros Hin. apply str_in_spec in Hin. unfold ignore_dep_src.
  rewrite Hin, filter_const.
  destruct (PyStr.endswith src "/sdl_audiolib-src/3rdparty/fmt") eqn:E.
  - split; [reflexivity|]. intros Hn. exfalso. apply Hn.
    now apply endswith_spec.
  - split; [|reflexivity]. intros Hy. apply endswith_spec in Hy. congruence.
Qed.

Lemma ignore_dep_src_sdl_audiolib_witness :
  ignore_dep_src "/devilutionX/build-src-dist/_deps/sdl_audiolib-src/3rdparty/fmt"
                 ["CMakeLists.txt"; "include"; "src"]
  = IgnList ["CMakeLists.txt"; "include"; "src"] ∧
  ignore_dep_src "/devilutionX/build-src-dist/_deps/sdl_audiolib-src"
                 [".git"; "doc"; "Makefile"; "src"]
  = IgnList [].
Proof.
  split.
  - apply ignore_dep_src_sdl_audiolib.
    + exists "/devilutionX/build-src-dist/_deps/", "-src/3rdparty/fmt". reflexivity.
    + exists "/devilutionX/build-src-dist/_deps". reflexivity.
  - apply ignore_dep_src_sdl_audiolib.
    + exists "/devilutionX/build-src-dist/_deps/", "-src". reflexivity.
    + intros Hy. apply endswith_spec in Hy. discriminate.
Defined.

End IgnoreDepSrc.

(** ** The file system *)

Section FsFacts.
Import Fs.

Lemma lookup_entry_set_entry c x es d :
  lookup_entry d (set_entry c x es) =
  if String.eqb c d then Some x else lookup_entry d es.
Proof.
  induction es as [|[k v] es IH]; cbn [set_entry lookup_entry].
  - destruct (String.eqb_spec c d); reflexivity.
  - destruct (String.eqb_spec k c) as [->|Hkc]; cbn [lookup_entry].
    + destruct (String.eqb_spec c d); reflexivity.
    + destruct (String.eqb_spec k d) as [->|Hkd].
      * destruct (String.eqb_spec c d); [congruence | reflexivity].
      * exact IH.
Qed.

Lemma is_dir_nil n : is_dir n [] = true ↔ ∃ es, n = Dir es.
Proof.
  unfold is_dir. cbn. destruct n; split; try discriminate; eauto;
    intros [es H]; discriminate.
Qed.

Lemma is_dir_cons n c q :
  is_dir n (c :: q) = true ↔
  ∃ es child, n = Dir es ∧ lookup_entry c es = Some child ∧ is_dir child q = true.
Proof.
  unfold is_dir. cbn [lookup]. split.
  - destruct n as [| |es]; try discriminate.
    destruct (lookup_entry c es) as [child|] eqn:E; [|discriminate].
    intros H. exists es, child. auto.
  - intros (es & child & -> & -> & H). exact H.
Qed.


Lemma is_dir_fresh_dirs p : is_dir (fresh_dirs p) p = true.
Proof.
  induction p as [|c p IH]; [reflexivity|].
  apply is_dir_cons. exists [(c, fresh_dirs p)], (fresh_dirs p).
  cbn. rewrite String.eqb_refl. auto.
Qed.

Lemma makedirs_is_dir ok p : ∀ n n',
  makedirs ok n p = Ok n' → is_dir n' p = true.
Proof.
  induction p as [|c p IH]; intros n n'; destruct n as [| |es]; cbn;
    try discriminate.
  - destruct ok; [|discriminate]. intros [= <-]. reflexivity.
  - destruct (lookup_entry c es) as [child|] eqn:E.
    + destruct (makedirs ok child p) as [child'|] eqn:Em; cbn; [|discriminate].
      intros [= <-]. apply is_dir_cons. exists (set_entry c child' es), child'.
      rewrite lookup_entry_set_entry, String.eqb_refl. eauto.
    + intros [= <-]. apply is_dir_cons.
      exists (set_entry c (fresh_dirs p) es), (fresh_dirs p).
      rewrite lookup_entry_set_entry, String.eqb_refl.
      auto using is_dir_fresh_dirs.
Qed.

Lemma makedirs_keeps_dirs ok p : ∀ n n' q,
  makedirs ok n p = Ok n' → is_dir n q = true → is_dir n' q = true.
Proof.
  induction p as [|c p IH]; intros n n' q; destruct n as [| |es]; cbn;
    try discriminate.
  - destruct ok; [|discriminate]. now intros [= <-].
  - destruct (lookup_entry c es) as [child|] eqn:E.
    + destruct (makedirs ok child p) as [child'|] eqn:Em; cbn; [|discriminate].
      intros [= <-]. destruct q as [|d q]; [reflexivity|].
      rewrite !is_dir_cons. intros (es0 & ch & [= <-] & Hl & Hd).
      exists (set_entry c child' es). rewrite lookup_entry_set_entry.
      destruct (String.eqb_spec c d) as [->|Hne].
      * exists child'. rewrite E in Hl. injection Hl as <-. eauto.
      * exists ch. auto.
    + intros [= <-]. destruct q as [|d q]; [reflexivity|].
      rewrite !is_dir_cons. intros (es0 & ch & [= <-] & Hl & Hd).
      exists (set_entry c (fresh_dirs p) es). rewrite lookup_entry_set_entry.
      destruct (String.eqb_spec c d) as [->|Hne]; [congruence|].
      exists ch. auto.
Qed.

Lemma makedirs_keeps_files ok p : ∀ n n' q data,
  makedirs ok n p = Ok n' →
  lookup n q = Some (File data) → lookup n' q = Some (File data).
Proof.
  induction p as [|c p IH]; intros n n' q data; destruct n as [| |es]; cbn;
    try discriminate.
  - destruct ok; [|discriminate]. now intros [= <-].
  - destruct (lookup_entry c es) as [child|] eqn:E.
    + destruct (makedirs ok child p) as [child'|] eqn:Em; cbn; [|discriminate].
      intros [= <-]. destruct q as [|d q]; [discriminate|]. cbn [lookup].
      rewrite lookup_entry_set_entry.
      destruct (String.eqb_spec c d) as [->|Hne]; [|auto].
      rewrite E. eauto.
    + intros [= <-]. destruct q as [|d q]; [discriminate|]. cbn [lookup].
      rewrite lookup_entry_set_entry.
      destruct (String.eqb_spec c d) as [->|Hne]; [|auto].
      rewrite E. discriminate.
Qed.


Lemma update_keeps_dirs f p : spares_dirs f → ∀ n n' q,
  update f n p = Ok n' → is_dir n q = true → is_dir n' q = true.
Proof.
  intros Hf. induction p as [|c p IH]; intros n n' q; cbn [update].
  - intros Hu Hd. exfalso. destruct q as [|d q].
    + apply is_dir_nil in Hd as [es ->]. now apply Hf in Hu.
    + apply is_dir_cons in Hd as (es & ch & -> & _). now apply Hf in Hu.
  - destruct n as [| |es]; try discriminate.
    destruct (lookup_entry c es) as [child|] eqn:E.
    + destruct (update f child p) as [child'|] eqn:Eu; cbn; [|discriminate].
      intros [= <-]. destruct q as [|d q]; [reflexivity|].
      rewrite !is_dir_cons. intros (es0 & ch & [= <-] & Hl & Hd).
      exists (set_entry c child' es). rewrite lookup_entry_set_entry.
      destruct (String.eqb_spec c d) as [->|Hne].
      * exists child'. rewrite E in Hl. injection Hl as <-. eauto.
      * exists ch. auto.
    + destruct p; [|discriminate].
      destruct (f None) as [x|] eqn:Ef; cbn; [|discriminate].
      intros [= <-]. destruct q as [|d q]; [reflexivity|].
      rewrite !is_dir_cons. intros (es0 & ch & [= <-] & Hl & Hd).
      exists (set_entry c x es). rewrite lookup_entry_set_entry.
      destruct (String.eqb_spec c d) as [->|Hne]; [congruence|].
      exists ch. auto.
Qed.

Lemma update_lookup_same f p : ∀ n n',
  update f n p = Ok n' → ∃ x, f (lookup n p) = Ok x ∧ lookup n' p = Some x.
Proof.
  induction p as [|c p IH]; intros n n'; cbn [update lookup].
  - intros H. eauto.
  - destruct n as [| |es]; try discriminate.
    destruct (lookup_entry c es) as [child|] eqn:E.
    + destruct (update f child p) as [child'|] eqn:Eu; cbn; [|discriminate].
      intros [= <-]. rewrite lookup_entry_set_entry, String.eqb_refl. eauto.
    + destruct p; [|discriminate].
      destruct (f None) as [x|] eqn:Ef; cbn; [|discriminate].
      intros [= <-]. rewrite lookup_entry_set_entry, String.eqb_refl.
      exists x. auto.
Qed.

Lemma update_lookup_diverge f p q : diverge p q → ∀ n n',
  update f n p = Ok n' → lookup n' q = lookup n q.
Proof.
  intros (l & a & b & p' & q' & -> & -> & Hab).
  induction l as [|c l IH]; intros n n'; cbn [app update lookup].
  - destruct n as [| |es]; try discriminate.
    destruct (lookup_entry a es) as [child|] eqn:E.
    + destruct (update f child p') as [child'|]; cbn; [|discriminate].
      intros [= <-]. rewrite lookup_entry_set_entry.
      destruct (String.eqb_spec a b); [congruence | reflexivity].
    + destruct p'; [|discriminate].
      destruct (f None) as [x|]; cbn; [|discriminate].
      intros [= <-]. rewrite lookup_entry_set_entry.
      destruct (String.eqb_spec a b); [congruence | reflexivity].
  - destruct n as [| |es]; try discriminate.
    destruct (lookup_entry c es) as [child|] eqn:E.
    + destruct (update f child (l ++ a :: p')) as [child'|] eqn:Eu; cbn;
        [|discriminate].
      intros [= <-]. rewrite lookup_entry_set_entry, String.eqb_refl.
      now apply IH.
    + destruct (l ++ a :: p') eqn:El; [now destruct l | discriminate].
Qed.

Lemma write_file_spares_dirs data :
  spares_dirs (λ o, match o with
                    | None | Some (File _) => Ok (File data)
                    | Some (Dir _) => Raise IsADirectoryError
                    | Some (Symlink _) => Raise Unmodelled
                    end).
Proof. intros es x. discriminate. Qed.

Lemma write_file_keeps_dirs data n p n' q :
  write_file data n p = Ok n' → is_dir n q = true → is_dir n' q = true.
Proof. apply update_keeps_dirs, write_file_spares_dirs. Qed.

Lemma symlink_keeps_dirs target n p n' q :
  symlink target n p = Ok n' → is_dir n q = true → is_dir n' q = true.
Proof. apply update_keeps_dirs. intros es x. discriminate. Qed.

Lemma write_file_lookup data n p n' :
  write_file data n p = Ok n' → lookup n' p = Some (File data).
Proof.
  intros H. apply update_lookup_same in H as (x & Hx & ->).
  destruct (lookup n p) as [[| |]|]; congruence.
Qed.

Lemma copy2_nofollow_keeps_dirs n src dst n' q :
  copy2_nofollow n src dst = Ok n' → is_dir n q = true → is_dir n' q = true.
Proof.
  unfold copy2_nofollow. destruct (is_link n dst); [discriminate|].
  destruct (lookup n src) as [x|]; [|discriminate].
  destruct (path_eqb _ _); [discriminate|].
  destruct x; [apply write_file_keeps_dirs | apply symlink_keeps_dirs | discriminate].
Qed.

End FsFacts.

Section FsMore.
Import Fs.

Lemma lookup_path_app n p q :
  lookup n (p ++ q) = match lookup n p with Some m => lookup m q | None => None end.
Proof.
  revert n. induction p as [|c p IH]; intros n; [reflexivity|].
  cbn [app lookup]. destruct n as [| |es]; try reflexivity.
  destruct (lookup_entry c es); [apply IH | reflexivity].
Qed.

Lemma is_dir_prefix n p q : is_dir n (p ++ q) = true → is_dir n p = true.
Proof.
  unfold is_dir. rewrite lookup_path_app.
  destruct (lookup n p) as [[| |es]|]; try discriminate; auto.
  - destruct q; discriminate.
  - destruct q; discriminate.
Qed.

Lemma lookup_fresh_dirs_off_path p : ∀ q,
  (∀ r, p ≠ q ++ r) → lookup (fresh_dirs p) q = None.
Proof.
  induction p as [|c p IH]; intros [|d q] Hq; cbn.
  - now destruct (Hq []).
  - reflexivity.
  - now destruct (Hq (c :: p)).
  - destruct (String.eqb_spec c d) as [->|Hne]; [|reflexivity].
    apply IH. intros r ->. now apply (Hq r).
Qed.

(** [makedirs] touches nothing but the directories on the way to [p]. *)
Lemma makedirs_lookup_off_path ok p : ∀ n n' q,
  makedirs ok n p = Ok n' → (∀ r, p ≠ q ++ r) → lookup n' q = lookup n q.
Proof.
  induction p as [|c p IH]; intros n n' q; destruct n as [| |es]; cbn;
    try discriminate.
  - destruct ok; [|discriminate]. now intros [= <-].
  - destruct (lookup_entry c es) as [child|] eqn:E.
    + destruct (makedirs ok child p) as [child'|] eqn:Em; cbn; [|discriminate].
      intros [= <-] Hq. destruct q as [|d q]; [now destruct (Hq (c :: p))|].
      cbn [lookup]. rewrite lookup_entry_set_entry.
      destruct (String.eqb_spec c d) as [->|Hne]; [|reflexivity].
      rewrite E. eapply IH; [exact Em|]. intros r ->. now apply (Hq r).
    + intros [= <-] Hq. destruct q as [|d q]; [now destruct (Hq (c :: p))|].
      cbn [lookup]. rewrite lookup_entry_set_entry.
      destruct (String.eqb_spec c d) as [->|Hne]; [|reflexivity].
      rewrite E. apply lookup_fresh_dirs_off_path. intros r ->. now apply (Hq r).
Qed.

(** [makedirs] neither replaces nor removes a file or a link. *)
Lemma makedirs_keeps_leaves ok p : ∀ n n' q x,
  makedirs ok n p = Ok n' → is_leaf x = true →
  lookup n q = Some x → lookup n' q = Some x.
Proof.
  induction p as [|c p IH]; intros n n' q x; destruct n as [| |es]; cbn;
    try discriminate.
  - destruct ok; [|discriminate]. now intros [= <-].
  - destruct (lookup_entry c es) as [child|] eqn:E.
    + destruct (makedirs ok child p) as [child'|] eqn:Em; cbn; [|discriminate].
      intros [= <-] Hx. destruct q as [|d q].
      { cbn. intros [= <-]. discriminate Hx. }
      cbn [lookup]. rewrite lookup_entry_set_entry.
      destruct (String.eqb_spec c d) as [->|Hne]; [|auto].
      rewrite E. eauto.
    + intros [= <-] Hx. destruct q as [|d q].
      { cbn. intros [= <-]. discriminate Hx. }
      cbn [lookup]. rewrite lookup_entry_set_entry.
      destruct (String.eqb_spec c d) as [->|Hne]; [|auto].
      rewrite E. discriminate.
Qed.

Lemma update_ok f c x : ∀ p n,
  is_dir n p = true → f (lookup n (p ++ [c])) = Ok x →
  ∃ n', update f n (p ++ [c]) = Ok n'.
Proof.
  induction p as [|d p IH]; intros n Hd Hf; cbn [app update].
  - apply is_dir_nil in Hd as [es ->]. cbn [app lookup] in Hf.
    destruct (lookup_entry c es) as [child|] eqn:E.
    + cbn [update lookup] in *. rewrite Hf. cbn. eauto.
    + rewrite Hf. cbn. eauto.
  - apply is_dir_cons in Hd as (es & child & -> & E & Hd).
    cbn [app lookup] in Hf. rewrite E in *.
    destruct (IH child Hd Hf) as [n' ->]. cbn. eauto.
Qed.

Lemma removelast_snoc {A} (l : list A) x : removelast (l ++ [x]) = l.
Proof. apply removelast_last. Qed.

Lemma snoc_not_prefix {A} (p : list A) c r : p ≠ (p ++ [c]) ++ r.
Proof.
  intros H. apply (f_equal (@List.length A)) in H.
  rewrite !length_app in H. cbn in H. lia.
Qed.



(** [makedirs] with [exist_ok] goes through exactly when nothing but
    directories is in its way. *)
Lemma makedirs_ok_iff p : ∀ n,
  unobstructed n p = true ↔ ∃ n', makedirs true n p = Ok n'.
Proof.
  induction p as [|c p IH]; intros n; destruct n as [| |es]; cbn;
    try (split; [discriminate | intros [n' H]; discriminate H]).
  - split; eauto.
  - destruct (lookup_entry c es) as [child|] eqn:E; [|split; eauto].
    rewrite IH. split.
    + intros [child' ->]. cbn. eauto.
    + intros [n' H]. destruct (makedirs true child p); [eauto | discriminate H].
Qed.


End FsMore.

(** ** Computations *)

Section MonadFacts.

Lemma bind_unfold {A B} (m : M A) (f : A → M B) w :
  (m ≫= f) w =
  match m w with
  | (w', Ok a) => f a w'
  | (w', Raise e) => (w', Raise e)
  end.
Proof. reflexivity. Qed.

Lemma bind_ok_inv {A B} (m : M A) (f : A → M B) w w' b :
  (m ≫= f) w = (w', Ok b) →
  ∃ a w1, m w = (w1, Ok a) ∧ f a w1 = (w', Ok b).
Proof.
  rewrite bind_unfold. destruct (m w) as [w1 [a|e]]; [eauto | discriminate].
Qed.

Lemma lift_fs_ok_inv op w w' u :
  lift_fs op w = (w', Ok u) →
  ∃ n, op (fs w) = Ok n ∧ w' = with_fs n w.
Proof.
  unfold lift_fs. destruct (op (fs w)) as [n|e]; [|discriminate].
  intros [= <-]. eauto.
Qed.

End MonadFacts.

(** ** The source collector *)

Section SourceCollector.

Variable root : PyPath.path.
Variable paths : Paths.

Lemma decode_ok_inv b s : PyStr.decode b = Ok s → s = b.
Proof. unfold PyStr.decode. destruct (PyStr.utf8_chars b); now intros [= <-]. Qed.


Lemma decode_cases b :
  PyStr.decode b = Ok b ∨ PyStr.decode b = Raise UnicodeDecodeError.
Proof. unfold PyStr.decode. destruct (PyStr.utf8_chars b); auto. Qed.

Lemma collect_one_undecodable src w e :
  PyStr.decode src = Raise e → collect_one root paths src w = (w, Raise e).
Proof.
  intros Hd. unfold collect_one. rewrite bind_unfold. unfold lift.
  now rewrite Hd.
Qed.

Lemma collect_one_unfold src w :
  PyStr.decode src = Ok src →
  collect_one root paths src w =
  match Fs.makedirs true (fs w) (PyPath.parent (staged paths src)) with
  | Raise e => (w, Raise e)
  | Ok n1 =>
      if Re.search gitkeep_re src then (with_fs n1 w, Ok tt)
      else match Fs.copy2_nofollow n1 (PyPath.joinpath root src) (staged paths src) with
           | Ok n2 => (with_fs n2 (with_fs n1 w), Ok tt)
           | Raise e => (with_fs n1 w, Raise e)
           end
  end.
Proof.
  intros Hd. unfold collect_one. rewrite bind_unfold. unfold lift at 1.
  rewrite Hd. rewrite bind_unfold. unfold lift_fs at 1.
  change (PyPath.joinpath (archive_top_level_dir paths) src)
    with (staged paths src).
  destruct (Fs.makedirs true (fs w) (PyPath.parent (staged paths src))) as [n1|e];
    [|reflexivity].
  destruct (Re.search gitkeep_re src); [reflexivity|].
  unfold lift_fs. cbn [fs with_fs].
  destruct (Fs.copy2_nofollow n1 _ _); reflexivity.
Qed.

Lemma collect_one_ok_decoded src w w' :
  collect_one root paths src w = (w', Ok tt) → PyStr.decode src = Ok src.
Proof.
  destruct (decode_cases src) as [Hd|Hd]; [auto|].
  rewrite (collect_one_undecodable _ _ _ Hd). discriminate.
Qed.

Lemma collect_one_parent src w n1 :
  PyStr.decode src = Ok src →
  Fs.makedirs true (fs w) (PyPath.parent (staged paths src)) = Ok n1 →
  ∃ w' r, collect_one root paths src w = (w', r) ∧
          Fs.is_dir (fs w') (PyPath.parent (staged paths src)) = true.
Proof.
  intros Hd Hm. rewrite collect_one_unfold, Hm by exact Hd.
  pose proof (makedirs_is_dir _ _ _ _ Hm) as Hdir.
  destruct (Re.search gitkeep_re src); [eauto|].
  destruct (Fs.copy2_nofollow n1 _ _) as [n2|e] eqn:Ec; [|eauto].
  eexists _, _. split; [reflexivity|]. cbn [fs with_fs].
  eapply copy2_nofollow_keeps_dirs; eauto.
Qed.

Lemma collect_one_keeps_dirs src w w' q :
  collect_one root paths src w = (w', Ok tt) →
  Fs.is_dir (fs w) q = true → Fs.is_dir (fs w') q = true.
Proof.
  intros H. pose proof (collect_one_ok_decoded _ _ _ H) as Hd. revert H.
  rewrite collect_one_unfold by exact Hd.
  destruct (Fs.makedirs true _ _) as [n1|e] eqn:Em; [|discriminate].
  intros H Hq. pose proof (makedirs_keeps_dirs _ _ _ _ _ Em Hq) as Hq1.
  destruct (Re.search gitkeep_re src); [now injection H as <-|].
  destruct (Fs.copy2_nofollow n1 _ _) as [n2|e] eqn:Ec; [|discriminate].
  injection H as <-. cbn [fs with_fs].
  eapply copy2_nofollow_keeps_dirs; eauto.
Qed.

Lemma collect_loop_keeps_dirs srcs : ∀ w w' q,
  for_each srcs (collect_one root paths) w = (w', Ok tt) →
  Fs.is_dir (fs w) q = true → Fs.is_dir (fs w') q = true.
Proof.
  induction srcs as [|src srcs IH]; intros w w' q; cbn [for_each].
  - now intros [= <-].
  - intros H Hq. apply bind_ok_inv in H as ([] & w1 & H1 & H2).
    eapply IH; [exact H2|]. eapply collect_one_keeps_dirs; eauto.
Qed.

Lemma collect_loop_parents srcs : ∀ w w',
  for_each srcs (collect_one root paths) w = (w', Ok tt) →
  ∀ src, src ∈ srcs → Fs.is_dir (fs w') (PyPath.parent (staged paths src)) = true.
Proof.
  induction srcs as [|s srcs IH]; intros w w' H src Hin.
  - now apply elem_of_nil in Hin.
  - cbn [for_each] in H. apply bind_ok_inv in H as ([] & w1 & H1 & H2).
    apply elem_of_cons in Hin as [->|Hin]; [|eauto].
    eapply collect_loop_keeps_dirs; [exact H2|].
    pose proof (collect_one_ok_decoded _ _ _ H1) as Hd.
    destruct (Fs.makedirs true (fs w) (PyPath.parent (staged paths s))) as [n1|e] eqn:Em.
    + destruct (collect_one_parent s w n1 Hd Em) as (w2 & r & Hc & Hdir).
      rewrite H1 in Hc. now injection Hc as <- _.
    + rewrite collect_one_unfold, Em in H1 by exact Hd. discriminate.
Qed.




End SourceCollector.

(** ** External programs *)

Section FailFast.

Lemma fail_fast_quiet {A} (m : M A) :
  (∀ w, trace (m w).1 = trace w) → fail_fast m.
Proof.
  intros Hq w w' r H. exists []. rewrite app_nil_r.
  specialize (Hq w). rewrite H in Hq. split; [exact Hq|].
  left. constructor.
Qed.

Lemma fail_fast_ret {A} (a : A) : fail_fast (mret a).
Proof. apply fail_fast_quiet. reflexivity. Qed.

Lemma fail_fast_lift_fs op : fail_fast (lift_fs op).
Proof.
  apply fail_fast_quiet. intros w. unfold lift_fs.
  destruct (op (fs w)); reflexivity.
Qed.

Lemma fail_fast_read_fs {A} (op : Fs.node → result A) : fail_fast (read_fs op).
Proof. apply fail_fast_quiet. reflexivity. Qed.

Lemma fail_fast_lift {A} (r : result A) : fail_fast (lift r).
Proof. apply fail_fast_quiet. reflexivity. Qed.

Lemma fail_fast_emit e : launch_failed e = false → fail_fast (emit e).
Proof.
  intros He w w' r [= <- <-]. exists [e]. split; [reflexivity|].
  left. repeat constructor. exact He.
Qed.

Lemma fail_fast_bind {A B} (m : M A) (f : A → M B) :
  fail_fast m → (∀ a, fail_fast (f a)) → fail_fast (m ≫= f).
Proof.
  intros Hm Hf w w' r. rewrite bind_unfold.
  destruct (m w) as [w1 [a|e]] eqn:E.
  - intros H. apply Hm in E as (new1 & Ht1 & [Hs1 | (tr & argv & _ & _ & ?)]);
      [|discriminate].
    apply Hf in H as (new2 & Ht2 & Ho).
    exists (new1 ++ new2). split; [now rewrite Ht2, Ht1, app_assoc|].
    destruct Ho as [Hs2 | (tr & argv & -> & Hs2 & ->)].
    + left. now apply Forall_app.
    + right. exists (new1 ++ tr), argv. rewrite app_assoc.
      repeat split; auto. now apply Forall_app.
  - intros [= <- <-]. apply Hm in E as (new1 & Ht1 & Ho). exists new1.
    split; [exact Ht1|].
    destruct Ho as [Hs | (tr & argv & -> & Hs & [= ->])]; [now left|].
    right. eauto.
Qed.

Lemma fail_fast_for_each {A} (xs : list A) (body : A → M unit) :
  (∀ x, fail_fast (body x)) → fail_fast (for_each xs body).
Proof.
  intros Hb. induction xs as [|x xs IH]; cbn [for_each].
  - apply fail_fast_ret.
  - apply fail_fast_bind; auto.
Qed.

Variable root cwd : PyPath.path.
Variable exec : behaviour.
Variable list2cmdline : list string → string.
Variable xztar : list (string * Fs.node) → string.

Lemma fail_fast_subprocess_run argv : fail_fast (subprocess_run exec argv).
Proof.
  intros w w' r. unfold subprocess_run.
  destruct (exec argv w) as [[[rc out] n]|].
  - intros H. inversion H; subst. eexists. split; [reflexivity|]. left.
    repeat constructor.
  - intros H. inversion H; subst. eexists. split; [reflexivity|]. right.
    exists [], argv. repeat split. constructor.
Qed.

Lemma fail_fast_cmake args : fail_fast (cmake exec list2cmdline args).
Proof.
  unfold cmake. apply fail_fast_bind; [now apply fail_fast_emit|]. intros _.
  apply fail_fast_bind; [apply fail_fast_subprocess_run|]. intros _.
  apply fail_fast_ret.
Qed.

Lemma fail_fast_git args : fail_fast (git exec args).
Proof.
  unfold git. apply fail_fast_bind; [apply fail_fast_subprocess_run|].
  intros ?. apply fail_fast_ret.
Qed.

Lemma fail_fast_get_version : fail_fast (get_version cwd exec).
Proof.
  unfold get_version. apply fail_fast_bind; [apply fail_fast_read_fs|].
  intros ?. apply fail_fast_bind; [apply fail_fast_git|]. intros ?.
  apply fail_fast_bind; [apply fail_fast_lift|]. intros ?.
  apply fail_fast_ret.
Qed.

Lemma fail_fast_shutil_make_archive base rootd based :
  fail_fast (shutil_make_archive xztar base rootd based).
Proof.
  unfold shutil_make_archive, info.
  repeat first
    [ apply fail_fast_read_fs | apply fail_fast_lift_fs | apply fail_fast_ret
    | apply fail_fast_emit; reflexivity
    | apply fail_fast_bind; [|intros ?]
    | match goal with |- fail_fast (if ?b then _ else _) => destruct b end ].
Qed.

Lemma fail_fast_collect_one paths src : fail_fast (collect_one root paths src).
Proof.
  unfold collect_one. apply fail_fast_bind; [apply fail_fast_lift|].
  intros ?. apply fail_fast_bind; [apply fail_fast_lift_fs|].
  intros _. destruct (Re.search _ _);
    [apply fail_fast_ret | apply fail_fast_lift_fs].
Qed.

Lemma fail_fast_parse_args command_line : fail_fast (parse_args command_line).
Proof.
  destruct command_line; cbn [parse_args]; [apply fail_fast_ret|..];
    (apply fail_fast_bind; [now apply fail_fast_emit|]; intros _;
     apply fail_fast_lift).
Qed.

Lemma fail_fast_copy_dep paths dep : fail_fast (copy_dep root paths dep).
Proof.
  unfold copy_dep. apply fail_fast_bind; [now apply fail_fast_emit|].
  intros _. apply fail_fast_lift_fs.
Qed.

Lemma fail_fast_main command_line :
  fail_fast (main root cwd exec list2cmdline xztar command_line).
Proof.
  unfold main.
  repeat first
    [ apply fail_fast_parse_args
    | apply fail_fast_cmake | apply fail_fast_get_version | apply fail_fast_git
    | apply fail_fast_read_fs | apply fail_fast_lift_fs | apply fail_fast_ret
    | apply fail_fast_for_each; intros ?
    | apply fail_fast_collect_one | apply fail_fast_copy_dep
    | apply fail_fast_emit; reflexivity
    | apply fail_fast_shutil_make_archive
    | progress unfold write_dist_cmakelists, make_archive, info, print
    | apply fail_fast_bind; [|intros ?]
    | match goal with |- fail_fast (if ?b then _ else _) => destruct b end ].
Qed.

Lemma failed_launch_is_last (new tr tr' : list event) argv {A} (r : result A) :
  fail_fast_outcome new r →
  new = tr ++ Launched argv None :: tr' →
  tr' = [] ∧ r = Raise FileNotFoundError.
Proof.
  intros [Hs | (tr0 & argv0 & -> & Hs & ->)] Heq.
  - exfalso. subst new. apply Forall_app in Hs as [_ Hs].
    apply Forall_cons in Hs as [Hs _]. discriminate.
  - split; [|reflexivity].
    destruct tr' as [|e tr'] using rev_ind; [reflexivity|]. exfalso.
    clear IHtr'.
    change (tr ++ Launched argv None :: tr' ++ [e])
      with (tr ++ (Launched argv None :: tr') ++ [e]) in Heq.
    rewrite app_assoc in Heq. apply app_inj_tail in Heq as [-> _].
    apply Forall_app in Hs as [_ Hs].
    apply Forall_cons in Hs as [Hs _]. discriminate.
Qed.

End FailFast.

(** ** Paths of the layout *)

Section PathFacts.

Lemma parse_parts_head c s :
  c ≠ "/"%char → c ≠ "."%char →
  ∃ w ws, PyPath.parse_parts (String c s) = String c w :: ws.
Proof.
  intros Hs Hd. unfold PyPath.parse_parts. cbn [PyPath.split].
  destruct (Ascii.eqb_spec c "/"); [contradiction|].
  assert (Hkeep : ∀ w, negb (String.eqb (String c w) "") &&
                       negb (String.eqb (String c w) ".") = true).
  { intros w. cbn. destruct (Ascii.eqb_spec c "."); [contradiction|].
    reflexivity. }
  destruct (PyPath.split "/" s) as [|w ws]; cbn [List.filter];
    rewrite Hkeep; eauto.
Qed.

Lemma joinpath_relative p s :
  PyStr.startswith s "/" = false →
  PyPath.joinpath p s = p ++ PyPath.parse_parts s.
Proof. unfold PyPath.joinpath. now intros ->. Qed.

Variable root : PyPath.path.

Lemma top_level_name_shape version fv :
  ∃ s, archive_top_level_dir_name (Paths_init root version fv) = String "d" s.
Proof. destruct fv; eexists; reflexivity. Qed.

Lemma cmakelists_path_eq version fv :
  ∃ c ws,
    PyPath.parse_parts
      (archive_top_level_dir_name (Paths_init root version fv)) = c :: ws ∧
    PyStr.startswith c "d" = true ∧
    cmakelists_path (Paths_init root version fv) =
    (root ++ ["build-src-dist"]) ++
      "archive" :: (c :: ws) ++ ["dist"; "CMakeLists.txt"].
Proof.
  destruct (top_level_name_shape version fv) as [s Hs].
  destruct (parse_parts_head "d" s) as (w & ws & Hp); [discriminate..|].
  exists (String "d" w), ws. rewrite Hs. split; [exact Hp|].
  split; [reflexivity|].
  set (P := Paths_init root version fv) in *.
  assert (E1 : cmakelists_path P = dist_dir P ++ ["CMakeLists.txt"])
    by reflexivity.
  assert (E2 : dist_dir P = archive_top_level_dir P ++ ["dist"])
    by reflexivity.
  assert (E3 : archive_top_level_dir P =
               PyPath.joinpath (_ARCHIVE_DIR root) (archive_top_level_dir_name P))
    by reflexivity.
  assert (E4 : _ARCHIVE_DIR root = (root ++ ["build-src-dist"]) ++ ["archive"])
    by reflexivity.
  rewrite E1, E2, E3, Hs, joinpath_relative, Hp, E4 by reflexivity.
  rewrite <- !app_assoc. reflexivity.
Qed.

End PathFacts.

(** ** The pipeline *)

Section Pipeline.

Variable root cwd : PyPath.path.
Variable exec : behaviour.
Variable list2cmdline : list string → string.
Variable xztar : list (string * Fs.node) → string.

Lemma archive_path_diverges version fv :
  diverge
    (archive_path
       (PyPath.joinpath (_BUILD_DIR root)
          (archive_top_level_dir_name (Paths_init root version fv))))
    (cmakelists_path (Paths_init root version fv)).
Proof.
  destruct (cmakelists_path_eq root version fv) as (c & ws & Hp & Hc & ->).
  destruct (top_level_name_shape root version fv) as [s Hs].
  rewrite joinpath_relative by (rewrite Hs; reflexivity). rewrite Hp.
  change (_BUILD_DIR root) with (root ++ ["build-src-dist"]).
  unfold archive_path, PyPath.parent, PyPath.name.
  apply startswith_spec in Hc as [t ->].
  destruct ws as [|c1 ws].
  - exists (root ++ ["build-src-dist"]), (("d" +:+ t) +:+ ".tar.xz"), "archive",
      [], (["d" +:+ t] ++ ["dist"; "CMakeLists.txt"]).
    split; [|split; [reflexivity | discriminate]].
    rewrite removelast_last, last_last. reflexivity.
  - exists (root ++ ["build-src-dist"]), ("d" +:+ t), "archive",
      (removelast (c1 :: ws) ++
       [List.last ((root ++ ["build-src-dist"]) ++ ("d" +:+ t) :: c1 :: ws) ""
        +:+ ".tar.xz"]),
      ((("d" +:+ t) :: c1 :: ws) ++ ["dist"; "CMakeLists.txt"]).
    split; [|split; [reflexivity | discriminate]].
    rewrite removelast_app by discriminate.
    rewrite <- app_assoc. reflexivity.
Qed.

Lemma read_fs_inv {A} (op : Fs.node → result A) w w' r :
  read_fs op w = (w', r) → w' = w ∧ r = op (fs w).
Proof. intros H. inversion H; subst. auto. Qed.

Lemma lift_inv {A} (x : result A) w w' r : lift x w = (w', r) → w' = w ∧ r = x.
Proof. intros H. inversion H; subst. auto. Qed.

Lemma emit_inv e w w' u :
  emit e w = (w', Ok u) → fs w' = fs w ∧ trace w' = trace w ++ [e].
Proof. intros H. inversion H; subst. auto. Qed.

(** What [shutil.make_archive] did when it returns: whether it made the
    directory of the archive, the file system after that, after the archive
    was opened and in the end, and the tree it archived. *)
Lemma shutil_make_archive_ok_inv base rootd based w w' a :
  shutil_make_archive xztar base rootd based w = (w', Ok a) →
  ∃ (made : bool) n0 n1 tree,
    Fs.exists_ (fs w) (PyPath.parent (archive_path base)) = Ok (negb made) ∧
    (if made
     then Fs.makedirs false (fs w) (PyPath.parent (archive_path base)) = Ok n0
     else n0 = fs w) ∧
    Fs.write_file (xztar []) n0 (archive_path base) = Ok n1 ∧
    Fs.lookup n1 (PyPath.joinpath rootd based) = Some tree ∧
    PyPath.is_prefix (PyPath.joinpath rootd based) (archive_path base) = false ∧
    Fs.write_file (xztar [(based, tree)]) n1 (archive_path base) = Ok (fs w') ∧
    trace w' = trace w ++
      (if made
       then [Logged ("creating " +:+
                     PyPath.fspath (PyPath.parent (archive_path base)))]
       else []) ++ [Logged "Creating tar archive"] ∧
    a = PyPath.fspath (PyPath.normpath (archive_path base)).
Proof.
  unfold shutil_make_archive. intros H.
  apply bind_ok_inv in H as (there & w1 & H1 & H).
  apply read_fs_inv in H1 as [-> H1].
  apply bind_ok_inv in H as ([] & w2 & H2 & H).
  apply bind_ok_inv in H as ([] & w3 & H3 & H).
  apply emit_inv in H3 as [F3 T3].
  apply bind_ok_inv in H as ([] & w4 & H4 & H).
  apply lift_fs_ok_inv in H4 as (n1 & Hn1 & ->).
  apply bind_ok_inv in H as (tree & w5 & H5 & H).
  apply read_fs_inv in H5 as [-> H5]. cbn [fs with_fs] in H5.
  apply bind_ok_inv in H as ([] & w6 & H6 & H).
  apply lift_fs_ok_inv in H6 as (n2 & Hn2 & ->). cbn [fs with_fs] in Hn2.
  injection H as <- <-. cbn [fs with_fs trace].
  destruct (Fs.lookup n1 _) as [t|] eqn:Et; [|discriminate].
  destruct (PyPath.is_prefix _ _) eqn:Ep; [discriminate|].
  injection H5 as <-. rewrite F3 in Hn1.
  destruct there.
  - injection H2 as <-. exists false, (fs w), n1, tree. cbn [negb].
    repeat split; auto.
  - apply bind_ok_inv in H2 as ([] & w0 & H0 & H2).
    apply emit_inv in H0 as [F0 T0].
    apply lift_fs_ok_inv in H2 as (n0 & Hn0 & ->). cbn [fs with_fs trace] in *.
    rewrite F0 in Hn0. exists true, n0, n1, tree. cbn [negb].
    repeat split; auto. now rewrite T3, T0, <- app_assoc.
Qed.

Lemma shutil_make_archive_keeps_file base rootd based w w' a q data :
  diverge (archive_path base) q →
  shutil_make_archive xztar base rootd based w = (w', Ok a) →
  Fs.lookup (fs w) q = Some (Fs.File data) →
  Fs.lookup (fs w') q = Some (Fs.File data).
Proof.
  intros Hd H Hq.
  apply shutil_make_archive_ok_inv in H
    as (made & n0 & n1 & tree & _ & Hn0 & Hn1 & _ & _ & Hn2 & _).
  unfold Fs.write_file in Hn1, Hn2.
  rewrite (update_lookup_diverge _ _ _ Hd _ _ Hn2).
  rewrite (update_lookup_diverge _ _ _ Hd _ _ Hn1).
  destruct made; [|now subst n0]. eapply makedirs_keeps_files; eauto.
Qed.

Lemma subprocess_run_ok_inv argv w w' c :
  subprocess_run exec argv w = (w', Ok c) →
  trace w' = trace w ++ [Launched argv (Some c)].
Proof.
  unfold subprocess_run. destruct (exec argv w) as [[[rc out] n]|];
    [|discriminate].
  intros H. inversion H; subst. reflexivity.
Qed.

Lemma cmake_ok_inv args w w' :
  cmake exec list2cmdline args w = (w', Ok tt) →
  ∃ c, trace w' = trace w ++
         [Logged ("+ cmake " +:+ list2cmdline args);
          Launched ("cmake" :: args) (Some c)].
Proof.
  unfold cmake. intros H.
  apply bind_ok_inv in H as ([] & w1 & H1 & H).
  apply bind_ok_inv in H as (c & w2 & H2 & H).
  apply emit_inv in H1 as [_ H1]. apply subprocess_run_ok_inv in H2.
  inversion H; subst. exists c. rewrite H2, H1, <- app_assoc. reflexivity.
Qed.

Lemma git_ok_inv args w w' out :
  git exec args w = (w', Ok out) →
  ∃ rc, trace w' = trace w ++ [Launched ("git" :: args) (Some (rc, out))].
Proof.
  unfold git. intros H. apply bind_ok_inv in H as ([rc o] & w1 & H1 & H).
  apply subprocess_run_ok_inv in H1. inversion H; subst. eauto.
Qed.

Lemma get_version_ok_inv w w' version :
  get_version cwd exec w = (w', Ok version) →
  ∃ text rc out,
    Fs.read_text (fs w) (PyPath.joinpath cwd "VERSION") = Ok text ∧
    PyStr.decode (PyStr.rstrip_chars PyStr.is_space_bytes out) =
      Ok (PyStr.rstrip_chars PyStr.is_space_bytes out) ∧
    version = Version_init (PyStr.join_chars (PyStr.rstrip PyStr.is_space text))
                (PyStr.rstrip_chars PyStr.is_space_bytes out) ∧
    trace w' = trace w ++ [Launched rev_parse (Some (rc, out))].
Proof.
  unfold get_version. intros H.
  apply bind_ok_inv in H as (text & w1 & H1 & H).
  apply read_fs_inv in H1 as [-> H1].
  apply bind_ok_inv in H as (out & w2 & H2 & H).
  apply bind_ok_inv in H as (sha & w3 & H3 & H).
  apply lift_inv in H3 as [-> H3].
  apply git_ok_inv in H2 as [rc H2]. inversion H; subst.
  pose proof (decode_ok_inv _ _ (eq_sym H3)) as ->.
  exists text, rc, out. auto.
Qed.

Lemma lift_fs_trace op w w' r : lift_fs op w = (w', r) → trace w' = trace w.
Proof.
  unfold lift_fs. destruct (op (fs w)); intros H; inversion H; reflexivity.
Qed.

Lemma collect_one_trace paths src w w' r :
  collect_one root paths src w = (w', r) → trace w' = trace w.
Proof.
  destruct (decode_cases src) as [Hd|Hd].
  - rewrite collect_one_unfold by exact Hd.
    destruct (Fs.makedirs true _ _) as [n1|e]; [|now intros [= <- _]].
    destruct (Re.search _ _); [now intros [= <- _]|].
    destruct (Fs.copy2_nofollow _ _ _); now intros [= <- _].
  - rewrite (collect_one_undecodable _ _ _ _ _ Hd). now intros [= <- _].
Qed.

Lemma collect_loop_trace paths srcs : ∀ w w' r,
  for_each srcs (collect_one root paths) w = (w', r) → trace w' = trace w.
Proof.
  induction srcs as [|src srcs IH]; intros w w' r; cbn [for_each].
  - intros H. inversion H; reflexivity.
  - rewrite bind_unfold.
    destruct (collect_one root paths src w) as [w1 [[]|e]] eqn:E;
      apply collect_one_trace in E.
    + intros H. apply IH in H. now rewrite H.
    + intros H. inversion H; subst. exact E.
Qed.

Lemma copy_loop_trace paths deps : ∀ w w',
  for_each deps (copy_dep root paths) w = (w', Ok tt) →
  trace w' = trace w ++ map (λ dep, Logged ("Copying " +:+ dep +:+ "...")) deps.
Proof.
  induction deps as [|dep deps IH]; intros w w'; cbn [for_each map].
  - intros H. inversion H. now rewrite app_nil_r.
  - intros H. apply bind_ok_inv in H as ([] & w1 & H1 & H).
    apply IH in H. rewrite H. unfold copy_dep in H1.
    apply bind_ok_inv in H1 as ([] & w0 & H0 & H1).
    apply emit_inv in H0 as [_ H0]. apply lift_fs_trace in H1.
    rewrite H1, H0, <- app_assoc. reflexivity.
Qed.

Lemma write_dist_cmakelists_ok paths version fv w w' :
  write_dist_cmakelists paths version fv w = (w', Ok tt) →
  Fs.lookup (fs w') (cmakelists_path paths) =
    Some (Fs.File (cmakelists_of (commit_sha version) fv)) ∧
  trace w' = trace w.
Proof.
  unfold write_dist_cmakelists. intros H. split; [|eapply lift_fs_trace; eauto].
  apply lift_fs_ok_inv in H as (n & Hw & ->). cbn [fs with_fs].
  apply write_file_lookup in Hw. exact Hw.
Qed.

Lemma parse_args_ok_inv command_line w w' fv :
  parse_args command_line w = (w', Ok fv) →
  command_line = Namespace fv ∧ w' = w.
Proof.
  destruct command_line; cbn [parse_args].
  - now intros [= <- <-].
  - rewrite bind_unfold. cbn. discriminate.
  - rewrite bind_unfold. cbn. discriminate.
Qed.

Lemma main_ok_inv command_line w w' :
  main root cwd exec list2cmdline xztar command_line w = (w', Ok tt) →
  ∃ fv configure build revision listing prefix made,
    let sha := PyStr.rstrip_chars PyStr.is_space_bytes revision.2 in
    let paths := Paths_init root (Version_init prefix sha) fv in
    let archive :=
      archive_path
        (PyPath.joinpath (_BUILD_DIR root) (archive_top_level_dir_name paths)) in
    command_line = Namespace fv ∧
    PyStr.decode sha = Ok sha ∧
    trace w' = trace w ++
      success_trace list2cmdline root fv configure build revision listing
        archive made ∧
    Fs.read_file (fs w') (cmakelists_path paths) = Ok (cmakelists_of sha fv).
Proof.
  unfold main. intros H.
  apply bind_ok_inv in H as (fv & w0 & H0 & H).
  apply parse_args_ok_inv in H0 as [-> ->].
  apply bind_ok_inv in H as ([] & w1 & H1 & H).
  apply bind_ok_inv in H as ([] & w2 & H2 & H).
  apply bind_ok_inv in H as (b & w3 & H3 & H).
  apply bind_ok_inv in H as ([] & w4 & H4 & H).
  apply bind_ok_inv in H as (version & w5 & H5 & H).
  apply bind_ok_inv in H as ([] & w6 & H6 & H).
  apply bind_ok_inv in H as (listing & w7 & H7 & H).
  apply bind_ok_inv in H as ([] & w8 & H8 & H).
  apply bind_ok_inv in H as ([] & w9 & H9 & H).
  apply bind_ok_inv in H as ([] & w10 & H10 & H).
  apply bind_ok_inv in H as ([] & w11 & H11 & H).
  apply bind_ok_inv in H as ([] & w12 & H12 & H).
  apply bind_ok_inv in H as ([] & w13 & H13 & H).
  apply bind_ok_inv in H as (archive & w14 & H14 & H).
  apply cmake_ok_inv in H1 as [c1 T1]. apply cmake_ok_inv in H2 as [c2 T2].
  assert (T3 : trace w3 = trace w2) by (inversion H3; reflexivity).
  assert (T4 : trace w4 = trace w3).
  { destruct b; [eapply lift_fs_trace; eauto | inversion H4; reflexivity]. }
  apply get_version_ok_inv in H5 as (text & rc3 & out & _ & Hsha & -> & T5).
  apply emit_inv in H6 as [_ T6]. apply git_ok_inv in H7 as [rc4 T7].
  apply collect_loop_trace in H8 as T8. apply emit_inv in H9 as [_ T9].
  apply lift_fs_trace in H10 as T10. apply lift_fs_trace in H11 as T11.
  apply copy_loop_trace in H12 as T12.
  apply write_dist_cmakelists_ok in H13 as [F13 T13].
  unfold make_archive in H14.
  apply bind_ok_inv in H14 as ([] & w13' & H14a & H14).
  apply emit_inv in H14a as [F14a T14a].
  pose proof H14 as K14.
  eapply shutil_make_archive_keeps_file in K14;
    [|apply archive_path_diverges | rewrite F14a; exact F13].
  apply shutil_make_archive_ok_inv in H14
    as (made & n0 & n1 & tree & _ & _ & _ & _ & _ & _ & T14 & ->).
  apply emit_inv in H as [F15 T15].
  exists fv, c1, c2, (rc3, out), (rc4, listing),
    (PyStr.join_chars (PyStr.rstrip PyStr.is_space text)), made.
  cbv zeta. cbn [snd]. split; [reflexivity|]. split; [exact Hsha|]. split.
  - rewrite T15, T14, T14a, T13, T12, T11, T10, T9, T8, T7, T6, T5, T4, T3, T2, T1.
    unfold success_trace. rewrite <- !app_assoc. reflexivity.
  - unfold Fs.read_file. rewrite F15, K14. reflexivity.
Qed.

Lemma success_trace_revision fv configure build revision listing archive made
    tr rev tr' :
  success_trace list2cmdline root fv configure build revision listing archive
    made = tr ++ Launched rev_parse (Some rev) :: tr' →
  rev = revision.
Proof.
  intros Heq.
  assert (Hin : Launched rev_parse (Some rev) ∈
                success_trace list2cmdline root fv configure build revision
                  listing archive made).
  { rewrite Heq. apply elem_of_app. right. apply elem_of_cons. now left. }
  unfold success_trace in Hin. cbv zeta in Hin.
  rewrite !elem_of_app, !elem_of_cons, elem_of_nil in Hin.
  destruct Hin as [Hin | [Hin | [Hin | [Hin | Hin]]]].
  - destruct Hin as [H|[H|[H|[H|[H|[H|[H|[H|[]]]]]]]]]; try discriminate H.
    now injection H as ->.
  - apply list_elem_of_In, in_map_iff in Hin as (dep & H & _). discriminate H.
  - destruct Hin as [H|[]]. discriminate H.
  - destruct made; [|now apply elem_of_nil in Hin].
    apply elem_of_cons in Hin as [H|Hin]; [discriminate H|].
    now apply elem_of_nil in Hin.
  - destruct Hin as [H|[H|[]]]; discriminate H.
Qed.

Lemma write_file_ok data c : ∀ p n,
  Fs.is_dir n p = true →
  (Fs.lookup n (p ++ [c]) = None ∨ ∃ old, Fs.lookup n (p ++ [c]) = Some (Fs.File old)) →
  ∃ n', Fs.write_file data n (p ++ [c]) = Ok n'.
Proof.
  unfold Fs.write_file.
  induction p as [|d p IH]; intros n Hd Hl; cbn [app Fs.update].
  - apply is_dir_nil in Hd as [es ->]. cbn [app Fs.lookup] in Hl.
    destruct (Fs.lookup_entry c es) as [child|] eqn:E.
    + cbn [Fs.update]. destruct Hl as [Hl | [old Hl]]; [discriminate|].
      injection Hl as ->. cbn. eauto.
    + cbn. eauto.
  - apply is_dir_cons in Hd as (es & child & -> & E & Hd).
    cbn [app Fs.lookup] in Hl. rewrite E in *.
    destruct (IH child Hd Hl) as [n' ->]. cbn. eauto.
Qed.

(** C9: the generated configuration file is a function of the revision
    identifier and of the mode alone.  The bytes written do not depend on the
    rest of the version, on the layout or on the state of the world: two calls
    of the writer with the same revision identifier and mode leave files with
    the same content; the writer succeeds whenever the distribution directory
    exists and no directory or link takes the file's place; and after any run
    of [main] that returns, the file of that run's layout holds exactly the
    bytes computed from the mode and from what the revision lookup printed in
    that run, so that two runs at an unchanged revision and mode end with
    byte-identical files. *)
Theorem cmakelists_is_function_of_revision_and_mode :
  (∀ v1 v2 fv, commit_sha v1 = commit_sha v2 →
     cmakelists_chunks v1 fv = cmakelists_chunks v2 fv) ∧
  (∀ paths version fv w,
     Fs.is_dir (fs w) (dist_dir paths) = true →
     (Fs.lookup (fs w) (cmakelists_path paths) = None ∨
      ∃ old, Fs.lookup (fs w) (cmakelists_path paths) = Some (Fs.File old)) →
     ∃ w', write_dist_cmakelists paths version fv w = (w', Ok tt)) ∧
  (∀ paths version fv w w',
     write_dist_cmakelists paths version fv w = (w', Ok tt) →
     Fs.read_file (fs w') (cmakelists_path paths) =
     Ok (cmakelists_of (commit_sha version) fv)) ∧
  (∀ paths1 paths2 v1 v2 fv w1 w2 w1' w2',
     commit_sha v1 = commit_sha v2 →
     write_dist_cmakelists paths1 v1 fv w1 = (w1', Ok tt) →
     write_dist_cmakelists paths2 v2 fv w2 = (w2', Ok tt) →
     Fs.read_file (fs w1') (cmakelists_path paths1) =
     Fs.read_file (fs w2') (cmakelists_path paths2)) ∧
  (∀ command_line w w',
     main root cwd exec list2cmdline xztar command_line w = (w', Ok tt) →
     ∃ fv configure build revision listing prefix made,
       let sha := PyStr.rstrip_chars PyStr.is_space_bytes revision.2 in
       let paths := Paths_init root (Version_init prefix sha) fv in
       let archive :=
         archive_path
           (PyPath.joinpath (_BUILD_DIR root)
              (archive_top_level_dir_name paths)) in
       command_line = Namespace fv ∧
       PyStr.decode sha = Ok sha ∧
       trace w' = trace w ++
         success_trace list2cmdline root fv configure build revision listing
           archive made ∧
       (∀ tr rev tr',
          success_trace list2cmdline root fv configure build revision listing
            archive made = tr ++ Launched rev_parse (Some rev) :: tr' →
          rev = revision) ∧
       Fs.read_file (fs w') (cmakelists_path paths) = Ok (cmakelists_of sha fv)).
Proof.
  split; [intros v1 v2 fv Heq; unfold cmakelists_chunks; now rewrite Heq|].
  split.
  { intros paths version fv w Hd Hl. unfold write_dist_cmakelists, lift_fs.
    change (PyPath.joinpath (dist_dir paths) "CMakeLists.txt")
      with (dist_dir paths ++ ["CMakeLists.txt"]).
    change (cmakelists_path paths)
      with (dist_dir paths ++ ["CMakeLists.txt"]) in Hl.
    destruct (write_file_ok
                (String.concat "" (cmakelists_chunks version fv))
                "CMakeLists.txt" _ _ Hd Hl) as [n' ->].
    eauto. }
  assert (Hw : ∀ paths version fv w w',
     write_dist_cmakelists paths version fv w = (w', Ok tt) →
     Fs.read_file (fs w') (cmakelists_path paths) =
     Ok (cmakelists_of (commit_sha version) fv)).
  { intros paths version fv w w' H.
    apply write_dist_cmakelists_ok in H as [H _].
    unfold Fs.read_file. now rewrite H. }
  split; [exact Hw|]. split.
  { intros paths1 paths2 v1 v2 fv w1 w2 w1' w2' Heq H1 H2.
    rewrite (Hw _ _ _ _ _ H1), (Hw _ _ _ _ _ H2), Heq. reflexivity. }
  intros command_line w w' H.
  destruct (main_ok_inv command_line w w' H)
    as (fv & configure & build & revision & listing & prefix & made &
        Hc & Hs & Ht & Hf).
  exists fv, configure, build, revision, listing, prefix, made. cbv zeta in *.
  split; [exact Hc|]. split; [exact Hs|]. split; [exact Ht|].
  split; [|exact Hf].
  intros tr rev tr'. apply success_trace_revision.
Qed.

(** C6, as the code has it: a program that cannot be started is fatal, an
    exit status is not looked at.  [subprocess.run] raises when the program
    cannot be started and returns for every exit status; so [cmake] returns
    and [git] hands back the captured output whatever the status; and in
    every run of [main] a launch that failed is the last thing that
    happened: the run raised [FileNotFoundError] there, launched nothing
    again, and logged and printed nothing after it. *)
Theorem launch_failure_is_fatal :
  (∀ argv w,
     exec argv w = None →
     subprocess_run exec argv w =
     ({| fs := fs w; trace := trace w ++ [Launched argv None] |},
      Raise FileNotFoundError)) ∧
  (∀ argv w returncode out n,
     exec argv w = Some (returncode, out, n) →
     subprocess_run exec argv w =
     ({| fs := n;
         trace := trace w ++ [Launched argv (Some (returncode, out))] |},
      Ok (returncode, out))) ∧
  (∀ args w returncode out n,
     exec ("cmake" :: args)
          (info ("+ cmake " +:+ list2cmdline args) w).1
       = Some (returncode, out, n) →
     (cmake exec list2cmdline args w).2 = Ok tt) ∧
  (∀ args w returncode out n,
     exec ("git" :: args) w = Some (returncode, out, n) →
     (git exec args w).2 = Ok out) ∧
  (∀ command_line w w' r,
     main root cwd exec list2cmdline xztar command_line w = (w', r) →
     ∃ new, trace w' = trace w ++ new ∧
       ∀ tr argv tr', new = tr ++ Launched argv None :: tr' →
         tr' = [] ∧ r = Raise FileNotFoundError).
Proof.
  split; [intros argv w H; unfold subprocess_run; now rewrite H|].
  split; [intros argv w rc out n H; unfold subprocess_run; now rewrite H|].
  split.
  { intros args w rc out n H. unfold cmake. rewrite bind_unfold.
    destruct (info _ w) as [w1 [[]|e]] eqn:E; [|discriminate E].
    cbn [fst] in H. rewrite bind_unfold. unfold subprocess_run. rewrite H.
    reflexivity. }
  split.
  { intros args w rc out n H. unfold git. rewrite bind_unfold.
    unfold subprocess_run. rewrite H. reflexivity. }
  intros command_line w w' r H. apply fail_fast_main in H as (new & Ht & Ho).
  exists new. split; [exact Ht|]. intros tr argv tr'.
  now apply failed_launch_is_last.
Qed.


End Pipeline.

(** ** Runs on the small checkout *)

Section Runs.

(** C2, the counterexample: in fully-vendored mode the flags follow the
    dependencies in the order of the two loops, and neither the
    dependencies nor the flags are sorted. *)
Lemma fully_vendored_flags_not_sorted :
  List.filter is_system_off_flag
    (configure_args "/devilutionX" "/devilutionX/build-src-dist" true) =
  map system_off_flag
    ["sdl_audiolib"; "simpleini"; "unordered_dense"; "googletest";
     "benchmark"; "sdl2"; "sdl_image"; "libpng"; "libfmt"; "bzip2";
     "libsodium"] ∧
  system_off_deps true =
    ["sdl_audiolib"; "simpleini"; "unordered_dense"; "googletest";
     "benchmark"; "sdl2"; "sdl_image"; "libpng"; "libfmt"; "bzip2";
     "libsodium"] ∧
  ¬ Sorted String.le (system_off_deps true) ∧
  ¬ Sorted String.le
      (List.filter is_system_off_flag
         (configure_args "/devilutionX" "/devilutionX/build-src-dist" true)).
Proof. repeat split; compute_done. Qed.

(** C7, the counterexample: the entries of the bundled fmt directory are
    the ones that are ignored, so they do not survive the copy, and in the
    rest of the dependency's tree the general rules, which would ignore
    [doc] and [Makefile], are not applied. *)
Lemma sdl_audiolib_exception_counterexample :
  ignore_dep_src "/devilutionX/build-src-dist/_deps/sdl_audiolib-src/3rdparty/fmt"
                 ["format.h"]
  = IgnList ["format.h"] ∧
  ignore_dep_src "/devilutionX/build-src-dist/_deps/sdl_audiolib-src"
                 ["3rdparty"; "doc"; "Makefile"]
  = IgnList [] ∧
  general_rules "/devilutionX/build-src-dist/_deps/sdl_audiolib-src"
                ["3rdparty"; "doc"; "Makefile"]
  = IgnIter ["doc"; "Makefile"] ∧
  Fs.copytree_dir ignore_dep_src
    "/devilutionX/build-src-dist/_deps/sdl_audiolib-src" Demo.fragile_tree
  = ([("3rdparty", Fs.Dir [("fmt", Fs.Dir [])]);
      ("doc", Fs.Dir [("index.html", Fs.File "d")]);
      ("Makefile", Fs.File "m")], true).
Proof. repeat split; vm_compute; reflexivity. Qed.

(** C6, the counterexample: cmake exits with status 1 twice and the run
    goes through all its stages, returns and prints the archive's path; git
    exits with status 128 at the revision lookup and the run goes on to list
    the tracked files, only to fail later with another error. *)
Lemma nonzero_exit_is_not_fatal :
  (Demo.run (Demo.exec 1 0) false).2 = Ok tt ∧
  trace (Demo.run (Demo.exec 1 0) false).1 =
    success_trace Demo.list2cmdline Demo.root false
      (1%Z, "") (1%Z, "") (0%Z, line "abc1234") (0%Z, Demo.tracked)
      ["devilutionX"; "build-src-dist"; "devilutionx-src-1.2.3.tar.xz"]
      false ∧
  List.last (trace (Demo.run (Demo.exec 1 0) false).1) (Logged "") =
    Printed "/devilutionX/build-src-dist/devilutionx-src-1.2.3.tar.xz" ∧
  (Demo.run Demo.exec_no_repository false).2 = Raise IsADirectoryError ∧
  List.skipn 4 (trace (Demo.run Demo.exec_no_repository false).1) =
    [Launched rev_parse (Some (128%Z, ""));
     Logged "Copying repo files...";
     Launched ["git"; "ls-files"; "-z"] (Some (128%Z, ""))].
Proof. repeat split; vm_compute; reflexivity. Qed.

Lemma launch_failure_is_fatal_witness :
  ∃ new,
    trace (Demo.run Demo.exec_no_cmake false).1 = trace Demo.world ++ new ∧
    ∀ tr argv tr', new = tr ++ Launched argv None :: tr' →
      tr' = [] ∧ (Demo.run Demo.exec_no_cmake false).2 = Raise FileNotFoundError.
Proof.
  apply (proj2 (proj2 (proj2 (proj2
           (launch_failure_is_fatal Demo.root Demo.root Demo.exec_no_cmake
              Demo.list2cmdline Demo.xztar)))) (Namespace false) Demo.world).
  apply surjective_pairing.
Defined.


Lemma cmakelists_is_function_of_revision_and_mode_witness :
  Fs.read_file
    (fs (write_dist_cmakelists Demo.paths (Version_init "1.2.3" "abc1234")
           false (Demo.run (Demo.exec 0 0) false).1).1)
    (cmakelists_path Demo.paths) =
  Fs.read_file
    (fs (write_dist_cmakelists Demo.paths_rc Demo.version_rc false
           Demo.world_rc).1)
    (cmakelists_path Demo.paths_rc).
Proof.
  apply (proj1 (proj2 (proj2 (proj2
           (cmakelists_is_function_of_revision_and_mode Demo.root Demo.root
              (Demo.exec 0 0) Demo.list2cmdline Demo.xztar))))
           Demo.paths Demo.paths_rc
           (Version_init "1.2.3" "abc1234") Demo.version_rc false
           (Demo.run (Demo.exec 0 0) false).1 Demo.world_rc).
  - reflexivity.
  - vm_compute. reflexivity.
  - vm_compute. reflexivity.
Defined.

End Runs.

(** ** Copying a dependency tree *)

Section CopyTree.

Lemma copytree_dir_eq ignore src es :
  Fs.copytree_dir ignore src (Fs.Dir es) =
  copy_loop (Fs.copytree_dir ignore) src (ignore src (map fst es)) es.
Proof.
  cbn [Fs.copytree_dir]. generalize (ignore src (map fst es)).
  induction es as [|[name child] es IH]; intros ig; [reflexivity|].
  cbn [copy_loop]. destruct (Fs.contains ig name) as [found ig'].
  destruct found; [apply IH|]. rewrite IH. reflexivity.
Qed.

Lemma copy_loop_exhausted rec src es :
  map fst (copy_loop rec src (IgnIter []) es).1 =
  map fst (List.filter (λ e, negb (is_symlink e.2)) es).
Proof.
  induction es as [|[name child] es IH]; [reflexivity|].
  cbn [copy_loop Fs.contains Fs.consume List.filter snd].
  destruct (copy_loop rec src (IgnIter []) es) as [rest ok'] eqn:E.
  cbn [fst] in IH.
  destruct child as [data|target|ces]; cbn [is_symlink negb].
  - cbn. now rewrite IH.
  - cbn. exact IH.
  - destruct (rec _ _) as [ces' ok]. cbn. now rewrite IH.
Qed.

Lemma consume_miss name pending :
  name ∉ pending → Fs.consume name pending = (false, []).
Proof.
  induction pending as [|x pending IH]; [reflexivity|]. intros Hn.
  cbn [Fs.consume]. destruct (String.eqb_spec x name) as [->|Hne].
  - exfalso. apply Hn. now left.
  - apply IH. intros Hin. apply Hn. now right.
Qed.

Lemma copy_loop_iter rec src P es :
  map fst (copy_loop rec src (IgnIter (List.filter P (map fst es))) es).1 =
  map fst (List.filter (λ e, negb (is_symlink e.2))
             (drop_leading (λ e, P e.1) es)).
Proof.
  induction es as [|[name child] es IH]; [reflexivity|].
  cbn [map fst List.filter drop_leading].
  destruct (P name) eqn:HP.
  - cbn [copy_loop Fs.contains Fs.consume]. rewrite String.eqb_refl. exact IH.
  - assert (Hmiss : name ∉ List.filter P (map fst es)).
    { intros Hin. apply list_elem_of_In, filter_In in Hin as [_ Hin].
      congruence. }
    cbn [copy_loop Fs.contains]. rewrite (consume_miss _ _ Hmiss).
    pose proof (copy_loop_exhausted rec src es) as Hex.
    destruct (copy_loop rec src (IgnIter []) es) as [rest ok'].
    cbn [fst] in Hex. cbn [List.filter snd].
    destruct child as [data|target|ces]; cbn [is_symlink negb].
    + cbn. now rewrite Hex.
    + cbn. exact Hex.
    + destruct (rec _ _) as [ces' ok]. cbn. now rewrite Hex.
Qed.

Lemma copy_loop_all_ignored rec src names es :
  Forall (λ e, e.1 ∈ names) es →
  copy_loop rec src (IgnList names) es = ([], true).
Proof.
  induction 1 as [|[name child] es Hin _ IH]; [reflexivity|].
  cbn [copy_loop Fs.contains].
  assert (Hex : existsb (String.eqb name) names = true).
  { apply existsb_exists. exists name. split; [now apply list_elem_of_In|].
    apply String.eqb_refl. }
  rewrite Hex. exact IH.
Qed.

Lemma filter_no_symlink (es : list (string * Fs.node)) :
  Forall (λ e, is_symlink e.2 = false) es →
  List.filter (λ e, negb (is_symlink e.2)) es = es.
Proof.
  induction 1 as [|e es He _ IH]; [reflexivity|].
  cbn [List.filter]. now rewrite He, IH.
Qed.

Lemma Forall_drop_leading {A} (P : A → Prop) (Q : A → bool) (l : list A) :
  Forall P l → Forall P (drop_leading Q l).
Proof.
  induction 1 as [|x l Hx Hl IH]; [constructor|].
  cbn [drop_leading]. destruct (Q x); [exact IH | now constructor].
Qed.

(** X1: in a dependency directory that is neither part of the fragile
    dependency nor excluded as a whole, [shutil.copytree] skips only the
    entries that the name rules match at the head of the directory listing.
    [ignore_dep_src] answers with a [filter] iterator, and copytree's test
    [name in ignored_names] uses up the iterator at the first entry the rules
    do not match; every entry after that one is copied, whether the rules
    match its name or not. *)
Theorem general_rule_skips_leading_run_only (src : string)
    (es : list (string * Fs.node)) :
  PyStr.str_in "sdl_audiolib" src = false →
  Re.search _IGNORE_DEP_DIR_RE src = false →
  Forall (λ e, is_symlink e.2 = false) es →
  map fst (Fs.copytree_dir ignore_dep_src src (Fs.Dir es)).1 =
  map fst (drop_leading (λ e, ignore_name e.1) es).
Proof.
  intros Hs Hd Hl. rewrite copytree_dir_eq. unfold ignore_dep_src at 2.
  rewrite Hs, Hd, copy_loop_iter, filter_no_symlink; [reflexivity|].
  now apply Forall_drop_leading.
Qed.

(** X2: a dependency directory whose own path matches the directory pattern
    is created empty: copytree is handed the whole listing as names to
    ignore, so no entry is copied and no subdirectory is visited. *)
Theorem excluded_directory_is_copied_empty (src : string)
    (es : list (string * Fs.node)) :
  PyStr.str_in "sdl_audiolib" src = false →
  Re.search _IGNORE_DEP_DIR_RE src = true →
  Fs.copytree_dir ignore_dep_src src (Fs.Dir es) = ([], true).
Proof.
  intros Hs Hd. rewrite copytree_dir_eq. unfold ignore_dep_src at 2.
  rewrite Hs, Hd. apply copy_loop_all_ignored.
  apply Forall_forall. intros [name child] Hin. cbn [fst].
  apply list_elem_of_In, in_map_iff. exists (name, child).
  split; [reflexivity | now apply list_elem_of_In].
Qed.

End CopyTree.

(** ** What the two patterns accept *)

Section FilePattern.
Import Re.

Lemma Match_lit_inv s : ∀ b w rest, Match (lit s) b w rest → w = s.
Proof.
  induction s as [|c s IH]; intros b w rest H; cbn [lit] in H.
  - now inversion H.
  - inversion H as [| |? ? ? w1 w2 ? H1 H2| | | | | |]; subst.
    inversion H1; subst. apply IH in H2 as ->. reflexivity.
Qed.

Lemma Match_alts_inv rs : ∀ r b w rest,
  Match (alts r rs) b w rest → ∃ r', r' ∈ r :: rs ∧ Match r' b w rest.
Proof.
  induction rs as [|r1 rs IH]; intros r b w rest H; cbn [alts] in H.
  - exists r. split; [now left | exact H].
  - inversion H; subst.
    + exists r. split; [now left | assumption].
    + match goal with
      | Hm : Match (alts _ _) _ _ _ |- _ =>
          destruct (IH _ _ _ _ Hm) as (r' & Hin & Hm')
      end.
      exists r'. split; [now right | exact Hm'].
Qed.

Lemma Match_cat_inv r1 r2 b w rest :
  Match (Cat r1 r2) b w rest →
  ∃ w1 w2, w = w1 +:+ w2 ∧ Match r1 b w1 (w2 +:+ rest) ∧
           Match r2 (b && PyStr.is_empty w1) w2 rest.
Proof. intros H. inversion H; subst. eauto. Qed.

Lemma Match_opt_chr_inv c b w rest :
  Match (Opt (Chr c)) b w rest → w = "" ∨ w = String c "".
Proof.
  intros H. inversion H as [| | | | |? ? ? ? H1| | |]; subst; [|now left].
  inversion H1; subst. now right.
Qed.

Lemma Match_chr_inv c b w rest : Match (Chr c) b w rest → w = String c "".
Proof. intros H. now inversion H. Qed.

Lemma Match_bol_inv b w rest : Match Bol b w rest → b = true ∧ w = "".
Proof. intros H. now inversion H. Qed.

Lemma Match_eol_inv b w rest :
  Match Eol b w rest → w = "" ∧ (rest = "" ∨ rest = nl).
Proof.
  intros H. inversion H as [| | | | | | | |? ? He]; subst. split; [reflexivity|].
  unfold at_eol in He. apply orb_true_iff in He as [He|He];
    apply String.eqb_eq in He; auto.
Qed.

Lemma str_in_intro w a b : PyStr.str_in w (a +:+ w +:+ b) = true.
Proof. apply str_in_spec. eauto. Qed.

Lemma endswith_intro a suf : PyStr.endswith (a +:+ suf) suf = true.
Proof. apply endswith_spec. eauto. Qed.

Lemma file_rule_sound name :
  search _IGNORE_DEP_FILE_RE name = true → file_rule name = true.
Proof.
  intros H. apply search_spec in H as (l & w & rest & -> & Hm).
  unfold _IGNORE_DEP_FILE_RE in Hm.
  apply Match_alts_inv in Hm as (r & Hin & Hm).
  unfold file_rule, ignored_file_words, ignored_file_extensions, ends_line.
  cbn [existsb]. rewrite !orb_true_iff.
  repeat (apply elem_of_cons in Hin as [->|Hin]).
  - apply Match_cat_inv in Hm as (w1 & w2 & -> & H1 & H2).
    apply Match_bol_inv in H1 as [Hb ->]. apply Match_chr_inv in H2 as ->.
    apply is_empty_true in Hb as ->. left. left. reflexivity.
  - apply Match_lit_inv in Hm as ->. left; right. left. apply str_in_intro.
  - apply Match_cat_inv in Hm as (w1 & w2 & -> & H1 & H2).
    apply Match_lit_inv in H1 as ->.
    apply Match_cat_inv in H2 as (w3 & w4 & -> & H3 & H4).
    apply Match_lit_inv in H4 as ->.
    apply Match_opt_chr_inv in H3 as [->| ->]; left; right.
    + right; left. apply str_in_intro.
    + right; right; left. apply str_in_intro.
  - apply Match_lit_inv in Hm as ->. left; right. do 3 right. left.
    apply str_in_intro.
  - apply Match_lit_inv in Hm as ->. left; right. do 4 right. left.
    apply str_in_intro.
  - apply Match_cat_inv in Hm as (w1 & w2 & -> & H1 & H2).
    apply Match_lit_inv in H1 as ->. left; right. do 5 right. left.
    rewrite (append_assoc "doc" w2 rest). apply str_in_intro.
  - apply Match_cat_inv in Hm as (w1 & w2 & -> & H1 & H2).
    apply Match_chr_inv in H1 as ->.
    apply Match_cat_inv in H2 as (w3 & w4 & -> & H3 & H4).
    apply Match_eol_inv in H4 as [-> Hrest].
    apply Match_alts_inv in H3 as (r & Hin & H3). right.
    assert (Hend : ∀ e, w3 = e →
              PyStr.endswith (l +:+ ("." +:+ w3 +:+ "") +:+ rest) ("." +:+ e) = true ∨
              PyStr.endswith (l +:+ ("." +:+ w3 +:+ "") +:+ rest) (("." +:+ e) +:+ nl) = true).
    { intros e ->. rewrite append_nil_r.
      destruct Hrest as [->| ->].
      - left. rewrite append_nil_r. apply endswith_intro.
      - right. apply endswith_intro. }
    repeat (apply elem_of_cons in Hin as [->|Hin]);
      try (apply Match_lit_inv in H3; apply Hend in H3).
    + left. exact H3.
    + right; left. exact H3.
    + do 2 right; left. exact H3.
    + do 3 right; left. exact H3.
    + do 4 right; left. exact H3.
    + do 5 right; left. exact H3.
    + now apply elem_of_nil in Hin.
  - now apply elem_of_nil in Hin.
Qed.

Lemma search_intro_end r w :
  (∀ b, matches r b w (λ _ _, true) = true) →
  ∀ l, search r (l +:+ w) = true.
Proof.
  intros Hm l. rewrite <- (append_nil_r w) in Hm.
  rewrite <- (append_nil_r (l +:+ w)), append_assoc.
  now apply search_from_intro.
Qed.

Lemma search_intro_start r s :
  matches r true s (λ _ _, true) = true → search r s = true.
Proof. apply search_from_here. Qed.

Ltac search_tac :=
  match goal with
  | H : PyStr.startswith _ _ = true |- _ =>
      apply startswith_spec in H as [? ->]; apply search_intro_start;
      reflexivity
  | H : PyStr.str_in _ _ = true |- _ =>
      apply str_in_spec in H as (? & ? & ->); apply search_from_intro;
      intros [|];
      first [reflexivity | cbn; rewrite ?orb_true_r; reflexivity]
  | H : PyStr.endswith _ _ = true |- _ =>
      apply endswith_spec in H as [? ->]; apply search_intro_end;
      intros [|]; reflexivity
  | H : String.eqb _ _ = true |- _ =>
      apply String.eqb_eq in H as ->; reflexivity
  end.

Lemma file_rule_complete name :
  file_rule name = true → search _IGNORE_DEP_FILE_RE name = true.
Proof.
  unfold file_rule, ignored_file_words, ignored_file_extensions, ends_line.
  cbn [existsb]. rewrite !orb_true_iff. intros H.
  repeat destruct H as [H|H]; try discriminate H; search_tac.
Qed.

(** X3: what [_IGNORE_DEP_FILE_RE.search] accepts, in terms of plain string
    tests: a name that starts with a dot, that holds one of the six words
    anywhere (so [docs], [examples] or [undocumented] too), or that ends
    with a dot and one of the six extensions, a final newline apart. *)
Theorem ignore_dep_file_re_spec (name : string) :
  search _IGNORE_DEP_FILE_RE name = file_rule name.
Proof.
  apply eq_true_iff_eq. split; [apply file_rule_sound | apply file_rule_complete].
Qed.

Lemma Match_sep_or_bol_inv b w rest :
  Match sep_or_bol b w rest → w = "/" ∨ (b = true ∧ w = "").
Proof.
  intros H. inversion H as [| | |? ? ? ? ? Hl|? ? ? ? ? Hr| | | |]; subst.
  - left. now apply Match_chr_inv in Hl.
  - right. now apply Match_bol_inv in Hr.
Qed.

Lemma Match_sep_or_eol_inv b w rest :
  Match sep_or_eol b w rest → w = "/" ∨ (w = "" ∧ (rest = "" ∨ rest = nl)).
Proof.
  intros H. inversion H as [| | |? ? ? ? ? Hl|? ? ? ? ? Hr| | | |]; subst.
  - left. now apply Match_chr_inv in Hl.
  - right. now apply Match_eol_inv in Hr.
Qed.

Lemma Match_dir_names_inv b w rest :
  Match ignored_dir_names b w rest → w ∈ ignored_dir_words.
Proof.
  unfold ignored_dir_names. intros Hm.
  apply Match_alts_inv in Hm as (r & Hin & Hm).
  repeat (apply elem_of_cons in Hin as [->|Hin]);
    try (apply Match_lit_inv in Hm as ->; compute_done);
    try (now apply elem_of_nil in Hin).
  - apply Match_cat_inv in Hm as (w1 & w2 & -> & H1 & H2).
    apply Match_lit_inv in H1 as ->.
    apply Match_opt_chr_inv in H2 as [->| ->]; compute_done.
  - apply Match_cat_inv in Hm as (w1 & w2 & -> & H1 & H2).
    apply Match_lit_inv in H1 as ->.
    apply Match_cat_inv in H2 as (w3 & w4 & -> & H3 & H4).
    apply Match_lit_inv in H4 as ->.
    apply Match_opt_chr_inv in H3 as [->| ->]; compute_done.
  - apply Match_cat_inv in Hm as (w1 & w2 & -> & H1 & H2).
    apply Match_lit_inv in H1 as ->.
    apply Match_opt_chr_inv in H2 as [->| ->]; compute_done.
  - apply Match_cat_inv in Hm as (w1 & w2 & -> & H1 & H2).
    apply Match_lit_inv in H1 as ->.
    apply Match_opt_chr_inv in H2 as [->| ->]; compute_done.
Qed.

Lemma component_rule_intro pre name post :
  (pre = "" ∨ ∃ p, pre = p +:+ "/") →
  (post = "" ∨ post = nl ∨ ∃ q, post = "/" +:+ q) →
  component_rule (pre +:+ name +:+ post) name = true.
Proof.
  intros Hpre Hpost. unfold component_rule. rewrite !orb_true_iff.
  destruct Hpre as [->|[p ->]]; destruct Hpost as [->|[->|[q ->]]];
    cbn [String.append].
  - do 5 left. rewrite append_nil_r. apply String.eqb_refl.
  - do 4 left. right. apply String.eqb_refl.
  - do 3 left. right. apply startswith_spec. exists q.
    now rewrite append_assoc.
  - do 2 left. right. rewrite append_nil_r, append_assoc.
    apply endswith_intro.
  - left. right. rewrite append_assoc. apply endswith_intro.
  - right. apply str_in_spec. exists p, q. rewrite !append_assoc.
    cbn [String.append]. rewrite !append_assoc. reflexivity.
Qed.

Lemma dir_rule_sound s :
  search _IGNORE_DEP_DIR_RE s = true → dir_rule s = true.
Proof.
  intros H. apply search_spec in H as (l & w & rest & -> & Hm).
  unfold _IGNORE_DEP_DIR_RE in Hm. unfold dir_rule. rewrite !orb_true_iff.
  inversion Hm as [| | |? ? ? ? ? Hl|? ? ? ? ? Hr| | | |]; subst.
  - left. apply Match_cat_inv in Hl as (w1 & w2 & -> & H1 & H2).
    apply Match_chr_inv in H2 as ->.
    apply Match_sep_or_bol_inv in H1 as [->|[Hb ->]].
    + right. apply str_in_intro.
    + left. apply is_empty_true in Hb as ->. reflexivity.
  - right. apply Match_cat_inv in Hr as (w1 & w2 & -> & H1 & H2).
    apply Match_cat_inv in H2 as (w3 & w4 & -> & H3 & H4).
    apply Match_dir_names_inv in H3.
    apply existsb_exists. exists w3. split; [now apply list_elem_of_In|].
    replace (l +:+ (w1 +:+ w3 +:+ w4) +:+ rest)
      with ((l +:+ w1) +:+ w3 +:+ (w4 +:+ rest))
      by (now rewrite !append_assoc).
    apply component_rule_intro.
    + apply Match_sep_or_bol_inv in H1 as [->|[Hb ->]]; [right; eauto|].
      left. apply is_empty_true in Hb as ->. reflexivity.
    + apply Match_sep_or_eol_inv in H4 as [->|[-> [->| ->]]];
        [right; right; eauto | now left | right; now left].
Qed.

Lemma dir_rule_complete s :
  dir_rule s = true → search _IGNORE_DEP_DIR_RE s = true.
Proof.
  unfold dir_rule, ignored_dir_words, component_rule.
  cbn [existsb]. rewrite !orb_true_iff. intros H.
  repeat destruct H as [H|H]; try discriminate H; search_tac.
Qed.

(** X4: what [_IGNORE_DEP_DIR_RE.search] accepts: a path with a component
    that starts with a dot, or in which one of the listed names stands as
    whole components: after the start or a slash, and before a slash or the
    end, a final newline apart. *)
Theorem ignore_dep_dir_re_spec (s : string) :
  search _IGNORE_DEP_DIR_RE s = dir_rule s.
Proof.
  apply eq_true_iff_eq. split; [apply dir_rule_sound | apply dir_rule_complete].
Qed.

End FilePattern.

(** ** The selections and standard output *)

Section Consistency.

(** X5: the two selections of [main] agree.  A dependency is copied into the
    distribution exactly when the configure step was told not to use the
    system's copy of it, or when it is one the build always vendors. *)
Theorem copied_iff_disabled_or_always_vendored (fv : bool) (d : string) :
  d ∈ copied_deps fv ↔
  d ∈ system_off_deps fv ∨ d ∈ _ALWAYS_VENDORED_DEPS.
Proof.
  rewrite elem_of_copied_deps, elem_of_system_off_deps.
  pose proof always_vendored_in_deps as Hsub. rewrite Forall_forall in Hsub.
  destruct (decide (d ∈ _ALWAYS_VENDORED_DEPS)) as [Ha|Ha].
  - specialize (Hsub d Ha). tauto.
  - tauto.
Qed.

Lemma concat_elem (x : string) (l : list string) :
  x ∈ l → ∃ a b, String.concat "" l = a +:+ x +:+ b.
Proof.
  induction l as [|y l IH]; intros Hin; [now apply elem_of_nil in Hin|].
  assert (Hc : String.concat "" (y :: l) = y +:+ String.concat "" l).
  { destruct l; cbn [String.concat]; [now rewrite append_nil_r | reflexivity]. }
  rewrite Hc. apply elem_of_cons in Hin as [->|Hin].
  - exists "", (String.concat "" l). reflexivity.
  - destruct (IH Hin) as (a & b & ->). exists (y +:+ a), b.
    now rewrite append_assoc.
Qed.

Lemma written_chunk x version fv :
  x ∈ cmakelists_chunks version fv →
  PyStr.str_in x (String.concat "" (cmakelists_chunks version fv)) = true.
Proof. intros Hin. apply str_in_spec. now apply concat_elem. Qed.

(** X6: the generated file and the copy loop agree in one direction only.
    Every dependency that [main] copies gets its source directory pinned in
    the generated file, and in fully-vendored mode every dependency not
    vendored by default gets its system copy switched off by default; but
    the fully-vendored file also pins the directory [discordsrc-src], which
    no run copies. *)
Theorem cmakelists_pins_what_is_copied :
  (∀ version fv dep,
     dep ∈ copied_deps fv →
     PyStr.str_in (source_dir_stmt (PyStr.upper dep) dep)
       (String.concat "" (cmakelists_chunks version fv)) = true) ∧
  (∀ version dep,
     dep ∈ _DEPS_NOT_VENDORED_BY_DEFAULT →
     PyStr.str_in (system_off_stmt (PyStr.upper dep))
       (String.concat "" (cmakelists_chunks version true)) = true) ∧
  (∀ version,
     PyStr.str_in (source_dir_stmt "DISCORDSRC" "discordsrc")
       (String.concat "" (cmakelists_chunks version true)) = true) ∧
  "discordsrc" ∉ copied_deps true.
Proof.
  split; [|split; [|split; [|compute_done]]].
  - intros version fv dep Hin. apply written_chunk.
    unfold cmakelists_chunks, PyStr.encode.
    apply elem_of_copied_deps in Hin as [Hin | [-> Hin]].
    + rewrite !elem_of_app. right; right; right; left.
      apply list_elem_of_In, in_map_iff. exists dep.
      split; [reflexivity | now apply list_elem_of_In].
    + rewrite !elem_of_app. do 5 right.
      apply list_elem_of_In, in_flat_map. exists dep.
      split; [now apply list_elem_of_In | now left].
  - intros version dep Hin. apply written_chunk.
    unfold cmakelists_chunks, PyStr.encode.
    rewrite !elem_of_app. do 5 right.
    apply list_elem_of_In, in_flat_map. exists dep.
    split; [now apply list_elem_of_In | right; now left].
  - intros version. apply written_chunk. unfold cmakelists_chunks.
    rewrite !elem_of_app. do 4 right. left. apply elem_of_cons; right.
    apply elem_of_cons; now left.
Qed.

End Consistency.

Section Stdout.











Variable root cwd : PyPath.path.
Variable exec : behaviour.
Variable list2cmdline : list string → string.
Variable xztar : list (string * Fs.node) → string.





End Stdout.

(** ** Stage order and the version *)

Section Order.

Variable root cwd : PyPath.path.
Variable exec : behaviour.
Variable list2cmdline : list string → string.
Variable xztar : list (string * Fs.node) → string.

Lemma bind_inv {A B} (m : M A) (f : A → M B) w w' r :
  (m ≫= f) w = (w', r) →
  (∃ e, m w = (w', Raise e) ∧ r = Raise e) ∨
  (∃ a w1, m w = (w1, Ok a) ∧ f a w1 = (w', r)).
Proof.
  rewrite bind_unfold. destruct (m w) as [w1 [a|e]]; intros H.
  - right. eauto.
  - left. inversion H; subst. eauto.
Qed.

Lemma cmake_inv args w w' r :
  cmake exec list2cmdline args w = (w', r) →
  ∃ c, trace w' = trace w ++
         [Logged ("+ cmake " +:+ list2cmdline args);
          Launched ("cmake" :: args) c] ∧
       ((c = None ∧ r = Raise FileNotFoundError) ∨
        (∃ x, c = Some x ∧ r = Ok tt)).
Proof.
  unfold cmake, info, emit. rewrite !bind_unfold. unfold subprocess_run.
  cbn [fs trace].
  destruct (exec _ _) as [[[rc out] n]|]; intros H; inversion H; subst;
    cbn [trace]; rewrite <- app_assoc.
  - exists (Some (rc, out)). split; [reflexivity|]. right. eauto.
  - exists None. split; [reflexivity|]. now left.
Qed.

(** X8: the order of the stages.  Whatever a run of [main] does, a
    version-control command is launched only after the arguments were
    parsed and the configure step and the build step have both been
    launched and have both come back: the events before it begin with the
    two cmake invocations, each with an exit status. *)
Theorem git_runs_after_both_cmake_runs (command_line : parsed) (w w' : World)
    (r : result unit) :
  main root cwd exec list2cmdline xztar command_line w = (w', r) →
  ∃ new, trace w' = trace w ++ new ∧
    ∀ tr argv c tr', new = tr ++ Launched ("git" :: argv) c :: tr' →
      ∃ fv configured built tr0,
        command_line = Namespace fv ∧
        tr =
        [Logged ("+ cmake " +:+ list2cmdline
                   (configure_args (PyPath.fspath root)
                      (PyPath.fspath (_BUILD_DIR root)) fv));
         Launched ("cmake" :: configure_args (PyPath.fspath root)
                                (PyPath.fspath (_BUILD_DIR root)) fv)
           (Some configured);
         Logged ("+ cmake " +:+ list2cmdline
                   ["--build"; PyPath.fspath (_BUILD_DIR root); "--target";
                    "devilutionx_mpq"]);
         Launched ["cmake"; "--build"; PyPath.fspath (_BUILD_DIR root);
                   "--target"; "devilutionx_mpq"] (Some built)] ++ tr0.
Proof.
  destruct command_line as [fv|text|message].
  2,3: intros H; injection H as <- <-; eexists; (split; [reflexivity|]);
       intros tr argv c tr' Heq; exfalso;
       destruct tr as [|x1 [|x2 tr]]; discriminate Heq.
  unfold main. cbn [parse_args]. rewrite bind_unfold. cbn [mret M_ret].
  intros H.
  apply bind_inv in H as [(e & H1 & ->) | ([] & w1 & H1 & H)];
    apply cmake_inv in H1 as (c1 & T1 & Hc1).
  { eexists. split; [exact T1|]. intros tr argv c tr' Heq. exfalso.
    destruct tr as [|x1 [|x2 [|x3 tr]]]; discriminate Heq. }
  destruct Hc1 as [[_ ?] | (x1 & -> & _)]; [discriminate|].
  apply bind_inv in H as [(e & H2 & ->) | ([] & w2 & H2 & H)];
    apply cmake_inv in H2 as (c2 & T2 & Hc2).
  { eexists. split; [rewrite T2, T1, <- app_assoc; reflexivity|].
    intros tr argv c tr' Heq. exfalso. cbn in Heq.
    destruct tr as [|y1 [|y2 [|y3 [|y4 [|y5 tr]]]]]; discriminate Heq. }
  destruct Hc2 as [[_ ?] | (x2 & -> & _)]; [discriminate|].
  match type of H with
  | ?m _ = _ => assert (Hff : fail_fast m)
  end.
  { repeat first
      [ apply fail_fast_get_version | apply fail_fast_git
      | apply fail_fast_read_fs | apply fail_fast_lift_fs | apply fail_fast_ret
      | apply fail_fast_for_each; intros ?
      | apply fail_fast_collect_one | apply fail_fast_copy_dep
      | apply fail_fast_emit; reflexivity
      | apply fail_fast_shutil_make_archive
      | progress unfold write_dist_cmakelists, make_archive, info, print
      | apply fail_fast_bind; [|intros ?]
      | match goal with |- fail_fast (if ?b then _ else _) => destruct b end ]. }
  apply Hff in H as (new & T & _).
  eexists. split; [rewrite T, T2, T1, <- !app_assoc; reflexivity|].
  intros tr argv c tr' Heq. cbn in Heq.
  destruct tr as [|y1 [|y2 [|y3 [|y4 tr]]]]; try discriminate Heq.
  injection Heq as E1 E2 E3 E4 _. subst y1 y2 y3 y4.
  eexists fv, _, _, _. split; reflexivity.
Qed.

End Order.

Section Rstrip.

Lemma is_empty_false_cons s : PyStr.is_empty s = false → ∃ c s', s = String c s'.
Proof. destruct s; [discriminate | eauto]. Qed.

Lemma rstrip_chars_split P s :
  ∃ t, s = PyStr.rstrip_chars P s +:+ t ∧ all_chars P t = true.
Proof.
  induction s as [|c s (t & Hs & Ht)]; [now exists ""|].
  cbn [PyStr.rstrip_chars].
  destruct (PyStr.is_empty (PyStr.rstrip_chars P s)) eqn:E; cbn [andb].
  - apply is_empty_true in E. rewrite E in Hs. cbn in Hs. subst t.
    destruct (P c) eqn:Pc.
    + exists (String c s). split; [reflexivity|]. cbn. now rewrite Pc.
    + exists s. rewrite E. split; [reflexivity | exact Ht].
  - exists t. cbn. split; [now rewrite <- Hs | exact Ht].
Qed.

Lemma rstrip_chars_no_trailing P s : no_trailing P (PyStr.rstrip_chars P s).
Proof.
  induction s as [|c s IH]; intros a x Heq.
  - destruct a; discriminate Heq.
  - cbn [PyStr.rstrip_chars] in Heq.
    destruct (PyStr.is_empty (PyStr.rstrip_chars P s)) eqn:E; cbn [andb] in Heq.
    + apply is_empty_true in E. rewrite E in Heq.
      destruct (P c) eqn:Pc; [destruct a; discriminate Heq|].
      destruct a as [|y a]; cbn in Heq; [now injection Heq as <-|].
      injection Heq as _ Heq. destruct a; discriminate Heq.
    + destruct a as [|y a]; cbn in Heq.
      * injection Heq as _ Heq. rewrite Heq in E. discriminate E.
      * injection Heq as _ Heq. eapply IH. exact Heq.
Qed.

Lemma rstrip_split (P : string → bool) (l : list string) :
  ∃ d, l = PyStr.rstrip P l ++ d ∧ forallb P d = true.
Proof.
  induction l as [|c l (d & Hl & Hd)]; [now exists []|].
  cbn [PyStr.rstrip].
  destruct (PyStr.rstrip P l) as [|y r] eqn:E; cbn [PyStr.is_nil andb].
  - cbn in Hl. subst d. destruct (P c) eqn:Pc.
    + exists (c :: l). split; [reflexivity|]. cbn. now rewrite Pc.
    + exists l. split; [reflexivity | exact Hd].
  - exists d. split; [|exact Hd]. cbn [app]. f_equal. exact Hl.
Qed.

Lemma rstrip_no_trailing (P : string → bool) (l : list string) :
  ∀ k x, PyStr.rstrip P l = k ++ [x] → P x = false.
Proof.
  induction l as [|c l IH]; intros k x Heq.
  - destruct k; discriminate Heq.
  - cbn [PyStr.rstrip] in Heq.
    destruct (PyStr.rstrip P l) as [|y r] eqn:E; cbn [PyStr.is_nil andb] in Heq.
    + destruct (P c) eqn:Pc; [destruct k; discriminate Heq|].
      destruct k as [|z k]; cbn in Heq; [now injection Heq as <-|].
      injection Heq as _ Heq. destruct k; discriminate Heq.
    + destruct k as [|z k]; cbn in Heq; [discriminate Heq|].
      injection Heq as _ Heq. eapply IH. exact Heq.
Qed.

Lemma join_chars_cons c l : PyStr.join_chars (c :: l) = c +:+ PyStr.join_chars l.
Proof.
  unfold PyStr.join_chars.
  destruct l; cbn [String.concat]; [now rewrite append_nil_r | reflexivity].
Qed.

Lemma join_chars_app k d :
  PyStr.join_chars (k ++ d) = PyStr.join_chars k +:+ PyStr.join_chars d.
Proof.
  induction k as [|c k IH]; [reflexivity|].
  cbn [app]. now rewrite !join_chars_cons, IH, append_assoc.
Qed.

Lemma fmap_cons_inv (c : string) (o : option (list string)) l :
  cons c <$> o = Some l → ∃ l', o = Some l' ∧ l = c :: l'.
Proof. destruct o as [l'|]; [|discriminate]. intros [= <-]. eauto. Qed.

(** The characters that decoding finds are the bytes, cut into pieces. *)
Lemma utf8_chars_join : ∀ n s chars,
  String.length s ≤ n → PyStr.utf8_chars s = Some chars →
  PyStr.join_chars chars = s.
Proof.
  induction n as [|n IH]; intros s chars Hn.
  { destruct s; [|cbn in Hn; lia]. now intros [= <-]. }
  destruct s as [|a r1]; [now intros [= <-]|]. cbn in Hn.
  cbn [PyStr.utf8_chars].
  destruct (PyStr.byte_in 0 127 a).
  { intros (l & Hl & ->)%fmap_cons_inv. rewrite join_chars_cons.
    rewrite (IH r1 l); [reflexivity | lia | exact Hl]. }
  destruct r1 as [|b r2]; [discriminate|]. cbn in Hn.
  destruct (PyStr.byte_in 194 223 a).
  { destruct (PyStr.continuation b); [|discriminate].
    intros (l & Hl & ->)%fmap_cons_inv. rewrite join_chars_cons.
    rewrite (IH r2 l); [reflexivity | lia | exact Hl]. }
  destruct r2 as [|c r3]; [discriminate|]. cbn in Hn.
  destruct (PyStr.byte_in 224 239 a).
  { destruct (_ && _); [|discriminate].
    intros (l & Hl & ->)%fmap_cons_inv. rewrite join_chars_cons.
    rewrite (IH r3 l); [reflexivity | lia | exact Hl]. }
  destruct r3 as [|d r4]; [discriminate|]. cbn in Hn.
  destruct (_ && _); [|discriminate].
  intros (l & Hl & ->)%fmap_cons_inv. rewrite join_chars_cons.
  rewrite (IH r4 l); [reflexivity | lia | exact Hl].
Qed.

Lemma read_text_cases n p :
  match Fs.read_file n p with
  | Raise e => Fs.read_text n p = Raise e
  | Ok data =>
      match PyStr.utf8_chars data with
      | None => Fs.read_text n p = Raise UnicodeDecodeError
      | Some chars =>
          Fs.read_text n p = Ok (PyStr.universal_newlines chars) ∧
          PyStr.join_chars chars = data
      end
  end.
Proof.
  unfold Fs.read_text. destruct (Fs.read_file n p) as [data|e]; [|reflexivity].
  cbn. unfold PyStr.decode_chars.
  destruct (PyStr.utf8_chars data) as [chars|] eqn:E; [|reflexivity].
  split; [reflexivity|]. eapply utf8_chars_join; [reflexivity | exact E].
Qed.

Variable cwd : PyPath.path.
Variable exec : behaviour.

Lemma get_version_unfold w :
  get_version cwd exec w =
  match Fs.read_text (fs w) (PyPath.joinpath cwd "VERSION") with
  | Raise e => (w, Raise e)
  | Ok text =>
      match exec rev_parse w with
      | None =>
          ({| fs := fs w; trace := trace w ++ [Launched rev_parse None] |},
           Raise FileNotFoundError)
      | Some (returncode, out, n) =>
          ({| fs := n;
              trace := trace w ++
                       [Launched rev_parse (Some (returncode, out))] |},
           match PyStr.decode (PyStr.rstrip_chars PyStr.is_space_bytes out) with
           | Ok sha =>
               Ok (Version_init
                     (PyStr.join_chars (PyStr.rstrip PyStr.is_space text)) sha)
           | Raise e => Raise e
           end)
      end
  end.
Proof.
  cbv [get_version git subprocess_run read_fs lift mbind M_bind mret M_ret
       rev_parse].
  destruct (Fs.read_text _ _) as [text|e]; [|reflexivity].
  destruct (exec _ w) as [[[rc out] n]|]; [|reflexivity]. cbn [snd].
  destruct (PyStr.decode _); reflexivity.
Qed.

(** X9: [get_version].  [VERSION] is read in the working directory as
    text: its bytes must be UTF-8 and every line end becomes a newline.
    When it cannot be read or is not UTF-8 the error is raised and git is
    not run.  When git cannot be started, that error is raised.  Otherwise
    the outcome does not depend on git's exit status: what git printed,
    without the ASCII white space at its end, must be UTF-8 too, or
    [UnicodeDecodeError] is raised; and then a version is returned whose
    prefix is the text of [VERSION] without the white-space characters at
    its end (those of Unicode) and whose revision is what git printed
    without that ASCII white space, nothing else being removed. *)
Theorem get_version_spec :
  (∀ n p,
     match Fs.read_file n p with
     | Raise e => Fs.read_text n p = Raise e
     | Ok data =>
         match PyStr.utf8_chars data with
         | None => Fs.read_text n p = Raise UnicodeDecodeError
         | Some chars =>
             Fs.read_text n p = Ok (PyStr.universal_newlines chars) ∧
             PyStr.join_chars chars = data
         end
     end) ∧
  (∀ w e,
     Fs.read_text (fs w) (PyPath.joinpath cwd "VERSION") = Raise e →
     get_version cwd exec w = (w, Raise e)) ∧
  (∀ w text,
     Fs.read_text (fs w) (PyPath.joinpath cwd "VERSION") = Ok text →
     exec rev_parse w = None →
     (get_version cwd exec w).2 = Raise FileNotFoundError) ∧
  (∀ w text returncode out n,
     Fs.read_text (fs w) (PyPath.joinpath cwd "VERSION") = Ok text →
     exec rev_parse w = Some (returncode, out, n) →
     ∃ w' sha spaces,
       fs w' = n ∧
       trace w' = trace w ++ [Launched rev_parse (Some (returncode, out))] ∧
       out = sha +:+ spaces ∧
       all_chars PyStr.is_space_bytes spaces = true ∧
       no_trailing PyStr.is_space_bytes sha ∧
       match PyStr.utf8_chars sha with
       | None => get_version cwd exec w = (w', Raise UnicodeDecodeError)
       | Some _ =>
           ∃ version dropped,
             get_version cwd exec w = (w', Ok version) ∧
             version = Version_init (prefix version) sha ∧
             text = PyStr.rstrip PyStr.is_space text ++ dropped ∧
             prefix version =
               PyStr.join_chars (PyStr.rstrip PyStr.is_space text) ∧
             forallb PyStr.is_space dropped = true ∧
             (∀ kept last,
                PyStr.rstrip PyStr.is_space text = kept ++ [last] →
                PyStr.is_space last = false)
       end).
Proof.
  split; [exact read_text_cases|]. split; [|split].
  - intros w e He. now rewrite get_version_unfold, He.
  - intros w text Hd Hx. now rewrite get_version_unfold, Hd, Hx.
  - intros w text rc out n Hd Hx.
    destruct (rstrip_chars_split PyStr.is_space_bytes out) as (s2 & H2 & A2).
    destruct (rstrip_split PyStr.is_space text) as (d & H1 & A1).
    exists {| fs := n;
              trace := trace w ++ [Launched rev_parse (Some (rc, out))] |},
      (PyStr.rstrip_chars PyStr.is_space_bytes out), s2.
    cbn [fs trace]. split; [reflexivity|]. split; [reflexivity|].
    split; [exact H2|]. split; [exact A2|].
    split; [apply rstrip_chars_no_trailing|].
    rewrite get_version_unfold, Hd, Hx. unfold PyStr.decode.
    destruct (PyStr.utf8_chars _); [|reflexivity].
    eexists _, d. split; [reflexivity|]. cbn [prefix commit_sha Version_init].
    repeat split; auto. apply rstrip_no_trailing.
Qed.

End Rstrip.

(** ** More on the file system and the listing *)



Section Listing.

Lemma all_chars_app P a b :
  all_chars P (a +:+ b) = all_chars P a && all_chars P b.
Proof.
  induction a as [|c a IH]; [reflexivity|]. cbn. now rewrite IH, andb_assoc.
Qed.

Lemma rstrip_chars_all P s : all_chars P s = true → PyStr.rstrip_chars P s = "".
Proof.
  induction s as [|c s IH]; [reflexivity|]. cbn.
  intros [Hc Hs]%andb_true_iff. now rewrite (IH Hs), Hc.
Qed.

Lemma rstrip_chars_cons_keep P c s :
  P c = false → PyStr.rstrip_chars P (String c s) = String c (PyStr.rstrip_chars P s).
Proof.
  intros Hc. cbn. rewrite Hc, andb_false_r. reflexivity.
Qed.

Lemma rstrip_chars_app_nonempty P a b :
  PyStr.is_empty (PyStr.rstrip_chars P b) = false →
  PyStr.rstrip_chars P (a +:+ b) = a +:+ PyStr.rstrip_chars P b.
Proof.
  intros Hb. induction a as [|c a IH]; [reflexivity|].
  cbn [String.append PyStr.rstrip_chars]. rewrite IH.
  destruct (PyStr.is_empty (a +:+ PyStr.rstrip_chars P b)) eqn:E; [|reflexivity].
  apply is_empty_true in E. destruct a; cbn in E; [|discriminate].
  rewrite E in Hb. discriminate.
Qed.

Lemma rstrip_chars_free P s :
  all_chars (fun c => negb (P c)) s = true → PyStr.rstrip_chars P s = s.
Proof.
  induction s as [|c s IH]; [reflexivity|]. cbn.
  intros [Hc Hs]%andb_true_iff. rewrite (IH Hs).
  apply negb_true_iff in Hc. rewrite Hc, andb_false_r. reflexivity.
Qed.

Lemma split_free s :
  nul_free s = true → PyPath.split (ascii_of_nat 0) s = [s].
Proof.
  induction s as [|c s IH]; [reflexivity|]. unfold nul_free. cbn.
  intros [Hc Hs]%andb_true_iff. fold (nul_free s) in Hs.
  rewrite (IH Hs). unfold PyStr.is_nul in Hc.
  destruct (Ascii.eqb_spec c (ascii_of_nat 0)) as [->|]; [discriminate|].
  reflexivity.
Qed.

Lemma split_app_nul a b :
  nul_free a = true →
  PyPath.split (ascii_of_nat 0) (a +:+ String (ascii_of_nat 0) b) =
  a :: PyPath.split (ascii_of_nat 0) b.
Proof.
  induction a as [|c a IH]; [reflexivity|]. unfold nul_free. cbn.
  intros [Hc Hs]%andb_true_iff. fold (nul_free a) in Hs.
  cbn in IH. rewrite (IH Hs). unfold PyStr.is_nul in Hc.
  destruct (Ascii.eqb_spec c (ascii_of_nat 0)) as [->|]; [discriminate|].
  reflexivity.
Qed.

Lemma nul_terminated_cons p ps :
  nul_terminated (p :: ps) = p +:+ String (ascii_of_nat 0) (nul_terminated ps).
Proof.
  unfold nul_terminated. cbn [map]. destruct ps as [|q ps].
  - reflexivity.
  - cbn [map String.concat]. cbn [String.append].
    first [rewrite append_assoc; reflexivity
          | rewrite <- append_assoc; reflexivity].
Qed.

Lemma rstrip_nul_terminated p ps :
  Forall (fun p => nul_free p = true ∧ p ≠ "") (p :: ps) →
  PyStr.is_empty (PyStr.rstrip_chars PyStr.is_nul (nul_terminated (p :: ps))) = false ∧
  PyPath.split (ascii_of_nat 0)
    (PyStr.rstrip_chars PyStr.is_nul (nul_terminated (p :: ps))) = p :: ps.
Proof.
  revert p. induction ps as [|q ps IH]; intros p Hall.
  - apply Forall_cons in Hall as [[Hp Hne] _].
    rewrite nul_terminated_cons. cbn [nul_terminated String.concat map].
    assert (E : PyStr.rstrip_chars PyStr.is_nul (p +:+ String (ascii_of_nat 0) "") = p).
    { clear Hne. induction p as [|c p IHp]; [reflexivity|].
      unfold nul_free in Hp. cbn in Hp. apply andb_true_iff in Hp as [Hc Hp].
      cbn [String.append]. rewrite rstrip_chars_cons_keep, IHp; auto.
      now apply negb_true_iff. }
    unfold nul_terminated in E. cbn in E |- *. rewrite E. split.
    + destruct p; [congruence | reflexivity].
    + now apply split_free.
  - apply Forall_cons in Hall as [[Hp Hne] Hall].
    destruct (IH q Hall) as [IH1 IH2].
    rewrite nul_terminated_cons.
    change (p +:+ String (ascii_of_nat 0) (nul_terminated (q :: ps)))
      with (p +:+ (String (ascii_of_nat 0) "" +:+ nul_terminated (q :: ps))).
    rewrite <- append_assoc, rstrip_chars_app_nonempty by exact IH1.
    rewrite append_assoc. cbn [String.append]. split.
    + destruct p; [congruence | reflexivity].
    + rewrite split_app_nul, IH2; auto.
Qed.

(** X10: the loop of [main] over the tracked paths visits the paths git
    listed, in git's order.  [git ls-files -z] ends every path with a NUL
    byte; stripping the NUL bytes at the end and splitting at the others
    gives back a list of paths that is not empty and whose paths are not
    empty and hold no NUL byte. *)
Theorem listing_round_trip (paths : list string) :
  paths ≠ [] →
  Forall (fun p => nul_free p = true ∧ p ≠ "") paths →
  PyPath.split (ascii_of_nat 0)
    (PyStr.rstrip_chars PyStr.is_nul (nul_terminated paths)) = paths.
Proof.
  destruct paths as [|p ps]; [congruence|]. intros _ Hall.
  now apply rstrip_nul_terminated.
Qed.

End Listing.

(** ** The loop over the tracked paths *)

Section CollectMore.

Variable root : PyPath.path.

Lemma lookup_none_snoc n (p : PyPath.path) :
  Fs.lookup n p = None → ∃ q c, p = q ++ [c].
Proof.
  intros H. assert (Hne : p ≠ []) by (intros ->; discriminate).
  destruct (exists_last Hne) as (q & c & ->). eauto.
Qed.

(** X11: one round of the loop over the tracked paths, for a path whose
    name is UTF-8 and that is not a [.gitkeep] marker.  When the path names
    a regular file or a symbolic link of the checkout, nothing is staged at
    its place yet and nothing but directories is in the way of its parent
    directory, the round succeeds and stages the same file, or the same
    link (the link itself, not what it leads to), and logs nothing. *)
Theorem collect_one_copies_leaf (paths : Paths) (src : string) (x : Fs.node)
    (w : World) :
  PyStr.decode src = Ok src →
  Re.search gitkeep_re src = false →
  Fs.lookup (fs w) (PyPath.joinpath root src) = Some x →
  is_leaf x = true →
  Fs.lookup (fs w) (staged paths src) = None →
  Fs.unobstructed (fs w) (PyPath.parent (staged paths src)) = true →
  ∃ w', collect_one root paths src w = (w', Ok tt) ∧
        Fs.lookup (fs w') (staged paths src) = Some x ∧
        trace w' = trace w.
Proof.
  intros Hdec Hs Hx Hleaf Hfree Hu. apply makedirs_ok_iff in Hu as [n1 Hm].
  rewrite collect_one_unfold, Hm, Hs by exact Hdec.
  destruct (lookup_none_snoc _ _ Hfree) as (p & c & Hp).
  rewrite Hp in *. unfold PyPath.parent in Hm. rewrite removelast_snoc in Hm.
  assert (Hfree1 : Fs.lookup n1 (p ++ [c]) = None).
  { rewrite <- Hfree. eapply makedirs_lookup_off_path; [exact Hm|].
    apply snoc_not_prefix. }
  assert (Hx1 : Fs.lookup n1 (PyPath.joinpath root src) = Some x)
    by (eapply makedirs_keeps_leaves; eauto).
  assert (Hd1 : Fs.is_dir n1 p = true) by (eapply makedirs_is_dir; eauto).
  unfold Fs.copy2_nofollow, Fs.is_link, Fs.copy_target, Fs.is_dir.
  rewrite Hfree1, Hx1. unfold Fs.path_eqb.
  destruct (bool_decide_reflect (PyPath.joinpath root src = p ++ [c])) as [E|_].
  { rewrite E in Hx1. congruence. }
  destruct x as [data|target|es]; [| |discriminate Hleaf].
  - destruct (update_ok
                (fun o => match o with
                          | None | Some (Fs.File _) => Ok (Fs.File data)
                          | Some (Fs.Dir _) => Raise IsADirectoryError
                          | Some (Fs.Symlink _) => Raise Unmodelled
                          end) c (Fs.File data) p n1 Hd1) as [n2 Hn2].
    { now rewrite Hfree1. }
    unfold Fs.write_file. rewrite Hn2. eexists. split; [reflexivity|].
    cbn [fs with_fs trace]. split; [|reflexivity].
    apply update_lookup_same in Hn2 as (y & Hy & ->). rewrite Hfree1 in Hy.
    congruence.
  - destruct (update_ok
                (fun o => match o with
                          | None => Ok (Fs.Symlink target)
                          | Some _ => Raise FileExistsError
                          end) c (Fs.Symlink target) p n1 Hd1) as [n2 Hn2].
    { now rewrite Hfree1. }
    unfold Fs.symlink. rewrite Hn2. eexists. split; [reflexivity|].
    cbn [fs with_fs trace]. split; [|reflexivity].
    apply update_lookup_same in Hn2 as (y & Hy & ->). rewrite Hfree1 in Hy.
    congruence.
Qed.

Variable version : Version.
Variable fv : bool.

Lemma top_level_dir_shape :
  ∃ c ws, PyStr.startswith c "d" = true ∧
    PyPath.parse_parts
      (archive_top_level_dir_name (Paths_init root version fv)) = c :: ws ∧
    archive_top_level_dir (Paths_init root version fv) =
    (root ++ ["build-src-dist"; "archive"]) ++ c :: ws.
Proof.
  destruct (top_level_name_shape root version fv) as [s Hs].
  destruct (parse_parts_head "d" s) as (t & ws & Hp); [discriminate..|].
  exists (String "d" t), ws. split; [reflexivity|]. rewrite Hs.
  split; [exact Hp|].
  change (archive_top_level_dir (Paths_init root version fv))
    with (PyPath.joinpath (_ARCHIVE_DIR root)
            (archive_top_level_dir_name (Paths_init root version fv))).
  rewrite Hs, joinpath_relative, Hp by reflexivity.
  change (_ARCHIVE_DIR root) with ((root ++ ["build-src-dist"]) ++ ["archive"]).
  rewrite <- !app_assoc. reflexivity.
Qed.

(** X12: a listing without a path is fatal.  When git prints nothing (or
    NUL bytes only), as it does when it fails, the loop still runs once,
    with the empty path: it makes the directory above the top-level
    directory and then asks for the checkout's root directory to be copied
    as a file, which raises [IsADirectoryError]. *)
Theorem empty_listing_is_fatal (listing : string) (w : World) (n1 : Fs.node) :
  all_chars PyStr.is_nul listing = true →
  Fs.lookup (fs w) (archive_top_level_dir (Paths_init root version fv)) = None →
  Fs.makedirs true (fs w)
    (PyPath.parent (archive_top_level_dir (Paths_init root version fv))) = Ok n1 →
  for_each (PyPath.split (ascii_of_nat 0)
              (PyStr.rstrip_chars PyStr.is_nul listing))
           (collect_one root (Paths_init root version fv)) w =
  (with_fs n1 w, Raise IsADirectoryError).
Proof.
  intros Hall Hfree Hm. rewrite (rstrip_chars_all _ _ Hall).
  cbn [PyPath.split for_each].
  rewrite bind_unfold, collect_one_unfold by reflexivity.
  assert (Est : staged (Paths_init root version fv) "" =
                archive_top_level_dir (Paths_init root version fv)).
  { unfold staged. rewrite joinpath_relative by reflexivity. apply app_nil_r. }
  assert (Esrc : PyPath.joinpath root "" = root).
  { rewrite joinpath_relative by reflexivity. apply app_nil_r. }
  rewrite Est, Esrc, Hm.
  replace (Re.search gitkeep_re "") with false by (vm_compute; reflexivity).
  destruct top_level_dir_shape as (c & ws & _ & _ & Etop).
  set (top := archive_top_level_dir (Paths_init root version fv)) in *.
  destruct (lookup_none_snoc _ _ Hfree) as (p & d & Hp).
  assert (Hd1 : Fs.is_dir n1 p = true).
  { eapply makedirs_is_dir. unfold PyPath.parent in Hm.
    rewrite Hp, removelast_snoc in Hm. exact Hm. }
  assert (Hfree1 : Fs.lookup n1 top = None).
  { rewrite <- Hfree. eapply makedirs_lookup_off_path; [exact Hm|].
    unfold PyPath.parent. rewrite Hp, removelast_snoc. apply snoc_not_prefix. }
  assert (Hroot : Fs.is_dir n1 root = true).
  { assert (E : p = root ++ removelast (["build-src-dist"; "archive"] ++ c :: ws)).
    { rewrite <- (removelast_snoc p d), <- Hp, Etop, <- app_assoc.
      apply removelast_app. discriminate. }
    rewrite E in Hd1. eapply is_dir_prefix. exact Hd1. }
  unfold Fs.copy2_nofollow, Fs.is_link, Fs.copy_target.
  unfold Fs.is_dir at 1. rewrite Hfree1.
  unfold Fs.is_dir in Hroot.
  destruct (Fs.lookup n1 root) as [[| |es]|]; try discriminate Hroot.
  unfold Fs.path_eqb.
  destruct (bool_decide_reflect (root = top)) as [E|_]; [|reflexivity].
  exfalso. rewrite Etop, <- app_assoc in E.
  apply (f_equal (@List.length string)) in E. rewrite length_app in E.
  cbn in E. lia.
Qed.

End CollectMore.

(** ** The archive *)

Section ArchiveMore.

Variable root cwd : PyPath.path.
Variable exec : behaviour.
Variable list2cmdline : list string → string.
Variable xztar : list (string * Fs.node) → string.

Lemma concat_snoc (l : list string) (x : string) :
  String.concat "" (l ++ [x]) = String.concat "" l +:+ x.
Proof.
  induction l as [|a l IH]; [reflexivity|].
  destruct l as [|b l].
  - cbn. reflexivity.
  - cbn [app String.concat] in IH |- *. rewrite IH. cbn [String.append].
    now rewrite append_assoc.
Qed.

Lemma fspath_snoc_endswith (p : PyPath.path) (c suf : string) :
  PyStr.endswith (PyPath.fspath (p ++ [c +:+ suf])) suf = true.
Proof.
  apply endswith_spec.
  assert (E : ∀ q : PyPath.path, q ≠ [] →
            PyPath.fspath q = String.concat "" (map (λ c, "/" +:+ c) q))
    by (intros [|? ?]; [congruence | reflexivity]).
  rewrite E by (now destruct p).
  rewrite map_app. cbn [map]. rewrite concat_snoc.
  exists (String.concat "" (map (λ c, "/" +:+ c) p) +:+ "/" +:+ c).
  rewrite !append_assoc. reflexivity.
Qed.

Section Layout.

Variable version : Version.
Variable fv : bool.

Lemma archive_path_shape :
  ∃ c ws d r,
    PyStr.startswith d "d" = true ∧
    PyPath.parent
      (archive_path
         (PyPath.joinpath (_BUILD_DIR root)
            (archive_top_level_dir_name (Paths_init root version fv)))) =
    (root ++ ["build-src-dist"]) ++ removelast (c :: ws) ∧
    PyStr.startswith c "d" = true ∧
    archive_path
      (PyPath.joinpath (_BUILD_DIR root)
         (archive_top_level_dir_name (Paths_init root version fv))) =
    (root ++ ["build-src-dist"]) ++ d :: r.
Proof.
  destruct (top_level_dir_shape root version fv) as (c & ws & Hc & Hp & _).
  destruct (top_level_name_shape root version fv) as [s Hs].
  rewrite joinpath_relative by (rewrite Hs; reflexivity). rewrite Hp.
  change (_BUILD_DIR root) with (root ++ ["build-src-dist"]).
  unfold archive_path, PyPath.parent, PyPath.name.
  rewrite removelast_snoc.
  rewrite (removelast_app (root ++ ["build-src-dist"])) by discriminate.
  destruct ws as [|c1 ws].
  - exists c, [], (c +:+ ".tar.xz"), []. cbn [removelast].
    rewrite last_last. repeat split; auto.
    + apply startswith_spec in Hc as [t ->]. reflexivity.
    + now rewrite app_nil_r.
  - exists c, (c1 :: ws), c, (removelast (c1 :: ws) ++
      [List.last ((root ++ ["build-src-dist"]) ++ c :: c1 :: ws) "" +:+ ".tar.xz"]).
    repeat split; auto. rewrite <- app_assoc. reflexivity.
Qed.

Lemma normpath_snoc (p : PyPath.path) (c : string) :
  c ≠ "" → c ≠ "." → c ≠ ".." →
  PyPath.normpath (p ++ [c]) = PyPath.normpath p ++ [c].
Proof.
  intros H0 H1 H2. unfold PyPath.normpath. rewrite fold_left_app. cbn.
  destruct (String.eqb_spec c ""); [contradiction|].
  destruct (String.eqb_spec c "."); [contradiction|].
  destruct (String.eqb_spec c ".."); [contradiction|]. reflexivity.
Qed.

Lemma archive_name_is_a_name (x : string) :
  x +:+ ".tar.xz" ≠ "" ∧ x +:+ ".tar.xz" ≠ "." ∧ x +:+ ".tar.xz" ≠ "..".
Proof.
  assert (H : ∀ s, PyStr.endswith s ".tar.xz" = false → x +:+ ".tar.xz" ≠ s).
  { intros s Hs <-. rewrite endswith_intro in Hs. discriminate. }
  repeat split; apply H; reflexivity.
Qed.

Lemma archive_returned_endswith (base : PyPath.path) :
  PyStr.endswith (PyPath.fspath (PyPath.normpath (archive_path base)))
    ".tar.xz" = true.
Proof.
  unfold archive_path.
  destruct (archive_name_is_a_name (PyPath.name base)) as (H0 & H1 & H2).
  rewrite normpath_snoc by assumption. apply fspath_snoc_endswith.
Qed.

Lemma tarball_of_layout_inv (w w' : World) (a : string) :
  let name := archive_top_level_dir_name (Paths_init root version fv) in
  let archive := archive_path (PyPath.joinpath (_BUILD_DIR root) name) in
  shutil_make_archive xztar (PyPath.joinpath (_BUILD_DIR root) name)
    (_ARCHIVE_DIR root) name w = (w', Ok a) →
  ∃ tree (made : bool),
    Fs.lookup (fs w) (archive_top_level_dir (Paths_init root version fv)) =
      Some tree ∧
    a = PyPath.fspath (PyPath.normpath archive) ∧
    Fs.lookup (fs w') archive = Some (Fs.File (xztar [(name, tree)])) ∧
    Fs.lookup (fs w') (_ARCHIVE_DIR root) = Fs.lookup (fs w) (_ARCHIVE_DIR root) ∧
    Fs.exists_ (fs w) (PyPath.parent archive) = Ok (negb made) ∧
    trace w' = trace w ++
      (if made
       then [Logged ("creating " +:+ PyPath.fspath (PyPath.parent archive))]
       else []) ++ [Logged "Creating tar archive"].
Proof.
  intros name archive H.
  apply shutil_make_archive_ok_inv in H
    as (made & n0 & n1 & tree & Hex & Hn0 & Hn1 & Ht & _ & Hn2 & T & ->).
  fold archive in Hex, Hn0, Hn1, Hn2, T.
  change (PyPath.joinpath (_ARCHIVE_DIR root) name)
    with (archive_top_level_dir (Paths_init root version fv)) in Ht.
  destruct archive_path_shape as (c & ws & d & r & Hd & Hpar & Hc & Hsh).
  fold name in Hpar, Hsh. fold archive in Hpar, Hsh.
  assert (EA : _ARCHIVE_DIR root = (root ++ ["build-src-dist"]) ++ ["archive"])
    by reflexivity.
  assert (Hdiv : diverge archive (_ARCHIVE_DIR root)).
  { rewrite Hsh, EA. exists (root ++ ["build-src-dist"]), d, "archive", r, [].
    repeat split. intros ->. discriminate Hd. }
  assert (K0 : Fs.lookup n0 (_ARCHIVE_DIR root) =
               Fs.lookup (fs w) (_ARCHIVE_DIR root)).
  { destruct made; [|now subst n0].
    eapply makedirs_lookup_off_path; [exact Hn0|]. rewrite Hpar, EA.
    intros q E. rewrite <- !app_assoc in E. do 2 apply app_inv_head in E.
    destruct ws as [|c1 ws]; [discriminate E|].
    cbn in E. injection E as -> _. discriminate Hc. }
  unfold Fs.write_file in Hn1, Hn2.
  pose proof (update_lookup_diverge _ _ _ Hdiv _ _ Hn1) as K1.
  pose proof (update_lookup_diverge _ _ _ Hdiv _ _ Hn2) as K2.
  assert (Etop : archive_top_level_dir (Paths_init root version fv) =
                 _ARCHIVE_DIR root ++ PyPath.parse_parts name).
  { destruct (top_level_name_shape root version fv) as [s Hs].
    change (archive_top_level_dir (Paths_init root version fv))
      with (PyPath.joinpath (_ARCHIVE_DIR root) name).
    apply joinpath_relative. unfold name. rewrite Hs. reflexivity. }
  exists tree, made. split.
  { rewrite <- Ht, Etop, !lookup_path_app, K1, K0. reflexivity. }
  split; [reflexivity|]. split.
  { apply update_lookup_same in Hn2 as (x & Hx & ->).
    destruct (Fs.lookup n1 archive) as [[| |]|]; now inversion Hx. }
  split; [now rewrite K2, K1, K0|]. split; [exact Hex | exact T].
Qed.

(** X13: [make_archive], when it returns.  The top-level directory was
    there; the path returned is that of the archive: the build directory's
    path joined with the top-level name, with [.tar.xz] appended, made
    normal; the archive file holds the compressed top-level directory under
    its name; the staging directory is exactly as it was, the archive being
    written beside it and not inside it; and two lines are logged, the
    script's and the library's, with one more between them when the
    directory of the archive had to be made. *)
Theorem make_archive_leaves_staging_alone (w w' : World) (a : string) :
  make_archive root xztar (Paths_init root version fv) fv w = (w', Ok a) →
  let name := archive_top_level_dir_name (Paths_init root version fv) in
  let archive := archive_path (PyPath.joinpath (_BUILD_DIR root) name) in
  ∃ tree (made : bool),
    Fs.lookup (fs w) (archive_top_level_dir (Paths_init root version fv)) =
      Some tree ∧
    a = PyPath.fspath (PyPath.normpath archive) ∧
    PyStr.endswith a ".tar.xz" = true ∧
    Fs.lookup (fs w') archive = Some (Fs.File (xztar [(name, tree)])) ∧
    Fs.lookup (fs w') (_ARCHIVE_DIR root) = Fs.lookup (fs w) (_ARCHIVE_DIR root) ∧
    Fs.exists_ (fs w) (PyPath.parent archive) = Ok (negb made) ∧
    trace w' =
    trace w ++
    [Logged ("Compressing " +:+ PyPath.fspath (_ARCHIVE_DIR root))] ++
    (if made
     then [Logged ("creating " +:+ PyPath.fspath (PyPath.parent archive))]
     else []) ++
    [Logged "Creating tar archive"].
Proof.
  intros H name archive. unfold make_archive in H.
  apply bind_ok_inv in H as ([] & w1 & H1 & H).
  apply emit_inv in H1 as [F1 T1].
  apply tarball_of_layout_inv in H
    as (tree & made & Ht & -> & Ha & Hst & Hex & T).
  exists tree, made. rewrite <- F1, T, T1, <- !app_assoc.
  repeat split; auto. apply archive_returned_endswith.
Qed.

End Layout.

Lemma split_never_nil sep s : PyPath.split sep s ≠ [].
Proof.
  destruct s as [|c s]; cbn [PyPath.split]; [discriminate|].
  destruct (Ascii.eqb c sep); [discriminate|].
  destruct (PyPath.split sep s); discriminate.
Qed.

Lemma split_prefix p s :
  all_chars (λ c, negb (Ascii.eqb c "/")) p = true →
  ∃ w ws, PyPath.split "/" (p +:+ s) = (p +:+ w) :: ws.
Proof.
  induction p as [|c p IH]; intros Hp.
  - destruct (PyPath.split "/" s) as [|w ws] eqn:E;
      [now apply split_never_nil in E | eauto].
  - cbn in Hp. apply andb_true_iff in Hp as [Hc Hp].
    destruct (IH Hp) as (w & ws & E). exists w, ws.
    cbn [String.append PyPath.split]. apply negb_true_iff in Hc.
    rewrite Hc, E. reflexivity.
Qed.

Lemma top_level_name_parts version fv :
  ∃ t ws,
    PyPath.parse_parts
      (archive_top_level_dir_name (Paths_init root version fv)) =
    ("devilutionx-src" +:+ t) :: ws.
Proof.
  assert (Hn : ∃ rest, archive_top_level_dir_name (Paths_init root version fv) =
                       "devilutionx-src" +:+ rest)
    by (destruct fv; eexists; reflexivity).
  destruct Hn as [rest ->].
  destruct (split_prefix "devilutionx-src" rest) as (t & ws & E);
    [reflexivity|].
  unfold PyPath.parse_parts. rewrite E. cbn [List.filter]. eauto.
Qed.

Lemma archive_path_avoids_data version fv :
  diverge
    (archive_path
       (PyPath.joinpath (_BUILD_DIR root)
          (archive_top_level_dir_name (Paths_init root version fv))))
    (_BUILD_DIR root ++ ["devilutionx.mpq"]).
Proof.
  destruct (top_level_name_parts version fv) as (t & ws & Hp).
  destruct (top_level_name_shape root version fv) as [s Hs].
  rewrite joinpath_relative by (rewrite Hs; reflexivity). rewrite Hp.
  unfold archive_path, PyPath.parent, PyPath.name.
  destruct ws as [|c1 ws].
  - exists (_BUILD_DIR root), (("devilutionx-src" +:+ t) +:+ ".tar.xz"),
      "devilutionx.mpq", [], [].
    rewrite removelast_last, last_last. repeat split. discriminate.
  - exists (_BUILD_DIR root), ("devilutionx-src" +:+ t), "devilutionx.mpq",
      (removelast (c1 :: ws) ++
       [List.last (_BUILD_DIR root ++ ("devilutionx-src" +:+ t) :: c1 :: ws) ""
        +:+ ".tar.xz"]), [].
    rewrite removelast_app by discriminate.
    rewrite <- app_assoc. repeat split. discriminate.
Qed.

Lemma copy_into_dir n src dir n' :
  Fs.copy n src dir = Ok n' → Fs.is_dir n dir = true →
  diverge (dir ++ [PyPath.name src]) src →
  ∃ data, Fs.lookup n' (dir ++ [PyPath.name src]) = Some (Fs.File data) ∧
          Fs.lookup n' src = Some (Fs.File data).
Proof.
  unfold Fs.copy, Fs.is_link, Fs.copy_target. intros H Hd Hdiv.
  rewrite Hd in H. unfold Fs.is_dir in Hd.
  destruct (Fs.lookup n dir) as [[| |es]|]; try discriminate Hd.
  destruct (Fs.lookup n src) as [x|] eqn:Ex; [|discriminate].
  destruct (Fs.path_eqb _ _); [discriminate|].
  destruct x as [data| |]; try discriminate.
  exists data. split; [eapply write_file_lookup; exact H|].
  rewrite <- Ex. unfold Fs.write_file in H.
  eapply update_lookup_diverge; [exact Hdiv | exact H].
Qed.

Lemma copytree_keeps_file ig n s d n' q data :
  Fs.copytree ig n s d = Ok n' → diverge d q →
  Fs.lookup n q = Some (Fs.File data) → Fs.lookup n' q = Some (Fs.File data).
Proof.
  unfold Fs.copytree. intros H Hdiv Hq.
  destruct (Fs.lookup n s) as [[| |es]|]; try discriminate.
  destruct (Fs.copytree_dir ig _ _) as [ces ok].
  destruct (Fs.makedirs false n d) as [n1|] eqn:Em; [|discriminate].
  cbn in H.
  destruct (Fs.update _ n1 d) as [n2|] eqn:Eu; [|discriminate]. cbn in H.
  destruct ok; [|discriminate]. injection H as <-.
  erewrite update_lookup_diverge; [|exact Hdiv | exact Eu].
  eapply makedirs_keeps_files; eauto.
Qed.

Lemma copied_deps_destinations :
  Forall (λ dep, ∀ p, ∃ c, PyPath.joinpath p (dep +:+ "-src") = p ++ [c] ∧
                           c ≠ "devilutionx.mpq")
         (copied_deps true).
Proof.
  repeat constructor; intros p; eexists; (split; [reflexivity | discriminate]).
Qed.

Lemma copied_deps_mode fv dep : dep ∈ copied_deps fv → dep ∈ copied_deps true.
Proof.
  rewrite !elem_of_copied_deps. intros [H | [_ H]]; [now left | right; auto].
Qed.

Lemma copy_deps_keep_file paths q data :
  (∀ c, c ≠ "devilutionx.mpq" → diverge (dist_dir paths ++ [c]) q) →
  ∀ deps, Forall (λ dep, dep ∈ copied_deps true) deps →
  ∀ w w', for_each deps (copy_dep root paths) w = (w', Ok tt) →
  Fs.lookup (fs w) q = Some (Fs.File data) →
  Fs.lookup (fs w') q = Some (Fs.File data).
Proof.
  intros Hdiv deps Hall. induction Hall as [|dep deps Hdep _ IH];
    intros w w' H Hq; cbn [for_each] in H.
  - inversion H; subst. exact Hq.
  - apply bind_ok_inv in H as ([] & w1 & H1 & H). eapply IH; [exact H|].
    unfold copy_dep in H1. apply bind_ok_inv in H1 as ([] & w0 & H0 & H1).
    apply emit_inv in H0 as [F0 _].
    apply lift_fs_ok_inv in H1 as (n & Hn & ->). cbn [fs with_fs].
    pose proof copied_deps_destinations as Hdst. rewrite Forall_forall in Hdst.
    destruct (Hdst dep Hdep (dist_dir paths))
      as (c & Ec & Hc).
    rewrite Ec in Hn. eapply copytree_keeps_file; [exact Hn | auto|].
    now rewrite F0.
Qed.

(** X14: a run of [main] that returns, from end to end.  The arguments
    were parsed, and the events of the run are those of a successful run
    for what the four programs answered: git's revision lookup was launched
    once, and the run's version has as its revision what that launch
    printed, without the white space at its end.  The archive file holds
    the compression of the top-level directory of that version as the run
    leaves it; that directory holds the [dist/CMakeLists.txt] generated for
    that revision and the mode and, as [dist/devilutionx.mpq], a copy of
    the data archive that lies in the build directory; and the last thing
    the run did was to print the archive's path. *)
Theorem archive_holds_the_staged_tree (command_line : parsed) (w w' : World) :
  main root cwd exec list2cmdline xztar command_line w = (w', Ok tt) →
  ∃ fv configure build revision listing prefix made tree data,
    let sha := PyStr.rstrip_chars PyStr.is_space_bytes revision.2 in
    let paths := Paths_init root (Version_init prefix sha) fv in
    let name := archive_top_level_dir_name paths in
    let archive := archive_path (PyPath.joinpath (_BUILD_DIR root) name) in
    command_line = Namespace fv ∧
    trace w' = trace w ++
      success_trace list2cmdline root fv configure build revision listing
        archive made ∧
    (∀ tr rev tr',
       success_trace list2cmdline root fv configure build revision listing
         archive made = tr ++ Launched rev_parse (Some rev) :: tr' →
       rev = revision) ∧
    (∃ tr, trace w' = tr ++ [Printed (PyPath.fspath (PyPath.normpath archive))]) ∧
    Fs.lookup (fs w') (archive_top_level_dir paths) = Some tree ∧
    Fs.lookup (fs w') archive = Some (Fs.File (xztar [(name, tree)])) ∧
    Fs.lookup tree ["dist"; "CMakeLists.txt"] =
      Some (Fs.File (cmakelists_of sha fv)) ∧
    Fs.lookup tree ["dist"; "devilutionx.mpq"] = Some (Fs.File data) ∧
    Fs.lookup (fs w') (_BUILD_DIR root ++ ["devilutionx.mpq"]) =
      Some (Fs.File data).
Proof.
  unfold main. intros H.
  apply bind_ok_inv in H as (fv & w0 & H0 & H).
  apply parse_args_ok_inv in H0 as [-> ->].
  apply bind_ok_inv in H as ([] & w1 & H1 & H).
  apply bind_ok_inv in H as ([] & w2 & H2 & H).
  apply bind_ok_inv in H as (b & w3 & H3 & H).
  apply bind_ok_inv in H as ([] & w4 & H4 & H).
  apply bind_ok_inv in H as (version & w5 & H5 & H).
  apply bind_ok_inv in H as ([] & w6 & H6 & H).
  apply bind_ok_inv in H as (listing & w7 & H7 & H).
  apply bind_ok_inv in H as ([] & w8 & H8 & H).
  apply bind_ok_inv in H as ([] & w9 & H9 & H).
  apply bind_ok_inv in H as ([] & w10 & H10 & H).
  apply bind_ok_inv in H as ([] & w11 & H11 & H).
  apply bind_ok_inv in H as ([] & w12 & H12 & H).
  apply bind_ok_inv in H as ([] & w13 & H13 & H).
  apply bind_ok_inv in H as (a & w14 & H14 & H).
  (* the events *)
  apply cmake_ok_inv in H1 as [c1 T1]. apply cmake_ok_inv in H2 as [c2 T2].
  assert (T3 : trace w3 = trace w2) by (inversion H3; reflexivity).
  assert (T4 : trace w4 = trace w3).
  { destruct b; [eapply lift_fs_trace; eauto | inversion H4; reflexivity]. }
  apply get_version_ok_inv in H5 as (text & rc3 & out & _ & _ & -> & T5).
  apply emit_inv in H6 as [_ T6]. apply git_ok_inv in H7 as [rc4 T7].
  apply collect_loop_trace in H8 as T8. apply emit_inv in H9 as [_ T9].
  apply lift_fs_trace in H10 as T10. apply lift_fs_trace in H11 as T11.
  apply copy_loop_trace in H12 as T12.
  pose proof (proj2 (write_dist_cmakelists_ok _ _ _ _ _ H13)) as T13.
  clear H3 H4 H8.
  set (sha := PyStr.rstrip_chars PyStr.is_space_bytes out) in *.
  set (version :=
         Version_init (PyStr.join_chars (PyStr.rstrip PyStr.is_space text)) sha)
    in *.
  set (paths := Paths_init root version fv) in *.
  assert (Etop : archive_top_level_dir paths =
                 _ARCHIVE_DIR root ++
                 PyPath.parse_parts (archive_top_level_dir_name paths)).
  { destruct (top_level_name_shape root version fv) as [s Hs].
    change (archive_top_level_dir paths)
      with (PyPath.joinpath (_ARCHIVE_DIR root) (archive_top_level_dir_name paths)).
    apply joinpath_relative. fold paths in Hs. rewrite Hs. reflexivity. }
  assert (Edist : dist_dir paths = archive_top_level_dir paths ++ ["dist"])
    by reflexivity.
  assert (Ebuild : ∀ q, archive_top_level_dir paths ++ q =
                        _BUILD_DIR root ++ "archive" ::
                          PyPath.parse_parts (archive_top_level_dir_name paths) ++ q).
  { intros q. rewrite Etop.
    change (_ARCHIVE_DIR root) with (_BUILD_DIR root ++ ["archive"]).
    now rewrite <- !app_assoc. }
  (* the data archive is copied into the distribution directory *)
  apply lift_fs_ok_inv in H10 as (n10 & Hn10 & ->).
  apply makedirs_is_dir in Hn10.
  apply lift_fs_ok_inv in H11 as (n11 & Hn11 & ->). cbn [fs with_fs] in Hn11.
  change (PyPath.joinpath (_BUILD_DIR root) "devilutionx.mpq")
    with (_BUILD_DIR root ++ ["devilutionx.mpq"]) in Hn11.
  apply copy_into_dir in Hn11 as (data & Hd1 & Hd2); [|exact Hn10|].
  2:{ unfold PyPath.name. rewrite last_last, Edist, <- app_assoc, Ebuild.
      exists (_BUILD_DIR root), "archive", "devilutionx.mpq",
        (PyPath.parse_parts (archive_top_level_dir_name paths) ++
         ["dist"] ++ ["devilutionx.mpq"]), [].
      repeat split. discriminate. }
  unfold PyPath.name in Hd1. rewrite last_last in Hd1.
  (* which the later steps leave alone, as they do the original *)
  assert (Hdeps : Forall (λ dep, dep ∈ copied_deps true) (copied_deps fv)).
  { apply Forall_forall. intros dep Hin. now apply copied_deps_mode in Hin. }
  pose proof (copy_deps_keep_file paths (dist_dir paths ++ ["devilutionx.mpq"])
                data) as K1.
  pose proof (copy_deps_keep_file paths (_BUILD_DIR root ++ ["devilutionx.mpq"])
                data) as K2.
  specialize (K1 (λ c Hc, ex_intro _ (dist_dir paths)
                 (ex_intro _ c (ex_intro _ "devilutionx.mpq"
                 (ex_intro _ [] (ex_intro _ []
                 (conj eq_refl (conj eq_refl Hc))))))) _ Hdeps _ _ H12 Hd1).
  assert (Hdiv2 : ∀ c : string, c ≠ "devilutionx.mpq" →
            diverge (dist_dir paths ++ [c]) (_BUILD_DIR root ++ ["devilutionx.mpq"])).
  { intros c _. rewrite Edist, <- app_assoc, Ebuild.
    exists (_BUILD_DIR root), "archive", "devilutionx.mpq",
      (PyPath.parse_parts (archive_top_level_dir_name paths) ++ ["dist"] ++ [c]),
      []. repeat split. discriminate. }
  specialize (K2 Hdiv2 _ Hdeps _ _ H12 Hd2).
  apply write_dist_cmakelists_ok in H13 as F13.
  destruct F13 as [F13 _].
  unfold write_dist_cmakelists in H13.
  apply lift_fs_ok_inv in H13 as (n13 & Hn13 & E13).
  assert (K1' : Fs.lookup (fs w13) (dist_dir paths ++ ["devilutionx.mpq"]) =
                Some (Fs.File data)).
  { rewrite E13. cbn [fs with_fs]. rewrite <- K1. unfold Fs.write_file in Hn13.
    eapply update_lookup_diverge; [|exact Hn13].
    change (PyPath.joinpath (dist_dir paths) "CMakeLists.txt")
      with (dist_dir paths ++ ["CMakeLists.txt"]).
    exists (dist_dir paths), "CMakeLists.txt", "devilutionx.mpq", [], [].
    repeat split. discriminate. }
  assert (K2' : Fs.lookup (fs w13) (_BUILD_DIR root ++ ["devilutionx.mpq"]) =
                Some (Fs.File data)).
  { rewrite E13. cbn [fs with_fs]. rewrite <- K2. unfold Fs.write_file in Hn13.
    eapply update_lookup_diverge; [|exact Hn13].
    change (PyPath.joinpath (dist_dir paths) "CMakeLists.txt")
      with (dist_dir paths ++ ["CMakeLists.txt"]).
    apply Hdiv2. discriminate. }
  clear H12 K1 K2 Hd1 Hd2 Hn10 Hn13.
  (* the archive is written beside the staging directory *)
  unfold make_archive in H14.
  apply bind_ok_inv in H14 as ([] & w13' & H14a & H14).
  apply emit_inv in H14a as [F14a T14a].
  assert (K2'' : Fs.lookup (fs w14) (_BUILD_DIR root ++ ["devilutionx.mpq"]) =
                 Some (Fs.File data)).
  { eapply shutil_make_archive_keeps_file;
      [apply archive_path_avoids_data | exact H14 | rewrite F14a; exact K2']. }
  apply tarball_of_layout_inv in H14
    as (tree & made & Ht & -> & Ha & Hst & _ & T14).
  rewrite F14a in Ht, Hst.
  apply emit_inv in H as [F15 T15].
  fold paths in Ht, Ha, T14, T15.
  exists fv, c1, c2, (rc3, out), (rc4, listing),
    (PyStr.join_chars (PyStr.rstrip PyStr.is_space text)), made, tree, data.
  cbv zeta. cbn [snd]. fold sha. fold version. fold paths. rewrite F15.
  assert (Ht' : Fs.lookup (fs w14) (archive_top_level_dir paths) = Some tree).
  { rewrite <- Ht, Etop, !lookup_path_app, Hst. reflexivity. }
  assert (Ecm : cmakelists_path paths =
                archive_top_level_dir paths ++ ["dist"; "CMakeLists.txt"]).
  { change (cmakelists_path paths)
      with ((archive_top_level_dir paths ++ ["dist"]) ++ ["CMakeLists.txt"]).
    now rewrite <- app_assoc. }
  assert (Hkeep : ∀ q, Fs.lookup (fs w14) (archive_top_level_dir paths ++ q) =
                       Fs.lookup (fs w13) (archive_top_level_dir paths ++ q)).
  { intros q. rewrite Etop, <- app_assoc, !lookup_path_app, Hst. reflexivity. }
  split; [reflexivity|]. split.
  { rewrite T15, T14, T14a, T13, T12, T11, T10, T9, T8, T7, T6, T5, T4, T3, T2, T1.
    unfold success_trace. rewrite <- !app_assoc. reflexivity. }
  split; [intros tr rev tr'; apply success_trace_revision|].
  split; [eexists; exact T15|].
  repeat split; [exact Ht' | exact Ha | | | exact K2''].
  - rewrite Ecm, <- Hkeep, lookup_path_app, Ht' in F13. exact F13.
  - rewrite Edist, <- app_assoc, <- Hkeep, lookup_path_app, Ht' in K1'.
    exact K1'.
Qed.

End ArchiveMore.

(** ** The configure step and further runs *)

Section ConfigureArgs.

Lemma args_assoc {A B : Type} (f : A → B) (h : list B) (d n : list A)
    (t : list B) :
  ((h ++ map f d) ++ map f n) ++ t = h ++ map f (d ++ n) ++ t.
Proof. now rewrite map_app, <- !app_assoc. Qed.

Lemma filter_args {B : Type} (P : B → bool) (h a b t : list B) :
  List.filter P a = [] → List.filter P b = [] →
  List.filter P (((h ++ a) ++ b) ++ t) = List.filter P h ++ List.filter P t.
Proof. intros Ha Hb. now rewrite !List.filter_app, Ha, Hb, !app_nil_r. Qed.

Lemma args_plain {A B : Type} (f : A → B) (h : list B) (d : list A) :
  h ++ map f d = h ++ map f (d ++ []) ++ [].
Proof. now rewrite !app_nil_r. Qed.

Lemma filter_plain {B : Type} (P : B → bool) (h a : list B) :
  List.filter P a = [] → List.filter P (h ++ a) = List.filter P h ++ [].
Proof. intros Ha. now rewrite List.filter_app, Ha. Qed.

(** X15: the whole argument list of the configure step: the source
    directory, the build directory and the request to build the data
    archive, then the flags that switch off system copies, and in
    fully-vendored mode the flag that turns Discord integration on, last.
    The three leading arguments and the Discord flag are the only arguments
    that are not switch-off flags, whatever the text of the two directories. *)
Theorem configure_args_fixed_part (root build : string) (fv : bool) :
  configure_args root build fv =
  ["-S" +:+ root; "-B" +:+ build; "-DBUILD_ASSETS_MPQ=ON"] ++
  map system_off_flag (system_off_deps fv) ++
  (if fv then ["-DDISCORD_INTEGRATION=ON"] else []) ∧
  List.filter (λ arg, negb (is_system_off_flag arg))
    (configure_args root build fv) =
  ["-S" +:+ root; "-B" +:+ build; "-DBUILD_ASSETS_MPQ=ON"] ++
  (if fv then ["-DDISCORD_INTEGRATION=ON"] else []).
Proof.
  assert (H1 : List.filter (λ arg, negb (is_system_off_flag arg))
                 (map system_off_flag default_off_deps) = [])
    by (vm_compute; reflexivity).
  assert (H2 : List.filter (λ arg, negb (is_system_off_flag arg))
                 (map system_off_flag _DEPS_NOT_VENDORED_BY_DEFAULT) = [])
    by (vm_compute; reflexivity).
  unfold configure_args, system_off_deps. destruct fv.
  - split.
    + exact (args_assoc system_off_flag _ default_off_deps
               _DEPS_NOT_VENDORED_BY_DEFAULT ["-DDISCORD_INTEGRATION=ON"]).
    + exact (filter_args _ _ _ _ ["-DDISCORD_INTEGRATION=ON"] H1 H2).
  - split.
    + exact (args_plain system_off_flag _ default_off_deps).
    + exact (filter_plain _ _ _ H1).
Qed.

End ConfigureArgs.

Section FurtherRuns.

Lemma general_rule_skips_leading_run_only_witness :
  map fst
    (Fs.copytree_dir ignore_dep_src "/build-src-dist/_deps/libzt-src"
       (Fs.Dir [(".github", Fs.Dir []); ("README.md", Fs.File "r");
                ("ext", Fs.Dir []); ("docs", Fs.Dir [("a.png", Fs.File "p")]);
                ("Makefile", Fs.File "m")])).1 =
  ["README.md"; "ext"; "docs"; "Makefile"].
Proof.
  apply (general_rule_skips_leading_run_only
           "/build-src-dist/_deps/libzt-src"
           [(".github", Fs.Dir []); ("README.md", Fs.File "r");
            ("ext", Fs.Dir []); ("docs", Fs.Dir [("a.png", Fs.File "p")]);
            ("Makefile", Fs.File "m")]).
  - reflexivity.
  - vm_compute. reflexivity.
  - repeat constructor.
Defined.

Lemma excluded_directory_is_copied_empty_witness :
  Fs.copytree_dir ignore_dep_src "/build-src-dist/_deps/asio-src/asio/src/doc"
    (Fs.Dir [("index.html", Fs.File "d"); ("img", Fs.Dir [])]) = ([], true).
Proof.
  apply (excluded_directory_is_copied_empty
           "/build-src-dist/_deps/asio-src/asio/src/doc"
           [("index.html", Fs.File "d"); ("img", Fs.Dir [])]).
  - reflexivity.
  - vm_compute. reflexivity.
Defined.


Lemma git_runs_after_both_cmake_runs_witness :
  ∃ new,
    trace (Demo.run (Demo.exec 1 0) true).1 = trace Demo.world ++ new ∧
    ∀ tr argv c tr', new = tr ++ Launched ("git" :: argv) c :: tr' →
      ∃ fv configured built tr0,
        Namespace true = Namespace fv ∧
        tr =
        [Logged ("+ cmake " +:+ Demo.list2cmdline
                   (configure_args (PyPath.fspath Demo.root)
                      (PyPath.fspath (_BUILD_DIR Demo.root)) fv));
         Launched ("cmake" :: configure_args (PyPath.fspath Demo.root)
                                (PyPath.fspath (_BUILD_DIR Demo.root)) fv)
           (Some configured);
         Logged ("+ cmake " +:+ Demo.list2cmdline
                   ["--build"; PyPath.fspath (_BUILD_DIR Demo.root);
                    "--target"; "devilutionx_mpq"]);
         Launched ["cmake"; "--build"; PyPath.fspath (_BUILD_DIR Demo.root);
                   "--target"; "devilutionx_mpq"] (Some built)] ++ tr0.
Proof.
  apply (git_runs_after_both_cmake_runs Demo.root Demo.root (Demo.exec 1 0)
           Demo.list2cmdline Demo.xztar (Namespace true) Demo.world
           (Demo.run (Demo.exec 1 0) true).1 (Demo.run (Demo.exec 1 0) true).2).
  apply surjective_pairing.
Defined.

Lemma listing_round_trip_witness :
  PyPath.split (ascii_of_nat 0)
    (PyStr.rstrip_chars PyStr.is_nul
       (nul_terminated ["README.md"; "VERSION"; "assets/.gitkeep"])) =
  ["README.md"; "VERSION"; "assets/.gitkeep"].
Proof.
  apply (listing_round_trip ["README.md"; "VERSION"; "assets/.gitkeep"]).
  - discriminate.
  - repeat constructor; discriminate.
Defined.

Lemma collect_one_copies_leaf_witness :
  ∃ w', collect_one Demo.root Demo.paths "README.md" Demo.world = (w', Ok tt) ∧
        Fs.lookup (fs w') (staged Demo.paths "README.md") =
          Some (Fs.File "DevilutionX") ∧
        trace w' = trace Demo.world.
Proof.
  apply (collect_one_copies_leaf Demo.root Demo.paths "README.md"
           (Fs.File "DevilutionX") Demo.world).
  - reflexivity.
  - vm_compute. reflexivity.
  - vm_compute. reflexivity.
  - reflexivity.
  - vm_compute. reflexivity.
  - vm_compute. reflexivity.
Defined.

Lemma empty_listing_is_fatal_witness :
  for_each (PyPath.split (ascii_of_nat 0) (PyStr.rstrip_chars PyStr.is_nul ""))
    (collect_one Demo.root (Paths_init Demo.root (Version_init "1.2.3" "") false))
    Demo.world =
  (with_fs
     (value_or (Fs.Dir [])
        (Fs.makedirs true (fs Demo.world)
           (PyPath.parent
              (archive_top_level_dir
                 (Paths_init Demo.root (Version_init "1.2.3" "") false)))))
     Demo.world,
   Raise IsADirectoryError).
Proof.
  apply (empty_listing_is_fatal Demo.root (Version_init "1.2.3" "") false ""
           Demo.world).
  - reflexivity.
  - vm_compute. reflexivity.
  - vm_compute. reflexivity.
Defined.

Lemma make_archive_leaves_staging_alone_witness :
  Fs.lookup
    (fs (make_archive Demo.root Demo.xztar Demo.paths false
           (Demo.run (Demo.exec 0 0) false).1).1)
    (_ARCHIVE_DIR Demo.root) =
  Fs.lookup (fs (Demo.run (Demo.exec 0 0) false).1) (_ARCHIVE_DIR Demo.root).
Proof.
  destruct (make_archive_leaves_staging_alone Demo.root Demo.xztar
              (Version_init "1.2.3" "abc1234") false
              (Demo.run (Demo.exec 0 0) false).1
              (make_archive Demo.root Demo.xztar Demo.paths false
                 (Demo.run (Demo.exec 0 0) false).1).1
              "/devilutionX/build-src-dist/devilutionx-src-1.2.3.tar.xz")
    as (tree & made & _ & _ & _ & _ & H & _).
  - vm_compute. reflexivity.
  - exact H.
Defined.

Lemma archive_holds_the_staged_tree_witness :
  ∃ fv configure build revision listing prefix made tree data,
    let sha := PyStr.rstrip_chars PyStr.is_space_bytes revision.2 in
    let paths := Paths_init Demo.root (Version_init prefix sha) fv in
    let name := archive_top_level_dir_name paths in
    let archive := archive_path (PyPath.joinpath (_BUILD_DIR Demo.root) name) in
    Namespace false = Namespace fv ∧
    trace (Demo.run (Demo.exec 0 0) false).1 = trace Demo.world ++
      success_trace Demo.list2cmdline Demo.root fv configure build revision
        listing archive made ∧
    (∀ tr rev tr',
       success_trace Demo.list2cmdline Demo.root fv configure build revision
         listing archive made = tr ++ Launched rev_parse (Some rev) :: tr' →
       rev = revision) ∧
    (∃ tr, trace (Demo.run (Demo.exec 0 0) false).1 =
           tr ++ [Printed (PyPath.fspath (PyPath.normpath archive))]) ∧
    Fs.lookup (fs (Demo.run (Demo.exec 0 0) false).1)
      (archive_top_level_dir paths) = Some tree ∧
    Fs.lookup (fs (Demo.run (Demo.exec 0 0) false).1) archive =
      Some (Fs.File (Demo.xztar [(name, tree)])) ∧
    Fs.lookup tree ["dist"; "CMakeLists.txt"] =
      Some (Fs.File (cmakelists_of sha fv)) ∧
    Fs.lookup tree ["dist"; "devilutionx.mpq"] = Some (Fs.File data) ∧
    Fs.lookup (fs (Demo.run (Demo.exec 0 0) false).1)
      (_BUILD_DIR Demo.root ++ ["devilutionx.mpq"]) = Some (Fs.File data).
Proof.
  apply (archive_holds_the_staged_tree Demo.root Demo.root (Demo.exec 0 0)
           Demo.list2cmdline Demo.xztar (Namespace false) Demo.world
           (Demo.run (Demo.exec 0 0) false).1).
  vm_compute. reflexivity.
Defined.

End FurtherRuns.

(** ** The distribution directory *)

Section DistDir.

Variable root : PyPath.path.
Variable paths : Paths.

Lemma makedirs_existing_raises p : ∀ n,
  Fs.is_dir n p = true → Fs.makedirs false n p = Raise FileExistsError.
Proof.
  induction p as [|c p IH]; intros n Hd.
  - apply is_dir_nil in Hd as [es ->]. reflexivity.
  - apply is_dir_cons in Hd as (es & child & -> & E & Hd).
    cbn [Fs.makedirs]. rewrite E, (IH child Hd). reflexivity.
Qed.

(** X16: a tracked path below [dist/] is fatal.  The loop over the tracked
    paths makes the parent directory of every path it visits, markers
    included; when one of these directories is the distribution directory
    or lies below it, the loop itself goes through, but the next step,
    [paths.dist_dir.mkdir(parents=True)], finds the directory present and
    raises [FileExistsError]. *)
Theorem tracked_path_below_dist_is_fatal (srcs : list string) (src : string)
    (below : PyPath.path) (w w' : World) :
  for_each srcs (collect_one root paths) w = (w', Ok tt) →
  src ∈ srcs →
  PyPath.parent (staged paths src) = dist_dir paths ++ below →
  lift_fs (λ n, Fs.makedirs false n (dist_dir paths)) w' =
  (w', Raise FileExistsError).
Proof.
  intros Hloop Hin Hp.
  pose proof (collect_loop_parents root paths srcs w w' Hloop src Hin) as Hd.
  rewrite Hp in Hd. apply is_dir_prefix in Hd.
  unfold lift_fs. now rewrite (makedirs_existing_raises _ _ Hd).
Qed.

End DistDir.

Section DistRuns.

Lemma tracked_path_below_dist_is_fatal_witness :
  lift_fs (λ n, Fs.makedirs false n (dist_dir Demo.paths))
    (for_each ["README.md"; "dist/.gitkeep"]
       (collect_one Demo.root Demo.paths) Demo.world).1 =
  ((for_each ["README.md"; "dist/.gitkeep"]
      (collect_one Demo.root Demo.paths) Demo.world).1,
   Raise FileExistsError).
Proof.
  apply (tracked_path_below_dist_is_fatal Demo.root Demo.paths
           ["README.md"; "dist/.gitkeep"] "dist/.gitkeep" [] Demo.world).
  - vm_compute. reflexivity.
  - apply elem_of_cons. right. apply elem_of_cons. now left.
  - vm_compute. reflexivity.
Defined.

End DistRuns.
